(** * ae-wavenet: model assembly, convolutional geometry and codebook
      initialisation

    A shallow embedding of [autoencoder_model.py] and [mfcc_inverter.py].
    Python objects become records, dictionaries become [gmap]s, raised
    exceptions become the [Raise] outcome of a small error monad, and the
    calls into the geometry module [vconv] become requests of a small
    free monad that a resolver answers. *)

From Stdlib Require Import ZArith Lia.
From stdpp Require Import base option list gmap strings.

Local Open Scope Z_scope.

(** ** Python values, exceptions and slices *)

Module py.

(** The exceptions the two modules can surface.  [NameError] carries the
    unbound name, [KeyError] the missing key, [RuntimeError] and
    [ValueError] and [TypeError] their message; [GeometryError] is the resolver's own. *)
Inductive exn : Type :=
| NameError (name : string)
| KeyError (key : string)
| AttributeError (attr : string)
| RuntimeError (msg : string)
| ValueError (msg : string)
| TypeError (msg : string)
| OverflowError
| StopIteration
| GeometryError.

(** Outcome of a call: a value or a raised exception. *)
Inductive result (A : Type) : Type :=
| OK (a : A)
| Raise (e : exn).
Arguments OK {A} a.
Arguments Raise {A} e.

Definition result_bind {A B} (f : A → result B) (r : result A) : result B :=
  match r with
  | OK a => f a
  | Raise e => Raise e
  end.

#[global] Instance result_ret : MRet result := λ A a, OK a.
#[global] Instance result_mbind : MBind result := λ A B f r, result_bind f r.

(** [d[key]] on a dictionary. *)
Definition getitem {V} (d : gmap string V) (key : string) : result V :=
  match d !! key with
  | Some v => OK v
  | None => Raise (KeyError key)
  end.

(** Reading an attribute that is only set by a later method. *)
Definition getattr {V} (name : string) (o : option V) : result V :=
  match o with
  | Some v => OK v
  | None => Raise (AttributeError name)
  end.

(** A slice bound [i] clamped against a sequence of length [n]:
    negative bounds count from the end, and everything is clipped to
    [0..n]. *)
Definition clamp (n : Z) (i : Z) : Z :=
  if i <? 0 then Z.max 0 (i + n) else Z.min i n.

(** [l[start:stop]] with unit step; [None] is an omitted bound. *)
Definition slice {A} (start stop : option Z) (l : list A) : list A :=
  let n := Z.of_nat (length l) in
  let lo := from_option (clamp n) 0 start in
  let hi := from_option (clamp n) n stop in
  take (Z.to_nat (hi - lo)) (drop (Z.to_nat lo) l).

(** [torch.tensor(v, dtype=torch.long)] on a Python integer: the value
    must fit a signed 64-bit word, otherwise construction raises torch's
    [RuntimeError]. *)
Definition long_min : Z := - 2 ^ 63.
Definition long_max : Z := 2 ^ 63 - 1.

Definition torch_long (v : Z) : result Z :=
  if (long_min <=? v) && (v <=? long_max) then OK v
  else Raise (RuntimeError "Overflow when unpacking long").

(** A two-element [torch.long] tensor. *)
Definition long_pair (a b : Z) : result (Z * Z) :=
  a' ← torch_long a; b' ← torch_long b; OK (a', b').

(** Outcome of a method that mutates its object and its iterator and
    contains a loop: it returns, it raises, or the step budget given to
    the loop is used up.  The first two carry the state reached. *)
Inductive outcome (S : Type) : Type :=
| Done (s : S)
| Fail (e : exn) (s : S)
| Fuel.
Arguments Done {S} s.
Arguments Fail {S} e s.
Arguments Fuel {S}.

(** Option and configuration values. [PFloat m e] is the decimal literal
    [m * 10^e]; [PRef] is a reference to a VC node. *)
Inductive pyval : Type :=
| PNone
| PBool (b : bool)
| PInt (z : Z)
| PFloat (m e : Z)
| PStr (s : string)
| PRef (vc : nat).

#[global] Instance pyval_eq_dec : EqDecision pyval.
Proof. solve_decision. Defined.

Abbreviation params := (gmap string pyval).

(** The message of the [TypeError] for a keyword given twice.  Python
    adds the name of one such keyword; which one depends on the order of
    the dictionary, and the name is left out. *)
Definition multiple_values : string :=
  "got multiple values for keyword argument".

(** A call that unpacks the dictionary [star] and adds the keywords
    [named]: a keyword given twice is a [TypeError]. *)
Fixpoint kwargs (named : list (string * pyval)) (star : params)
    : result params :=
  match named with
  | [] => OK star
  | (k, v) :: rest =>
      match star !! k with
      | Some _ => Raise (TypeError multiple_values)
      | None => kwargs rest (<[k := v]> star)
      end
  end.

(** A string literal written between double quotes inside a message. *)
Definition quoted (s : string) : string :=
  String (Ascii.ascii_of_nat 34) (s +:+ String (Ascii.ascii_of_nat 34) EmptyString).

(** The exception classes Python binds without an import. *)
Definition builtin_exception (name : string) : option (string → exn) :=
  if decide (name = "RuntimeError") then Some RuntimeError
  else if decide (name = "ValueError") then Some ValueError
  else if decide (name = "TypeError") then Some TypeError
  else if decide (name = "KeyError") then Some KeyError
  else if decide (name = "AttributeError") then Some AttributeError
  else if decide (name = "NameError") then Some NameError
  else if decide (name = "OverflowError") then Some (λ _, OverflowError)
  else if decide (name = "StopIteration") then Some (λ _, StopIteration)
  else None.

(** [raise name(msg)] inside a module whose top level binds [globals]:
    the class name is looked up first in the module, then among the
    builtins.  A module-level binding that is not an exception class
    cannot be raised, and an unbound name is a [NameError]. *)
Definition raise_ {A} (globals : list string) (name msg : string) : result A :=
  if decide (name ∈ globals)
  then Raise (TypeError "exceptions must derive from BaseException")
  else match builtin_exception name with
       | Some mk => Raise (mk msg)
       | None => Raise (NameError name)
       end.

End py.

Import py.

(** ** The geometry module [vconv] as seen by its callers *)

Module vconv.

(** Modelled from the spec: the class GridRange of vconv (the module is
    not among the sources).  Section 3 gives its three components: the
    bounding extent, the requested sub-extent and the stride, and
    [sub_length()] as the difference of the sub-extent's ends.  The
    constructor takes them in this order. *)
Record GridRange : Type := mkGridRange {
  lower_bound : Z * Z;
  sub : Z * Z;
  stride : Z;
}.

Definition sub_length (gr : GridRange) : Z := (sub gr).2 - (sub gr).1.

#[global] Instance GridRange_eq_dec : EqDecision GridRange.
Proof. solve_decision. Defined.

(** VC nodes are referred to by a stable handle into the chain. *)
Definition node : Type := nat.

(** What the two models ask of [vconv]: the three free functions of the
    resolver and the node attributes they read.  A begin node may be
    [None] (a chain whose head has no parent yet). *)
Inductive request : Type → Type :=
| input_range (beg_vc : option node) (end_vc : node) (out : GridRange)
    : request GridRange
| output_range (beg_vc : option node) (end_vc : node) (inp : GridRange)
    : request GridRange
| compute_inputs (vc : node) (out : GridRange) : request GridRange
| parent (vc : node) : request (option node)
| child (vc : node) : request (option node)
| in_len (vc : node) : request Z
| input_gr (vc : node) : request GridRange.

(** Programs over the resolver: return, raise, or ask and continue. *)
Inductive Prog (A : Type) : Type :=
| Ret (a : A)
| Throw (e : exn)
| Ask {X : Type} (q : request X) (k : X → Prog A).
Arguments Ret {A} a.
Arguments Throw {A} e.
Arguments Ask {A X} q k.

Fixpoint bind {A B} (f : A → Prog B) (p : Prog A) : Prog B :=
  match p with
  | Ret a => f a
  | Throw e => Throw e
  | Ask q k => Ask q (λ x, bind f (k x))
  end.

#[global] Instance Prog_ret : MRet Prog := λ A a, Ret a.
#[global] Instance Prog_mbind : MBind Prog := λ A B f p, bind f p.

Definition ask {X} (q : request X) : Prog X := Ask q Ret.

Definition lift {A} (r : result A) : Prog A :=
  match r with
  | OK a => Ret a
  | Raise e => Throw e
  end.

(** A resolver answers the requests against the chain it holds.  Range
    queries and attribute reads leave the chain as it is;
    [compute_inputs] records a range on the nodes it walks.
    [node_in_len] is the node method [in_len()] and [node_input_gr] the
    node attribute [input_gr]; how the two are related is the
    resolver's business. *)
Class Resolver : Type := {
  chain : Type;
  resolve_input_range :
    chain → option node → node → GridRange → result GridRange;
  resolve_output_range :
    chain → option node → node → GridRange → result GridRange;
  resolve_compute_inputs :
    chain → node → GridRange → result (GridRange * chain);
  node_parent : chain → node → result (option node);
  node_child : chain → node → result (option node);
  node_in_len : chain → node → result Z;
  node_input_gr : chain → node → result GridRange;
}.

Definition answer `{Resolver} {X} (q : request X) (c : chain)
    : result (X * chain) :=
  match q in request X return result (X * chain) with
  | input_range b e gr => r ← resolve_input_range c b e gr; OK (r, c)
  | output_range b e gr => r ← resolve_output_range c b e gr; OK (r, c)
  | compute_inputs vc gr => resolve_compute_inputs c vc gr
  | parent vc => r ← node_parent c vc; OK (r, c)
  | child vc => r ← node_child c vc; OK (r, c)
  | in_len vc => r ← node_in_len c vc; OK (r, c)
  | input_gr vc => r ← node_input_gr c vc; OK (r, c)
  end.

(** Running a program against a resolver. *)
Fixpoint run `{Resolver} {A} (p : Prog A) (c : chain) : result (A * chain) :=
  match p with
  | Ret a => OK (a, c)
  | Throw e => Raise e
  | Ask q k =>
      match answer q c with
      | OK (x, c') => run (k x) c'
      | Raise e => Raise e
      end
  end.

(** The requests a run issues, in order, up to its end or first failure. *)
Inductive call : Type :=
| Call {X : Type} (q : request X).

Fixpoint trace `{Resolver} {A} (p : Prog A) (c : chain) : list call :=
  match p with
  | Ret _ | Throw _ => []
  | Ask q k =>
      Call q ::
      match answer q c with
      | OK (x, c') => trace (k x) c'
      | Raise _ => []
      end
  end.

(** The desired-output range a call hands to the resolver, if it is one
    of the calls that take one. *)
Definition desired_output (cl : call) : option GridRange :=
  match cl with
  | Call (input_range _ _ gr) => Some gr
  | Call (compute_inputs _ gr) => Some gr
  | Call _ => None
  end.

End vconv.

Import vconv.


(** ** Tensors and the modules the models are assembled from *)

Module modules.

(** What torch, numpy and scipy provide, kept abstract: the element
    types of the tensors, k-means, and scaling by a scalar.  [Row] is
    one row of [row_width] floats; [Feat] is a (batch, channel, time)
    float tensor; [Layers] is the internal state of a WaveNet.
    [kmeans obs k] is scipy's k-means under the random seed in force
    ([None] when it refuses its arguments); [permute_flatten] is
    [t.permute(0, 2, 1).flatten(0, 1)], the rows of a float tensor. *)
Class Tensors : Type := {
  Row : Type;
  Scalar : Type;
  Counts : Type;
  Feat : Type;
  OneHot : Type;
  Voice : Type;
  Jitter : Type;
  Logit : Type;
  Loss : Type;
  Metric : Type;
  Layers : Type;
  row_width : nat;
  kmeans : list Row → nat → option (list Row);
  scale_rows : list Row → Scalar → list Row;
  scale_counts : Counts → Scalar → Counts;
  permute_flatten : Feat → list Row;
  grad_std : Loss → Feat → Metric;
  grad_mean : Loss → Feat → Metric;
}.

(** The objects of [wavenet], [wave_encoder] and the bottleneck modules
    that the models hold.  An object is kept as the keyword arguments it
    was built from together with the attributes the models read or
    assign. *)
Record PreProcess : Type := mkPreProcess { n_quant : pyval }.

Record Encoder : Type := mkEncoder {
  enc_kwargs : params;
  enc_vc : gmap string node;
}.

Record WaveNet `{Tensors} : Type := mkWaveNet {
  wn_kwargs : params;
  wn_vc : gmap string node;
  trim_ups_out : option (Z * Z);
  wn_layers : Layers;
}.

Record Bottleneck `{Tensors} : Type := mkBottleneck {
  bn_class : string;
  bn_kwargs : params;
  emb : option (list Row);
  ema_numer : option (list Row);
  ema_denom : option Counts;
  ema_gamma_comp : option Scalar;
  n_sum_ones : option Counts;
}.

Record Objective `{Tensors} : Type := mkObjective {
  obj_class : string;
  obj_args : list pyval;
  metrics : gmap string Metric;
}.

(** One batch of the data source. *)
Record VirtualBatch `{Tensors} : Type := mkVirtualBatch {
  mel_enc_input : Feat;
  wav_dec_input : list (list Z);
  wav_enc_input : list (list Z);
  voice_index : Voice;
  jitter_index : Jitter;
}.

(** The behaviour of the modules that are not among the sources: what
    their constructors allocate and what calling them computes.  A call
    of the bottleneck also returns the bottleneck as the call leaves it
    (it sets members on use).  The objective is built on the bottleneck
    and reports metrics beside the loss, so a call of it returns the
    loss, the objective as the call leaves it and the bottleneck it
    holds as the call leaves that ([None] where it holds none). *)
Class Collaborators `{Tensors} : Type := {
  Encoder_vc : params → gmap string node;
  WaveNet_vc : params → gmap string node;
  WaveNet_layers : params → Layers;
  WaveNet_post_init : WaveNet → Layers;
  Bottleneck_new : string → params → Bottleneck;
  PreProcess_call : PreProcess → list (list Z) → OneHot;
  Encoder_call : Encoder → Feat → Feat;
  Bottleneck_linear : Bottleneck → Feat → Feat;
  Bottleneck_call : Bottleneck → Feat → Feat * Bottleneck;
  WaveNet_call :
    WaveNet → OneHot → Feat → Voice → Jitter → list (list (list Logit));
  Objective_call :
    Objective → option Bottleneck →
    list (list (list Logit)) → list (list Z) →
    Loss * Objective * option Bottleneck;
}.

Definition new_Encoder `{Collaborators} (kw : params) : Encoder :=
  {| enc_kwargs := kw; enc_vc := Encoder_vc kw |}.

Definition new_WaveNet `{Collaborators} (kw : params) : WaveNet :=
  {| wn_kwargs := kw; wn_vc := WaveNet_vc kw; trim_ups_out := None;
     wn_layers := WaveNet_layers kw |}.

Definition new_Objective `{Tensors} (cls : string) (args : list pyval)
    : Objective :=
  {| obj_class := cls; obj_args := args; metrics := ∅ |}.

(** [wn.post_init()] *)
Definition post_init `{Collaborators} (wn : WaveNet) : WaveNet :=
  {| wn_kwargs := wn_kwargs wn; wn_vc := wn_vc wn;
     trim_ups_out := trim_ups_out wn;
     wn_layers := WaveNet_post_init wn |}.

(** [wn.trim_ups_out = t] *)
Definition set_trim_ups_out `{Tensors} (t : Z * Z) (wn : WaveNet) : WaveNet :=
  {| wn_kwargs := wn_kwargs wn; wn_vc := wn_vc wn;
     trim_ups_out := Some t; wn_layers := wn_layers wn |}.

(** [objective.metrics.update({k1: v1, k2: v2})] *)
Definition metrics_update `{Tensors} (k1 : string) (v1 : Metric)
    (k2 : string) (v2 : Metric) (o : Objective) : Objective :=
  {| obj_class := obj_class o; obj_args := obj_args o;
     metrics := <[k2 := v2]> (<[k1 := v1]> (metrics o)) |}.

(** [t[:, a:b]] on a (batch, time) tensor and [t[..., a:b]] on a
    (batch, channel, time) tensor. *)
Definition slice2 {A} (a b : option Z) (t : list (list A)) : list (list A) :=
  slice a b <$> t.

Definition slice3 {A} (a b : option Z) (t : list (list (list A)))
    : list (list (list A)) :=
  slice2 a b <$> t.

(** Every vector along the last dimension has length [n]. *)
Definition last_dim2 {A} (n : nat) (t : list (list A)) : Prop :=
  Forall (λ r, length r = n) t.


(** What the constructors ask of the dataset: the answers of
    [num_speakers()] and [num_mel_chan()]. *)
Record Dataset : Type := mkDataset {
  num_speakers : pyval;
  num_mel_chan : pyval;
}.

End modules.

Import modules.

(** ** autoencoder_model.py *)

Module autoencoder_model.

(** The names bound at the top level of the module: its imports and the
    class it defines. *)
Definition module_globals : list string :=
  ["stderr"; "md5"; "np"; "dumps"; "torch"; "nn"; "loss"; "kmeans";
   "ae_bn"; "mfcc"; "parse_tools"; "vconv"; "util"; "vq_bn"; "vqema_bn";
   "vae_bn"; "enc"; "dec"; "AutoEncoder"].

(** The dictionary [init_args] built by [__init__]. *)
Record InitArgs : Type := mkInitArgs {
  enc_params : params;
  bn_params : params;
  dec_params : params;
  n_mel_chan : pyval;
  training : pyval;
}.

(** The attributes of an [AutoEncoder]; an attribute is [None] until
    the method that assigns it has run. *)
Record AutoEncoder `{Tensors} : Type := mkAutoEncoder {
  init_args : option InitArgs;
  preprocess : option PreProcess;
  encoder : option Encoder;
  bottleneck : option Bottleneck;
  objective : option Objective;
  bn_type : option pyval;
  decoder : option WaveNet;
  vc : option (gmap string node);
  enc_in_len : option Z;
  enc_in_mel_len : option Z;
  embed_len : option Z;
  dec_in_len : option Z;
  trim_dec_in : option (Z * Z);
  trim_dec_out : option (Z * Z);
  wav_onehot_dec : option OneHot;
  encoding_bn : option Feat;
}.

(** A freshly allocated object, before any attribute is assigned. *)
Definition blank `{Tensors} : AutoEncoder :=
  mkAutoEncoder _ None None None None None None None None
                None None None None None None None None.

Section methods.
Context `{Collaborators}.

(** The branch of [_initialize] that picks the bottleneck and its
    objective from [bn_params['type']]. *)
Definition select_bottleneck (bn_type : pyval)
    (enc_params bn_params bn_extra : params) (training : pyval)
    : result (Bottleneck * Objective) :=
  if decide (bn_type = PStr "vqvae") then
    n_in ← getitem enc_params "n_out";
    kw ← kwargs [("n_in", n_in)] bn_extra;
    OK (Bottleneck_new "vq_bn.VQ" kw, new_Objective "vq_bn.VQLoss" [])
  else if decide (bn_type = PStr "vqvae-ema") then
    n_in ← getitem enc_params "n_out";
    kw ← kwargs [("n_in", n_in); ("training", training)] bn_extra;
    OK (Bottleneck_new "vqema_bn.VQEMA" kw,
        new_Objective "vqema_bn.VQEMALoss" [])
  else if decide (bn_type = PStr "vae") then
    n_in ← getitem enc_params "n_out";
    n_out ← getitem bn_params "n_out";
    kw ← kwargs [("n_in", n_in); ("n_out", n_out)] ∅;
    free_nats ← getitem bn_params "free_nats";
    OK (Bottleneck_new "vae_bn.VAE" kw,
        new_Objective "vae_bn.SGVBLoss" [free_nats])
  else if decide (bn_type = PStr "ae") then
    n_out ← getitem bn_extra "n_out";
    n_in ← getitem enc_params "n_out";
    kw ← kwargs [("n_out", n_out); ("n_in", n_in)] ∅;
    OK (Bottleneck_new "ae_bn.AE" kw,
        new_Objective "ae_bn.AELoss" [PFloat 1 (-3)])
  else
    raise_ module_globals "InvalidArgument"
      ("bn_type must be one of " +:+ quoted "ae" +:+ ", " +:+ quoted "vae"
       +:+ ", or " +:+ quoted "vqvae").

Definition _initialize (self : AutoEncoder) : result AutoEncoder :=
  ia ← getattr "init_args" (init_args self);
  let enc_params := enc_params ia in
  let bn_params := bn_params ia in
  let dec_params := dec_params ia in
  let n_mel_chan := n_mel_chan ia in
  let training := training ia in
  n_quant ← getitem dec_params "n_quant";
  let preprocess := mkPreProcess n_quant in
  enc_kw ← kwargs [("n_in", n_mel_chan); ("parent_vc", PNone)] enc_params;
  let encoder := new_Encoder enc_kw in
  bn_type ← getitem bn_params "type";
  let bn_extra := delete "type" bn_params in
  '(bottleneck, objective) ←
    select_bottleneck bn_type enc_params bn_params bn_extra training;
  parent_vc ← getitem (enc_vc encoder) "end";
  n_lc_in ← getitem bn_params "n_out";
  dec_kw ← kwargs [("parent_vc", PRef parent_vc); ("n_lc_in", n_lc_in)]
                  dec_params;
  let decoder := new_WaveNet dec_kw in
  OK {| init_args := init_args self;
        preprocess := Some preprocess;
        encoder := Some encoder;
        bottleneck := Some bottleneck;
        objective := Some objective;
        bn_type := Some bn_type;
        decoder := Some (post_init decoder);
        vc := Some (wn_vc decoder);
        enc_in_len := enc_in_len self;
        enc_in_mel_len := enc_in_mel_len self;
        embed_len := embed_len self;
        dec_in_len := dec_in_len self;
        trim_dec_in := trim_dec_in self;
        trim_dec_out := trim_dec_out self;
        wav_onehot_dec := wav_onehot_dec self;
        encoding_bn := encoding_bn self |}.

(** *** Geometry *)

(** The assignments at the end of [_init_geometry]. *)
Definition set_geometry (enc_in enc_in_mel embed dec_in : Z)
    (t_dec_in t_ups_out t_dec_out : Z * Z) (dec : WaveNet)
    (self : AutoEncoder) : AutoEncoder :=
  {| init_args := init_args self;
     preprocess := preprocess self;
     encoder := encoder self;
     bottleneck := bottleneck self;
     objective := objective self;
     bn_type := bn_type self;
     decoder := Some (set_trim_ups_out t_ups_out dec);
     vc := vc self;
     enc_in_len := Some enc_in;
     enc_in_mel_len := Some enc_in_mel;
     embed_len := Some embed;
     dec_in_len := Some dec_in;
     trim_dec_in := Some t_dec_in;
     trim_dec_out := Some t_dec_out;
     wav_onehot_dec := wav_onehot_dec self;
     encoding_bn := encoding_bn self |}.

Definition _init_geometry (batch_win_size : Z) (self : AutoEncoder)
    : Prog AutoEncoder :=
  let w := batch_win_size in
  enc ← lift (getattr "encoder" (encoder self));
  beg_vc ← lift (getitem (enc_vc enc) "beg");
  mfcc_vc ← ask (parent beg_vc);
  end_enc_vc ← lift (getitem (enc_vc enc) "end");
  dec ← lift (getattr "decoder" (decoder self));
  end_ups_vc ← lift (getitem (wn_vc dec) "last_upsample");
  beg_grcc_vc ← lift (getitem (wn_vc dec) "beg_grcc");
  end_grcc_vc ← lift (getitem (wn_vc dec) "end_grcc");
  let do := mkGridRange (0, 100000) (0, w) 1 in
  di ← ask (input_range (Some beg_grcc_vc) end_grcc_vc do);
  ei ← ask (input_range mfcc_vc end_grcc_vc do);
  mfcc_child ←
    match mfcc_vc with
    | Some v => ask (child v)
    | None => Throw (AttributeError "child")
    end;
  mi ← ask (input_range mfcc_child end_grcc_vc do);
  eo ← ask (output_range mfcc_vc end_enc_vc ei);
  uo ← ask (output_range mfcc_vc end_ups_vc ei);
  let enc_in := sub_length ei in
  let enc_in_mel := sub_length mi in
  let embed := sub_length eo in
  let dec_in := sub_length di in
  t_dec_in ←
    lift (long_pair ((sub di).1 - (sub ei).1) ((sub di).2 - (sub ei).1));
  t_ups_out ←
    lift (long_pair ((sub di).1 - (sub uo).1) ((sub di).2 - (sub uo).1));
  t_dec_out ←
    lift (long_pair ((sub do).1 - (sub di).1) ((sub do).2 - (sub di).1));
  Ret (set_geometry enc_in enc_in_mel embed dec_in
         t_dec_in t_ups_out t_dec_out dec self).

(** The lengths and trims [_init_geometry] derives. *)
Definition geometry (self : AutoEncoder) :=
  (enc_in_len self, enc_in_mel_len self, embed_len self, dec_in_len self,
   trim_dec_in self, trim_dec_out self, decoder self ≫= trim_ups_out).

(** *** Pickling *)

(** What a pickled state can hold under a key: the constructor
    configuration or a dictionary of learned tensors. *)
Inductive state_value : Type :=
| InitArgsDict (ia : InitArgs)
| StateDict (tensors : gmap string Feat).

Definition __getstate__ (self : AutoEncoder)
    : result (gmap string state_value) :=
  ia ← getattr "init_args" (init_args self);
  OK {[ "init_args" := InitArgsDict ia ]}.

(** [self.init_args = v] *)
Definition set_init_args (ia : InitArgs) (self : AutoEncoder) : AutoEncoder :=
  {| init_args := Some ia;
     preprocess := preprocess self;
     encoder := encoder self;
     bottleneck := bottleneck self;
     objective := objective self;
     bn_type := bn_type self;
     decoder := decoder self;
     vc := vc self;
     enc_in_len := enc_in_len self;
     enc_in_mel_len := enc_in_mel_len self;
     embed_len := embed_len self;
     dec_in_len := dec_in_len self;
     trim_dec_in := trim_dec_in self;
     trim_dec_out := trim_dec_out self;
     wav_onehot_dec := wav_onehot_dec self;
     encoding_bn := encoding_bn self |}.

Definition __setstate__ (state : gmap string state_value)
    (self : AutoEncoder) : result AutoEncoder :=
  v ← getitem state "init_args";
  match v with
  | InitArgsDict ia => _initialize (set_init_args ia self)
  | StateDict _ => Raise (KeyError "enc_params")
  end.

(** *** Codebook initialisation *)

(** A data source is an iterator: [items] is what it would yield, [pos]
    how many batches have been drawn.  [next] raises [StopIteration]
    when nothing is left. *)
Record DataSource : Type := mkDataSource {
  items : nat → option VirtualBatch;
  pos : nat;
}.

Definition next (ds : DataSource) : result (VirtualBatch * DataSource) :=
  match items ds (pos ds) with
  | Some b => OK (b, {| items := items ds; pos := S (pos ds) |})
  | None => Raise StopIteration
  end.

(** [np.empty((n, k))]: [n] rows holding whatever the allocated memory
    contains ([junk]); a negative [n] is refused. *)
Definition np_empty (junk : nat → Row) (n : Z) : result (list Row) :=
  if n <? 0 then Raise (ValueError "negative dimensions are not allowed")
  else OK (junk <$> seq 0 (Z.to_nat n)).

(** [target[lo:hi, :] = src] with broadcasting along the rows: [src]
    must have as many rows as the slice, or exactly one. *)
Definition assign_rows (err : exn) (lo hi : option Z)
    (src target : list Row) : result (list Row) :=
  let n := Z.of_nat (length target) in
  let lo' := Z.to_nat (from_option (clamp n) 0 lo) in
  let hi' := Z.to_nat (from_option (clamp n) n hi) in
  let m := (hi' - lo')%nat in
  if decide (length src = m) then
    OK (take lo' target ++ src ++ drop (lo' + m) target)
  else
    match src with
    | [r] => OK (take lo' target ++ replicate m r ++ drop (lo' + m) target)
    | _ => Raise err
    end.

(** The rows one batch contributes: the encoder output, through the
    bottleneck's linear layer, one row per batch entry and timestep. *)
Definition batch_rows (self : AutoEncoder) (vbatch : VirtualBatch)
    : result (list Row) :=
  enc ← getattr "encoder" (encoder self);
  let encoding := Encoder_call enc (mel_enc_input vbatch) in
  bn ← getattr "bottleneck" (bottleneck self);
  let ze := Bottleneck_linear bn encoding in
  OK (permute_flatten ze).

(** One pass through the body of the loop, after the batch is drawn. *)
Definition sample_step (self : AutoEncoder) (n_samples : Z)
    (vbatch : VirtualBatch) (e : Z) (samples : list Row)
    : result (Z * list Row) :=
  ze ← batch_rows self vbatch;
  let c := Z.min (n_samples - e) (Z.of_nat (length ze)) in
  samples' ←
    assign_rows (ValueError "could not broadcast input array")
      (Some e) (Some (e + c)) (slice (Some 0) (Some c) ze) samples;
  OK (e + c, samples').

(** The loop [while e != n_samples]. *)
Fixpoint sample_loop (fuel : nat) (self : AutoEncoder) (n_samples : Z)
    (data_source : DataSource) (e : Z) (samples : list Row)
    : outcome (DataSource * Z * list Row) :=
  if decide (e ≠ n_samples) then
    match fuel with
    | O => Fuel
    | S fuel' =>
        match next data_source with
        | Raise ex => Fail ex (data_source, e, samples)
        | OK (vbatch, data_source') =>
            match sample_step self n_samples vbatch e samples with
            | Raise ex => Fail ex (data_source', e, samples)
            | OK (e', samples') =>
                sample_loop fuel' self n_samples data_source' e' samples'
            end
        end
    end
  else Done (data_source, e, samples).

(** [self.bottleneck = bn] (the bottleneck is mutated in place). *)
Definition set_bottleneck (bn : Bottleneck) (self : AutoEncoder)
    : AutoEncoder :=
  {| init_args := init_args self;
     preprocess := preprocess self;
     encoder := encoder self;
     bottleneck := Some bn;
     objective := objective self;
     bn_type := bn_type self;
     decoder := decoder self;
     vc := vc self;
     enc_in_len := enc_in_len self;
     enc_in_mel_len := enc_in_mel_len self;
     embed_len := embed_len self;
     dec_in_len := dec_in_len self;
     trim_dec_in := trim_dec_in self;
     trim_dec_out := trim_dec_out self;
     wav_onehot_dec := wav_onehot_dec self;
     encoding_bn := encoding_bn self |}.

Definition set_emb (e : list Row) (bn : Bottleneck) : Bottleneck :=
  {| bn_class := bn_class bn; bn_kwargs := bn_kwargs bn;
     emb := Some e; ema_numer := ema_numer bn; ema_denom := ema_denom bn;
     ema_gamma_comp := ema_gamma_comp bn; n_sum_ones := n_sum_ones bn |}.

Definition set_ema_numer (numer : list Row) (bn : Bottleneck) : Bottleneck :=
  {| bn_class := bn_class bn; bn_kwargs := bn_kwargs bn;
     emb := emb bn; ema_numer := Some numer; ema_denom := ema_denom bn;
     ema_gamma_comp := ema_gamma_comp bn; n_sum_ones := n_sum_ones bn |}.

Definition set_ema_denom (denom : Counts) (bn : Bottleneck) : Bottleneck :=
  {| bn_class := bn_class bn; bn_kwargs := bn_kwargs bn;
     emb := emb bn; ema_numer := ema_numer bn; ema_denom := Some denom;
     ema_gamma_comp := ema_gamma_comp bn; n_sum_ones := n_sum_ones bn |}.

Definition usage_error : string :=
  "init_vq_embed only applies to the vqvae model type".

(** What precedes the loop: the guard on the bottleneck type, the shape
    of the codebook and the allocation of [samples]. *)
Definition codebook_setup (junk : nat → Row) (n_samples : Z)
    (self : AutoEncoder) : result (Bottleneck * nat * list Row) :=
  t ← getattr "bn_type" (bn_type self);
  if decide (t ∉ [PStr "vqvae"; PStr "vqvae-ema"]) then
    raise_ module_globals "RuntimeError" usage_error
  else
    bn ← getattr "bottleneck" (bottleneck self);
    cb ← getattr "emb" (emb bn);
    let n_codes := length cb in
    samples ← np_empty junk n_samples;
    OK (bn, n_codes, samples).

(** What follows the loop: k-means and the in-place assignment of the
    codebook [bn.emb[...] = km]. *)
Definition codebook_assign (samples : list Row) (n_codes : nat)
    (bn : Bottleneck) : result Bottleneck :=
  km ← match kmeans samples n_codes with
       | Some km => OK km
       | None => Raise (ValueError "kmeans")
       end;
  cb ← getattr "emb" (emb bn);
  cb' ← assign_rows (RuntimeError "shape mismatch") None None km cb;
  OK (set_emb cb' bn).

(** The two assignments made for the EMA variant. *)
Definition ema_numer_assign (bn : Bottleneck) : result Bottleneck :=
  cb ← getattr "emb" (emb bn);
  g ← getattr "ema_gamma_comp" (ema_gamma_comp bn);
  OK (set_ema_numer (scale_rows cb g) bn).

Definition ema_denom_assign (bn : Bottleneck) : result Bottleneck :=
  ones ← getattr "n_sum_ones" (n_sum_ones bn);
  g ← getattr "ema_gamma_comp" (ema_gamma_comp bn);
  OK (set_ema_denom (scale_counts ones g) bn).

(** The statements after the loop; the bottleneck is mutated in place,
    so a failure leaves the assignments made before it. *)
Definition codebook_store (samples : list Row) (n_codes : nat)
    (bn : Bottleneck) (self : AutoEncoder) : AutoEncoder * option exn :=
  match codebook_assign samples n_codes bn with
  | Raise ex => (self, Some ex)
  | OK bn1 =>
      let self1 := set_bottleneck bn1 self in
      if decide (bn_type self1 = Some (PStr "vqvae-ema")) then
        match ema_numer_assign bn1 with
        | Raise ex => (self1, Some ex)
        | OK bn2 =>
            let self2 := set_bottleneck bn2 self1 in
            match ema_denom_assign bn2 with
            | Raise ex => (self2, Some ex)
            | OK bn3 => (set_bottleneck bn3 self2, None)
            end
        end
      else (self1, None)
  end.

Definition init_codebook (fuel : nat) (junk : nat → Row)
    (data_source : DataSource) (n_samples : Z) (self : AutoEncoder)
    : outcome (AutoEncoder * DataSource) :=
  match codebook_setup junk n_samples self with
  | Raise ex => Fail ex (self, data_source)
  | OK (bn, n_codes, samples) =>
      match sample_loop fuel self n_samples data_source 0 samples with
      | Fuel => Fuel
      | Fail ex (data_source', _, _) => Fail ex (self, data_source')
      | Done (data_source', _, samples') =>
          match codebook_store samples' n_codes bn self with
          | (self', Some ex) => Fail ex (self', data_source')
          | (self', None) => Done (self', data_source')
          end
      end
  end.

(** *** Forward pass *)

Definition set_encoding_bn (c : Feat) (self : AutoEncoder) : AutoEncoder :=
  {| init_args := init_args self;
     preprocess := preprocess self;
     encoder := encoder self;
     bottleneck := bottleneck self;
     objective := objective self;
     bn_type := bn_type self;
     decoder := decoder self;
     vc := vc self;
     enc_in_len := enc_in_len self;
     enc_in_mel_len := enc_in_mel_len self;
     embed_len := embed_len self;
     dec_in_len := dec_in_len self;
     trim_dec_in := trim_dec_in self;
     trim_dec_out := trim_dec_out self;
     wav_onehot_dec := wav_onehot_dec self;
     encoding_bn := Some c |}.

Definition set_wav_onehot_dec (o : OneHot) (self : AutoEncoder)
    : AutoEncoder :=
  {| init_args := init_args self;
     preprocess := preprocess self;
     encoder := encoder self;
     bottleneck := bottleneck self;
     objective := objective self;
     bn_type := bn_type self;
     decoder := decoder self;
     vc := vc self;
     enc_in_len := enc_in_len self;
     enc_in_mel_len := enc_in_mel_len self;
     embed_len := embed_len self;
     dec_in_len := dec_in_len self;
     trim_dec_in := trim_dec_in self;
     trim_dec_out := trim_dec_out self;
     wav_onehot_dec := Some o;
     encoding_bn := encoding_bn self |}.

Definition set_objective (o : Objective) (self : AutoEncoder) : AutoEncoder :=
  {| init_args := init_args self;
     preprocess := preprocess self;
     encoder := encoder self;
     bottleneck := bottleneck self;
     objective := Some o;
     bn_type := bn_type self;
     decoder := decoder self;
     vc := vc self;
     enc_in_len := enc_in_len self;
     enc_in_mel_len := enc_in_mel_len self;
     embed_len := embed_len self;
     dec_in_len := dec_in_len self;
     trim_dec_in := trim_dec_in self;
     trim_dec_out := trim_dec_out self;
     wav_onehot_dec := wav_onehot_dec self;
     encoding_bn := encoding_bn self |}.

Definition forward (mels : Feat) (wav_onehot_dec : OneHot)
    (voice_inds : Voice) (jitter_index : Jitter) (self : AutoEncoder)
    : result (list (list (list Logit)) * AutoEncoder) :=
  enc ← getattr "encoder" (encoder self);
  let encoding := Encoder_call enc mels in
  bn ← getattr "bottleneck" (bottleneck self);
  let called := Bottleneck_call bn encoding in
  let self := set_encoding_bn called.1 (set_bottleneck called.2 self) in
  dec ← getattr "decoder" (decoder self);
  code ← getattr "encoding_bn" (encoding_bn self);
  let quant := WaveNet_call dec wav_onehot_dec code voice_inds jitter_index in
  OK (quant, self).

Definition run (vbatch : VirtualBatch) (self : AutoEncoder)
    : result (list (list (list Logit)) * list (list Z) * Loss * AutoEncoder) :=
  pre ← getattr "preprocess" (preprocess self);
  let wav_onehot_dec := PreProcess_call pre (wav_dec_input vbatch) in
  trim ← getattr "trim_dec_out" (trim_dec_out self);
  let wav_batch_out :=
    slice2 (Some trim.1) (Some trim.2) (wav_dec_input vbatch) in
  let self := set_wav_onehot_dec wav_onehot_dec self in
  '(quant, self) ←
    forward (mel_enc_input vbatch) wav_onehot_dec
            (voice_index vbatch) (jitter_index vbatch) self;
  let pred := slice3 None (Some (-1)) quant in
  let target := slice2 (Some 1) None wav_batch_out in
  obj ← getattr "objective" (objective self);
  let called := Objective_call obj (bottleneck self) pred target in
  let loss := called.1.1 in
  let self := set_objective called.1.2 self in
  let self :=
    match called.2 with
    | Some bn => set_bottleneck bn self
    | None => self
    end in
  code ← getattr "encoding_bn" (encoding_bn self);
  let mel_grad_sd := grad_std loss (mel_enc_input vbatch) in
  let bn_grad_sd := grad_std loss code in
  obj' ← getattr "objective" (objective self);
  let self :=
    set_objective
      (metrics_update "mel_grad_sd" mel_grad_sd "bn_grad_sd" bn_grad_sd obj')
      self in
  OK (pred, target, loss, self).

(** *** Construction *)

(** [__init__].  [opts_dict] is [vars(opts)], so that [opts.training]
    is its entry 'training'; [get_prefixed_items] stands for the
    function of that name in [parse_tools], which is not among the
    sources. *)
Definition __init__ (get_prefixed_items : params → string → params)
    (opts_dict : params) (dataset : Dataset) (self : AutoEncoder)
    : result AutoEncoder :=
  let enc_params := get_prefixed_items opts_dict "enc_" in
  let bn_params := get_prefixed_items opts_dict "bn_" in
  let dec_params := get_prefixed_items opts_dict "dec_" in
  let dec_params := <["n_speakers" := num_speakers dataset]> dec_params in
  training ← getattr "training" (opts_dict !! "training");
  _initialize
    (set_init_args
       (mkInitArgs enc_params bn_params dec_params (num_mel_chan dataset)
                   training)
       self).

(** *** Printing the chain *)

(** The loop of [print_geometry]: [printed] collects the nodes handed
    to [print], [None] is a step budget used up. *)
Fixpoint print_loop (fuel : nat) (vc : option node) (printed : list node)
    : Prog (option (list node)) :=
  match vc with
  | None => Ret (Some printed)
  | Some v =>
      match fuel with
      | O => Ret None
      | S fuel' =>
          next_vc ← ask (child v);
          print_loop fuel' next_vc (printed ++ [v])
      end
  end.

Definition print_geometry (fuel : nat) (self : AutoEncoder)
    : Prog (option (list node)) :=
  enc ← lift (getattr "encoder" (encoder self));
  beg_vc ← lift (getitem (enc_vc enc) "beg");
  vc ← ask (parent beg_vc);
  print_loop fuel vc [].

End methods.

End autoencoder_model.

(** ** mfcc_inverter.py *)

Module mfcc_inverter.

Record InitArgs : Type := mkInitArgs {
  dec_params : params;
  mi_params : params;
}.

(** The attributes of an [MfccInverter]. *)
Record MfccInverter `{Tensors} : Type := mkMfccInverter {
  init_args : option InitArgs;
  bn_type : option pyval;
  preprocess : option PreProcess;
  wavenet : option WaveNet;
  objective : option Objective;
  enc_in_len : option Z;
  enc_in_mel_len : option Z;
  embed_len : option Z;
  dec_in_len : option Z;
  trim_dec_in : option (Z * Z);
  trim_dec_out : option (Z * Z);
  wav_onehot_dec : option OneHot;
}.

Definition blank `{Tensors} : MfccInverter :=
  mkMfccInverter _ None None None None None None None None None None None None.

Section methods.
Context `{Collaborators}.

Definition _initialize (self : MfccInverter) : result MfccInverter :=
  ia ← getattr "init_args" (init_args self);
  let dec_params := dec_params ia in
  let mi_params := mi_params ia in
  n_quant ← getitem dec_params "n_quant";
  let preprocess := mkPreProcess n_quant in
  n_lc_in ← getitem mi_params "n_lc_in";
  kw ← kwargs [("parent_vc", PNone); ("n_lc_in", n_lc_in)] dec_params;
  OK {| init_args := init_args self;
        bn_type := Some (PStr "none");
        preprocess := Some preprocess;
        wavenet := Some (new_WaveNet kw);
        objective := Some (new_Objective "wn.RecLoss" []);
        enc_in_len := enc_in_len self;
        enc_in_mel_len := enc_in_mel_len self;
        embed_len := embed_len self;
        dec_in_len := dec_in_len self;
        trim_dec_in := trim_dec_in self;
        trim_dec_out := trim_dec_out self;
        wav_onehot_dec := wav_onehot_dec self |}.

(** *** Geometry *)

Definition set_geometry (enc_in enc_in_mel embed dec_in : Z)
    (t_dec_in t_dec_out : Z * Z) (wn : WaveNet)
    (self : MfccInverter) : MfccInverter :=
  {| init_args := init_args self;
     bn_type := bn_type self;
     preprocess := preprocess self;
     wavenet := Some wn;
     objective := objective self;
     enc_in_len := Some enc_in;
     enc_in_mel_len := Some enc_in_mel;
     embed_len := Some embed;
     dec_in_len := Some dec_in;
     trim_dec_in := Some t_dec_in;
     trim_dec_out := Some t_dec_out;
     wav_onehot_dec := wav_onehot_dec self |}.

(** [vc.in_len()] on a node that may be [None]. *)
Definition in_len_of (vc : option node) : Prog Z :=
  match vc with
  | Some v => ask (in_len v)
  | None => Throw (AttributeError "in_len")
  end.

Definition input_gr_of (vc : option node) : Prog GridRange :=
  match vc with
  | Some v => ask (input_gr v)
  | None => Throw (AttributeError "input_gr")
  end.

Definition child_of (vc : option node) : Prog (option node) :=
  match vc with
  | Some v => ask (child v)
  | None => Throw (AttributeError "child")
  end.

Definition _init_geometry (batch_win_size : Z) (self : MfccInverter)
    : Prog MfccInverter :=
  let end_gr := mkGridRange (0, 100000) (0, batch_win_size) 1 in
  wn ← lift (getattr "wavenet" (wavenet self));
  end_vc ← lift (getitem (wn_vc wn) "end_grcc");
  end_gr_actual ← ask (compute_inputs end_vc end_gr);
  beg_vc ← lift (getitem (wn_vc wn) "beg");
  mfcc_vc ← ask (parent beg_vc);
  beg_grcc_vc ← lift (getitem (wn_vc wn) "beg_grcc");
  enc_in ← in_len_of mfcc_vc;
  mfcc_child ← child_of mfcc_vc;
  embed ← in_len_of mfcc_child;
  dec_in ← ask (in_len beg_grcc_vc);
  di ← ask (input_gr beg_grcc_vc);
  wi ← input_gr_of mfcc_vc;
  t_dec_in ←
    lift (long_pair ((sub di).1 - (sub wi).1) ((sub di).2 - (sub wi).1));
  t_dec_out ←
    lift (long_pair ((sub end_gr).1 - (sub di).1)
                    ((sub end_gr).2 - (sub di).1));
  ups_len ← ask (in_len beg_grcc_vc);
  t_ups_out ← lift (long_pair 0 ups_len);
  Ret (set_geometry enc_in embed embed dec_in t_dec_in t_dec_out
         (post_init (set_trim_ups_out t_ups_out wn)) self).

(** The lengths and trims [_init_geometry] derives. *)
Definition geometry (self : MfccInverter) :=
  (enc_in_len self, enc_in_mel_len self, embed_len self, dec_in_len self,
   trim_dec_in self, trim_dec_out self, wavenet self ≫= trim_ups_out).

(** *** Pickling *)

Inductive state_value : Type :=
| InitArgsDict (ia : InitArgs)
| StateDict (tensors : gmap string Feat).

Definition __getstate__ (self : MfccInverter)
    : result (gmap string state_value) :=
  ia ← getattr "init_args" (init_args self);
  OK {[ "init_args" := InitArgsDict ia ]}.

Definition set_init_args (ia : InitArgs) (self : MfccInverter)
    : MfccInverter :=
  {| init_args := Some ia;
     bn_type := bn_type self;
     preprocess := preprocess self;
     wavenet := wavenet self;
     objective := objective self;
     enc_in_len := enc_in_len self;
     enc_in_mel_len := enc_in_mel_len self;
     embed_len := embed_len self;
     dec_in_len := dec_in_len self;
     trim_dec_in := trim_dec_in self;
     trim_dec_out := trim_dec_out self;
     wav_onehot_dec := wav_onehot_dec self |}.

Definition __setstate__ (state : gmap string state_value)
    (self : MfccInverter) : result MfccInverter :=
  v ← getitem state "init_args";
  match v with
  | InitArgsDict ia => _initialize (set_init_args ia self)
  | StateDict _ => Raise (KeyError "dec_params")
  end.

(** *** Forward pass *)

Definition set_wav_onehot_dec (o : OneHot) (self : MfccInverter)
    : MfccInverter :=
  {| init_args := init_args self;
     bn_type := bn_type self;
     preprocess := preprocess self;
     wavenet := wavenet self;
     objective := objective self;
     enc_in_len := enc_in_len self;
     enc_in_mel_len := enc_in_mel_len self;
     embed_len := embed_len self;
     dec_in_len := dec_in_len self;
     trim_dec_in := trim_dec_in self;
     trim_dec_out := trim_dec_out self;
     wav_onehot_dec := Some o |}.

Definition set_objective (o : Objective) (self : MfccInverter)
    : MfccInverter :=
  {| init_args := init_args self;
     bn_type := bn_type self;
     preprocess := preprocess self;
     wavenet := wavenet self;
     objective := Some o;
     enc_in_len := enc_in_len self;
     enc_in_mel_len := enc_in_mel_len self;
     embed_len := embed_len self;
     dec_in_len := dec_in_len self;
     trim_dec_in := trim_dec_in self;
     trim_dec_out := trim_dec_out self;
     wav_onehot_dec := wav_onehot_dec self |}.

Definition forward (mels : Feat) (wav_onehot_dec : OneHot)
    (voice_inds : Voice) (jitter_index : Jitter) (self : MfccInverter)
    : result (list (list (list Logit))) :=
  wn ← getattr "wavenet" (wavenet self);
  OK (WaveNet_call wn wav_onehot_dec mels voice_inds jitter_index).

Definition run (vbatch : VirtualBatch) (self : MfccInverter)
    : result (list (list (list Logit)) * list (list Z) * Loss * MfccInverter) :=
  pre ← getattr "preprocess" (preprocess self);
  let wav_onehot_dec := PreProcess_call pre (wav_dec_input vbatch) in
  trim ← getattr "trim_dec_out" (trim_dec_out self);
  let wav_batch_out :=
    slice2 (Some trim.1) (Some trim.2) (wav_dec_input vbatch) in
  let self := set_wav_onehot_dec wav_onehot_dec self in
  quant ←
    forward (mel_enc_input vbatch) wav_onehot_dec
            (voice_index vbatch) (jitter_index vbatch) self;
  let pred := slice3 None (Some (-1)) quant in
  let target := slice2 (Some 1) None wav_batch_out in
  obj ← getattr "objective" (objective self);
  let called := Objective_call obj None pred target in
  let loss := called.1.1 in
  let self := set_objective called.1.2 self in
  let mel_grad := mel_enc_input vbatch in
  obj' ← getattr "objective" (objective self);
  let self :=
    set_objective
      (metrics_update "mel_grad_sd" (grad_std loss mel_grad)
                      "mel_grad_mean" (grad_mean loss mel_grad) obj')
      self in
  OK (pred, target, loss, self).

(** *** Construction *)

(** [__init__]; [opts_dict] and [get_prefixed_items] as for the
    autoencoder. *)
Definition __init__ (get_prefixed_items : params → string → params)
    (opts_dict : params) (dataset : Dataset) (self : MfccInverter)
    : result MfccInverter :=
  let dec_params := get_prefixed_items opts_dict "dec_" in
  let dec_params := <["n_speakers" := num_speakers dataset]> dec_params in
  let mi_params := get_prefixed_items opts_dict "mi_" in
  _initialize (set_init_args (mkInitArgs dec_params mi_params) self).

End methods.

End mfcc_inverter.

(** ** A resolver for the examples *)

(** [vconv] is not among the sources, and the properties of the two
    models are stated for every resolver.  This module is one resolver,
    small enough to compute with, on which they are tried.  Its stages
    have the attributes and the two length transforms of a VC node; how
    it places a range on the axis, and what it gives for [in_len()], are
    choices of this example and say nothing of [vconv]'s own. *)
Module chain_model.

(** A stage of the chain.  A node's parent and child are its neighbours
    in the chain, and [vc_input_gr] is the range [compute_inputs]
    records on it. *)
Record VirtualConv : Type := mkVirtualConv {
  kernel_size : Z;
  vc_stride : Z;
  dilation : Z;
  left_wing_size : Z;
  right_wing_size : Z;
  vc_input_gr : option GridRange;
}.

Definition effective_kernel_span (vc : VirtualConv) : Z :=
  (kernel_size vc - 1) * dilation vc + 1.

Definition input_length (vc : VirtualConv) (output_length : Z) : Z :=
  (output_length - 1) * vc_stride vc + effective_kernel_span vc.

Definition output_length (vc : VirtualConv) (input_length : Z) : Z :=
  (input_length - effective_kernel_span vc) `div` vc_stride vc + 1.

(** One backward and one forward step.  The example places the input
    one left wing before the output, with the extent [input_length]
    gives, and the forward step undoes this with [output_length]; it
    keeps the stride of the range. *)
Definition in_span (vc : VirtualConv) (r : Z * Z) : Z * Z :=
  (r.1 - left_wing_size vc,
   r.1 - left_wing_size vc + input_length vc (r.2 - r.1)).

Definition out_span (vc : VirtualConv) (r : Z * Z) : Z * Z :=
  (r.1 + left_wing_size vc,
   r.1 + left_wing_size vc + output_length vc (r.2 - r.1)).

Definition in_range (vc : VirtualConv) (gr : GridRange) : GridRange :=
  {| lower_bound := in_span vc (lower_bound gr);
     sub := in_span vc (sub gr);
     stride := stride gr |}.

Definition out_range (vc : VirtualConv) (gr : GridRange) : GridRange :=
  {| lower_bound := out_span vc (lower_bound gr);
     sub := out_span vc (sub gr);
     stride := stride gr |}.

(** The ranges the example accepts: a non-empty sub-range inside the
    bounding extent. *)
Definition valid (gr : GridRange) : Prop :=
  (lower_bound gr).1 ≤ (sub gr).1 ∧ (sub gr).1 < (sub gr).2 ∧
  (sub gr).2 ≤ (lower_bound gr).2.

#[global] Instance valid_dec gr : Decision (valid gr).
Proof. unfold valid. apply _. Defined.

(** A range that violates the invariant is a geometry error. *)
Definition checked (gr : GridRange) : result GridRange :=
  if decide (valid gr) then OK gr else Raise GeometryError.

Definition input_step (vc : VirtualConv) (gr : GridRange) : result GridRange :=
  checked (in_range vc gr).

Definition output_step (vc : VirtualConv) (gr : GridRange) : result GridRange :=
  checked (out_range vc gr).

(** Backward walk over a stretch of the chain, last stage first, and
    forward walk, first stage first. *)
Definition walk_in (stages : list VirtualConv) (gr : GridRange)
    : result GridRange :=
  foldr (λ vc acc, r ← acc; input_step vc r) (checked gr) stages.

Definition walk_out (stages : list VirtualConv) (gr : GridRange)
    : result GridRange :=
  foldl (λ acc vc, r ← acc; output_step vc r) (checked gr) stages.

(** The stages from [beg_vc] to [end_vc], both included. *)
Definition stretch (c : list VirtualConv) (beg_vc : option node)
    (end_vc : node) : result (list VirtualConv) :=
  match beg_vc with
  | Some b =>
      if decide (b ≤ end_vc ∧ end_vc < length c)%nat
      then OK (take (S end_vc - b) (drop b c))
      else Raise GeometryError
  | None => Raise GeometryError
  end.

(** The three functions of the resolver: a backward walk, a forward
    walk, and a backward walk that records what it finds. *)
Definition input_range (c : list VirtualConv) (beg_vc : option node)
    (end_vc : node) (out : GridRange) : result GridRange :=
  stages ← stretch c beg_vc end_vc; walk_in stages out.

Definition output_range (c : list VirtualConv) (beg_vc : option node)
    (end_vc : node) (inp : GridRange) : result GridRange :=
  stages ← stretch c beg_vc end_vc; walk_out stages inp.

Definition set_input_gr (gr : GridRange) (vc : VirtualConv) : VirtualConv :=
  {| kernel_size := kernel_size vc; vc_stride := vc_stride vc;
     dilation := dilation vc; left_wing_size := left_wing_size vc;
     right_wing_size := right_wing_size vc; vc_input_gr := Some gr |}.

(** Walks back from the last of [stages], recording on every stage the
    input range it needs; returns the stages and the range at the head. *)
Fixpoint record_inputs (stages : list VirtualConv) (gr : GridRange)
    : result (list VirtualConv * GridRange) :=
  match stages with
  | [] => r ← checked gr; OK ([], r)
  | vc :: rest =>
      '(rest', r) ← record_inputs rest gr;
      r' ← input_step vc r;
      OK (set_input_gr r' vc :: rest', r')
  end.

Definition compute_inputs (c : list VirtualConv) (vc : node)
    (out : GridRange) : result (GridRange * list VirtualConv) :=
  if decide (vc < length c)%nat then
    '(stages, _) ← record_inputs (take (S vc) c) out;
    OK (out, stages ++ drop (S vc) c)
  else Raise GeometryError.

Definition parent (c : list VirtualConv) (vc : node) : result (option node) :=
  if decide (vc < length c)%nat
  then OK (match vc with O => None | S p => Some p end)
  else Raise (AttributeError "parent").

Definition child (c : list VirtualConv) (vc : node) : result (option node) :=
  if decide (vc < length c)%nat
  then OK (if decide (S vc < length c)%nat then Some (S vc) else None)
  else Raise (AttributeError "child").

Definition input_gr (c : list VirtualConv) (vc : node) : result GridRange :=
  match c !! vc with
  | Some v => getattr "input_gr" (vc_input_gr v)
  | None => Raise (AttributeError "input_gr")
  end.

(** The example answers [in_len()] with the length of the range
    recorded on the node. *)
Definition recorded_length (c : list VirtualConv) (vc : node) : result Z :=
  gr ← input_gr c vc; OK (sub_length gr).

Definition resolver : Resolver := {|
  chain := list VirtualConv;
  resolve_input_range := input_range;
  resolve_output_range := output_range;
  resolve_compute_inputs := compute_inputs;
  node_parent := parent;
  node_child := child;
  node_in_len := recorded_length;
  node_input_gr := input_gr;
|}.

End chain_model.

(** * Notions the properties are stated with *)

Module notions.

(** ** Programs over the resolver *)

(** A property of every request a program can issue, whatever the
    resolver answers. *)
Inductive Always (P : call → Prop) {A : Type} : Prog A → Prop :=
| Always_ret a : Always P (Ret a)
| Always_throw e : Always P (Throw e)
| Always_ask {X} (q : request X) k :
    P (Call q) → (∀ x, Always P (k x)) → Always P (Ask q k).

(** Range queries and attribute reads leave the chain as it is. *)
Definition reads {X} (q : request X) : Prop :=
  match q with
  | compute_inputs _ _ => False
  | _ => True
  end.

(** ** Geometry *)

Section with_resolver.
Context `{Resolver} `{Collaborators}.

(** The range both models hand to the resolver as the desired output. *)
Definition desired (w : Z) : GridRange := mkGridRange (0, 100000) (0, w) 1.

(** Everything the autoencoder's [_init_geometry] looked up and was
    answered, when it completes. *)
Inductive ae_resolved (w : Z) (self : autoencoder_model.AutoEncoder)
    (c : chain) : autoencoder_model.AutoEncoder → Prop :=
| AeResolved enc dec beg mfcc end_enc end_ups beg_grcc end_grcc mfcc_child
    di ei mi eo uo :
    autoencoder_model.encoder self = Some enc →
    autoencoder_model.decoder self = Some dec →
    enc_vc enc !! "beg" = Some beg →
    enc_vc enc !! "end" = Some end_enc →
    wn_vc dec !! "last_upsample" = Some end_ups →
    wn_vc dec !! "beg_grcc" = Some beg_grcc →
    wn_vc dec !! "end_grcc" = Some end_grcc →
    node_parent c beg = OK (Some mfcc) →
    node_child c mfcc = OK mfcc_child →
    resolve_input_range c (Some beg_grcc) end_grcc (desired w) = OK di →
    resolve_input_range c (Some mfcc) end_grcc (desired w) = OK ei →
    resolve_input_range c mfcc_child end_grcc (desired w) = OK mi →
    resolve_output_range c (Some mfcc) end_enc ei = OK eo →
    resolve_output_range c (Some mfcc) end_ups ei = OK uo →
    long_pair ((sub di).1 - (sub ei).1) ((sub di).2 - (sub ei).1)
    = OK ((sub di).1 - (sub ei).1, (sub di).2 - (sub ei).1) →
    long_pair ((sub di).1 - (sub uo).1) ((sub di).2 - (sub uo).1)
    = OK ((sub di).1 - (sub uo).1, (sub di).2 - (sub uo).1) →
    long_pair (0 - (sub di).1) (w - (sub di).1)
    = OK (0 - (sub di).1, w - (sub di).1) →
    ae_resolved w self c
      (autoencoder_model.set_geometry
         (sub_length ei) (sub_length mi) (sub_length eo) (sub_length di)
         ((sub di).1 - (sub ei).1, (sub di).2 - (sub ei).1)
         ((sub di).1 - (sub uo).1, (sub di).2 - (sub uo).1)
         (0 - (sub di).1, w - (sub di).1)
         dec self).

(** The same for the MFCC inverter; [c1] is the chain after
    [compute_inputs].  The three lengths are what [in_len()] answers,
    the two ranges what [input_gr] holds. *)
Inductive mi_resolved (w : Z) (self : mfcc_inverter.MfccInverter)
    (c c1 : chain) : mfcc_inverter.MfccInverter → Prop :=
| MiResolved wn end_grcc actual beg mfcc beg_grcc mfcc_child
    enc_in embed dec_in wi di :
    mfcc_inverter.wavenet self = Some wn →
    wn_vc wn !! "end_grcc" = Some end_grcc →
    resolve_compute_inputs c end_grcc (desired w) = OK (actual, c1) →
    wn_vc wn !! "beg" = Some beg →
    node_parent c1 beg = OK (Some mfcc) →
    wn_vc wn !! "beg_grcc" = Some beg_grcc →
    node_in_len c1 mfcc = OK enc_in →
    node_child c1 mfcc = OK (Some mfcc_child) →
    node_in_len c1 mfcc_child = OK embed →
    node_in_len c1 beg_grcc = OK dec_in →
    node_input_gr c1 beg_grcc = OK di →
    node_input_gr c1 mfcc = OK wi →
    long_pair ((sub di).1 - (sub wi).1) ((sub di).2 - (sub wi).1)
    = OK ((sub di).1 - (sub wi).1, (sub di).2 - (sub wi).1) →
    long_pair (0 - (sub di).1) (w - (sub di).1)
    = OK (0 - (sub di).1, w - (sub di).1) →
    long_pair 0 dec_in = OK (0, dec_in) →
    mi_resolved w self c c1
      (mfcc_inverter.set_geometry
         enc_in embed embed dec_in
         ((sub di).1 - (sub wi).1, (sub di).2 - (sub wi).1)
         (0 - (sub di).1, w - (sub di).1)
         (post_init (set_trim_ups_out (0, dec_in) wn)) self).

End with_resolver.



(** A call that takes a desired output range takes the range of [w]. *)
Definition takes_desired (w : Z) (cl : call) : Prop :=
  ∀ gr, desired_output cl = Some gr → gr = mkGridRange (0, 100000) (0, w) 1.

(** ** The resolver of the examples *)

Section chain.
Import chain_model.


End chain.

(** ** Assembly *)

(** The bottleneck types [_initialize] knows. *)
Definition known_types : list pyval :=
  [PStr "vqvae"; PStr "vqvae-ema"; PStr "vae"; PStr "ae"].

(** ** Codebook initialisation *)

Section with_collaborators.
Context `{Collaborators}.
Import autoencoder_model.

(** The rows of the [k] batches a source yields from position [i] on. *)
Fixpoint drawn_rows (self : AutoEncoder) (items : nat → option VirtualBatch)
    (i k : nat) : list Row :=
  match k with
  | O => []
  | S k' =>
      match items i with
      | Some b =>
          match batch_rows self b with
          | OK rows => rows
          | Raise _ => []
          end
      | None => []
      end ++ drawn_rows self items (S i) k'
  end.

(** What [emb[...] = km] leaves in a codebook of [n] rows. *)
Definition broadcast (n : nat) (km : list Row) : list Row :=
  if decide (length km = n) then km
  else match km with
       | [r] => replicate n r
       | _ => km
       end.


(** The bottleneck types that carry a codebook. *)
Definition vq_types : list pyval := [PStr "vqvae"; PStr "vqvae-ema"].

(** The exceptions the loop and the statements after it can raise are
    not the usage error. *)
Definition not_usage (ex : exn) : Prop := ex ≠ RuntimeError usage_error.

End with_collaborators.

(** ** The forward pass *)


(** ** Printing the chain *)

(** The nodes met from [vc] on by following the child links to the
    end of the chain. *)
Inductive lineage `{Resolver} (c : chain) : option node → list node → Prop :=
| lineage_end : lineage c None []
| lineage_step v next_vc l :
    node_child c v = OK next_vc → lineage c next_vc l →
    lineage c (Some v) (v :: l).

End notions.

(** ** A small concrete model *)

Module example.
Import chain_model.

(** Tensors of integers, a decoder that drops the first three samples,
    and a k-means stand-in that keeps the first observations. *)
#[local] Instance tensors : Tensors := {|
  Row := Z;
  Scalar := Z;
  Counts := Z;
  Feat := list Z;
  OneHot := list (list Z);
  Voice := unit;
  Jitter := unit;
  Logit := Z;
  Loss := Z;
  Metric := Z;
  Layers := nat;
  row_width := 1;
  kmeans := λ samples n, Some (take n samples);
  scale_rows := λ rows g, Z.mul g <$> rows;
  scale_counts := Z.mul;
  permute_flatten := id;
  grad_std := λ _ _, 0;
  grad_mean := λ _ _, 0;
|}.

#[local] Instance collaborators : Collaborators := {|
  Encoder_vc := λ _, {[ "beg" := 1%nat; "end" := 1%nat ]};
  WaveNet_vc := λ _,
    {[ "beg" := 2%nat; "last_upsample" := 2%nat;
       "beg_grcc" := 3%nat; "end_grcc" := 4%nat ]};
  WaveNet_layers := λ _, 0%nat;
  WaveNet_post_init := λ wn, S (wn_layers wn);
  Bottleneck_new := λ cls kw,
    mkBottleneck _ cls kw (Some [0; 0]) (Some [0; 0]) (Some 0) (Some 2)
                 (Some 1);
  PreProcess_call := λ _ wav, wav;
  Encoder_call := λ _ mels, mels;
  Bottleneck_linear := λ _ x, x;
  Bottleneck_call := λ bn x, (x, bn);
  WaveNet_call := λ _ wav _ _ _, (λ row, [row; row]) <$> slice2 (Some 3) None wav;
  Objective_call := λ obj bn _ _, (0, obj, bn);
|}.

(** A chain of five stages: the MFCC stage, one encoder stage, one
    upsampling stage and two stages of the gated-residual stack. *)
Definition stages : list VirtualConv :=
  [ mkVirtualConv 5 2 1 2 2 None;
    mkVirtualConv 3 1 1 1 1 None;
    mkVirtualConv 2 1 1 1 0 None;
    mkVirtualConv 2 1 1 1 0 None;
    mkVirtualConv 2 1 2 2 0 None ].

Definition vq_args : autoencoder_model.InitArgs :=
  autoencoder_model.mkInitArgs
    {[ "n_out" := PInt 64 ]}
    {[ "type" := PStr "vqvae-ema"; "n_out" := PInt 64 ]}
    {[ "n_quant" := PInt 256 ]}
    (PInt 80) (PBool true).

Definition with_args (ia : autoencoder_model.InitArgs)
    : autoencoder_model.AutoEncoder :=
  autoencoder_model.set_init_args ia autoencoder_model.blank.

(** The autoencoder [_initialize] assembles from [vq_args]. *)
Definition vq_model : autoencoder_model.AutoEncoder :=
  match autoencoder_model._initialize (with_args vq_args) with
  | OK m => m
  | Raise _ => autoencoder_model.blank
  end.

Definition mi_args : mfcc_inverter.InitArgs :=
  mfcc_inverter.mkInitArgs
    {[ "n_quant" := PInt 256 ]} {[ "n_lc_in" := PInt 80 ]}.

Definition mi_model : mfcc_inverter.MfccInverter :=
  match
    mfcc_inverter._initialize
      (mfcc_inverter.set_init_args mi_args mfcc_inverter.blank)
  with
  | OK m => m
  | Raise _ => mfcc_inverter.blank
  end.

(** Configurations with the plain bottleneck and with one that does
    not exist. *)
Definition ae_args : autoencoder_model.InitArgs :=
  autoencoder_model.mkInitArgs
    {[ "n_out" := PInt 64 ]}
    {[ "type" := PStr "ae"; "n_out" := PInt 64 ]}
    {[ "n_quant" := PInt 256 ]}
    (PInt 80) (PBool true).

Definition ae_model : autoencoder_model.AutoEncoder :=
  match autoencoder_model._initialize (with_args ae_args) with
  | OK m => m
  | Raise _ => autoencoder_model.blank
  end.

Definition gan_args : autoencoder_model.InitArgs :=
  autoencoder_model.mkInitArgs
    {[ "n_out" := PInt 64 ]}
    {[ "type" := PStr "gan"; "n_out" := PInt 64 ]}
    {[ "n_quant" := PInt 256 ]}
    (PInt 80) (PBool true).

(** A batch whose encoder output has the rows [mels]. *)
Definition batch (mels : list Z) (wav : list (list Z)) : VirtualBatch :=
  mkVirtualBatch _ mels wav wav () ().

(** A source of two-row batches, and one whose first batch is empty
    and whose later batches hold one row. *)
Definition source : autoencoder_model.DataSource :=
  autoencoder_model.mkDataSource
    (λ i, Some (batch [Z.of_nat i; Z.of_nat i + 100] [])) 0.


(** Whatever [np.empty] finds in memory. *)
Definition junk (i : nat) : Z := -1.

(** The geometry of the example autoencoder for a window of ten
    samples, and the chain the inverter's resolver leaves. *)
Definition vq_geometry : autoencoder_model.AutoEncoder :=
  match run (H := resolver) (autoencoder_model._init_geometry 10 vq_model)
          stages with
  | OK (m, _) => m
  | Raise _ => autoencoder_model.blank
  end.

Definition mi_geometry : mfcc_inverter.MfccInverter * list VirtualConv :=
  match run (H := resolver) (mfcc_inverter._init_geometry 10 mi_model)
          stages with
  | OK r => r
  | Raise _ => (mfcc_inverter.blank, [])
  end.

(** The example VQ model after its codebook is initialised from three
    rows of [source]. *)
Definition vq_initialised
    : autoencoder_model.AutoEncoder * autoencoder_model.DataSource :=
  match autoencoder_model.init_codebook 5 junk source 3 vq_model with
  | Done st => st
  | _ => (autoencoder_model.blank, source)
  end.

(** The two models before a parent is attached to their first stage:
    the chain starts at the encoder, and at the WaveNet. *)
Definition orphan_vq_model : autoencoder_model.AutoEncoder :=
  {| autoencoder_model.init_args := autoencoder_model.init_args vq_model;
     autoencoder_model.preprocess := autoencoder_model.preprocess vq_model;
     autoencoder_model.encoder :=
       Some (mkEncoder ∅ {[ "beg" := 0%nat; "end" := 1%nat ]});
     autoencoder_model.bottleneck := autoencoder_model.bottleneck vq_model;
     autoencoder_model.objective := autoencoder_model.objective vq_model;
     autoencoder_model.bn_type := autoencoder_model.bn_type vq_model;
     autoencoder_model.decoder := autoencoder_model.decoder vq_model;
     autoencoder_model.vc := autoencoder_model.vc vq_model;
     autoencoder_model.enc_in_len := None;
     autoencoder_model.enc_in_mel_len := None;
     autoencoder_model.embed_len := None;
     autoencoder_model.dec_in_len := None;
     autoencoder_model.trim_dec_in := None;
     autoencoder_model.trim_dec_out := None;
     autoencoder_model.wav_onehot_dec := None;
     autoencoder_model.encoding_bn := None |}.

Definition orphan_mi_model : mfcc_inverter.MfccInverter :=
  {| mfcc_inverter.init_args := mfcc_inverter.init_args mi_model;
     mfcc_inverter.bn_type := mfcc_inverter.bn_type mi_model;
     mfcc_inverter.preprocess := mfcc_inverter.preprocess mi_model;
     mfcc_inverter.wavenet :=
       Some (mkWaveNet _ ∅
               {[ "beg" := 0%nat; "last_upsample" := 2%nat;
                  "beg_grcc" := 3%nat; "end_grcc" := 4%nat ]}
               None 0%nat);
     mfcc_inverter.objective := mfcc_inverter.objective mi_model;
     mfcc_inverter.enc_in_len := None;
     mfcc_inverter.enc_in_mel_len := None;
     mfcc_inverter.embed_len := None;
     mfcc_inverter.dec_in_len := None;
     mfcc_inverter.trim_dec_in := None;
     mfcc_inverter.trim_dec_out := None;
     mfcc_inverter.wav_onehot_dec := None |}.

(** A source that runs dry after one batch of two rows. *)
Definition short_source : autoencoder_model.DataSource :=
  autoencoder_model.mkDataSource
    (λ i, match i with O => Some (batch [5; 6] []) | S _ => None end) 0.

(** Options, a stand-in for [get_prefixed_items] that answers each
    prefix with a fixed dictionary, and a dataset of three speakers. *)
Definition opts_dict : params := {[ "training" := PBool true ]}.

Definition prefixed_items (opts : params) (prefix : string) : params :=
  if decide (prefix = "enc_") then {[ "n_out" := PInt 64 ]}
  else if decide (prefix = "bn_") then
    {[ "type" := PStr "vqvae"; "n_out" := PInt 64 ]}
  else if decide (prefix = "dec_") then
    {[ "n_quant" := PInt 256; "n_speakers" := PInt 7 ]}
  else {[ "n_lc_in" := PInt 80 ]}.

Definition dataset : Dataset := mkDataset (PInt 3) (PInt 80).

End example.

(** * Properties *)

(** ** Programs over the resolver *)

Module prog_facts.
Import notions.

Lemma Always_bind (P : call → Prop) {A B} (p : Prog A) (f : A → Prog B) :
  Always P p → (∀ a, Always P (f a)) → Always P (p ≫= f).
Proof.
  intros Hp Hf. induction Hp as [a|e|X q k Hq _ IH].
  - apply Hf.
  - constructor.
  - change (Always P (Ask q (λ x, k x ≫= f))). constructor; auto.
Qed.

Lemma Always_lift (P : call → Prop) {A} (r : result A) : Always P (lift r).
Proof. destruct r; constructor. Qed.

Lemma Always_ask_ret (P : call → Prop) {X} (q : request X) :
  P (Call q) → Always P (ask q).
Proof. intros Hq. constructor; [done|]. intros x. constructor. Qed.

Section with_resolver.
Context `{Resolver}.

Lemma Always_trace (P : call → Prop) {A} (p : Prog A) c :
  Always P p → Forall P (trace p c).
Proof.
  intros Hp. revert c. induction Hp as [a|e|X q k Hq _ IH]; intros c; simpl.
  - constructor.
  - constructor.
  - constructor; [done|].
    destruct (answer q c) as [[x c']|e]; [apply IH|constructor].
Qed.

Lemma run_bind {A B} (p : Prog A) (f : A → Prog B) c :
  run (p ≫= f) c =
  match run p c with OK (a, c') => run (f a) c' | Raise e => Raise e end.
Proof.
  revert c. induction p as [a|e|X q k IH]; intros c; simpl; try done.
  change (run (Ask q (λ x, k x ≫= f)) c =
    match match answer q c with
          | OK (x, c') => run (k x) c'
          | Raise e => Raise e
          end
    with OK (a, c') => run (f a) c' | Raise e => Raise e end).
  simpl. destruct (answer q c) as [[x c']|e]; auto.
Qed.

Lemma trace_bind {A B} (p : Prog A) (f : A → Prog B) c :
  trace (p ≫= f) c =
  trace p c ++ match run p c with OK (a, c') => trace (f a) c' | Raise _ => [] end.
Proof.
  revert c. induction p as [a|e|X q k IH]; intros c; simpl; try done.
  change (trace (Ask q (λ x, k x ≫= f)) c = 
    Call q :: match answer q c with
              | OK (x, c') => trace (k x) c'
              | Raise _ => []
              end ++
    match match answer q c with
          | OK (x, c') => run (k x) c'
          | Raise e => Raise e
          end
    with OK (a, c') => trace (f a) c' | Raise _ => [] end).
  simpl. f_equal. destruct (answer q c) as [[x c']|e]; auto.
Qed.

Lemma run_bind_OK {A B} (p : Prog A) (f : A → Prog B) c r :
  run (p ≫= f) c = OK r →
  ∃ a c', run p c = OK (a, c') ∧ run (f a) c' = OK r.
Proof.
  rewrite run_bind. destruct (run p c) as [[a c']|e]; [eauto|done].
Qed.

Lemma run_lift_OK {A} (r : result A) c a c' :
  run (lift r) c = OK (a, c') → r = OK a ∧ c' = c.
Proof. destruct r; simpl; intros [=]; subst; auto. Qed.

Lemma run_ask_OK {X} (q : request X) c x c' :
  run (ask q) c = OK (x, c') → answer q c = OK (x, c').
Proof.
  unfold ask. simpl. destruct (answer q c) as [[y d]|e]; simpl; [|done].
  intros [=]; subst; done.
Qed.

Lemma run_ret_OK {A} (a : A) c r : run (Ret a) c = OK r → r = (a, c).
Proof. simpl. intros [=]; done. Qed.

Lemma answer_reads {X} (q : request X) c x c' :
  reads q → answer q c = OK (x, c') → c' = c.
Proof.
  destruct q; simpl; try done; intros _;
    match goal with
    | |- context [?r ≫= _] => destruct r; simpl; intros [=]; subst; done
    end.
Qed.

End with_resolver.

Lemma bind_OK {A B} (r : result A) (f : A → result B) b :
  r ≫= f = OK b → ∃ a, r = OK a ∧ f a = OK b.
Proof. destruct r; simpl; [eauto|done]. Qed.

Lemma torch_long_OK v v' :
  torch_long v = OK v' → v' = v ∧ long_min ≤ v ≤ long_max.
Proof.
  unfold torch_long.
  destruct (long_min <=? v) eqn:Hlo; destruct (v <=? long_max) eqn:Hhi;
    simpl; intros [=]; subst.
  apply Z.leb_le in Hlo. apply Z.leb_le in Hhi. lia.
Qed.

Lemma long_pair_OK a b t : long_pair a b = OK t → t = (a, b).
Proof.
  unfold long_pair. intros Ht.
  apply bind_OK in Ht as (a' & Ha & Ht).
  apply bind_OK in Ht as (b' & Hb & Ht).
  apply torch_long_OK in Ha as [-> _]. apply torch_long_OK in Hb as [-> _].
  by injection Ht as <-.
Qed.

End prog_facts.

(** ** What a completed [_init_geometry] has computed *)

Module geometry_facts.
Import notions prog_facts.

Lemma getattr_OK {V} name (o : option V) v : getattr name o = OK v → o = Some v.
Proof. destruct o; simpl; intros [=]; subst; done. Qed.

Lemma getitem_OK {V} (d : gmap string V) k v : getitem d k = OK v → d !! k = Some v.
Proof. unfold getitem. destruct (d !! k); intros [=]; subst; done. Qed.

Section with_resolver.
Context `{Resolver} `{Collaborators}.

Lemma run_getattr_OK {V} name (o : option V) c v c' :
  run (lift (getattr name o)) c = OK (v, c') → o = Some v ∧ c' = c.
Proof. intros [Hv ->]%run_lift_OK. by apply getattr_OK in Hv. Qed.

Lemma run_getitem_OK {V} (d : gmap string V) k c v c' :
  run (lift (getitem d k)) c = OK (v, c') → d !! k = Some v ∧ c' = c.
Proof. intros [Hv ->]%run_lift_OK. by apply getitem_OK in Hv. Qed.

Lemma run_long_pair_OK a b c t c' :
  run (lift (long_pair a b)) c = OK (t, c') →
  long_pair a b = OK (a, b) ∧ t = (a, b) ∧ c' = c.
Proof.
  intros [Hv ->]%run_lift_OK. pose proof (long_pair_OK _ _ _ Hv) as ->. done.
Qed.

Lemma run_read_OK {X} (q : request X) c x c' :
  reads q → run (ask q) c = OK (x, c') → answer q c = OK (x, c) ∧ c' = c.
Proof.
  intros Hq Hrun%run_ask_OK. pose proof (answer_reads _ _ _ _ Hq Hrun) as ->.
  done.
Qed.

Lemma answer_input_range b e gr c r :
  answer (input_range b e gr) c = OK (r, c) ↔ resolve_input_range c b e gr = OK r.
Proof.
  simpl. destruct (resolve_input_range c b e gr); simpl; split; intros [=];
    subst; done.
Qed.

Lemma answer_output_range b e gr c r :
  answer (output_range b e gr) c = OK (r, c) ↔
  resolve_output_range c b e gr = OK r.
Proof.
  simpl. destruct (resolve_output_range c b e gr); simpl; split; intros [=];
    subst; done.
Qed.

Lemma answer_parent v c r :
  answer (parent v) c = OK (r, c) ↔ node_parent c v = OK r.
Proof.
  simpl. destruct (node_parent c v); simpl; split; intros [=]; subst; done.
Qed.

Lemma answer_child v c r :
  answer (child v) c = OK (r, c) ↔ node_child c v = OK r.
Proof.
  simpl. destruct (node_child c v); simpl; split; intros [=]; subst; done.
Qed.

Lemma answer_input_gr v c r :
  answer (input_gr v) c = OK (r, c) ↔ node_input_gr c v = OK r.
Proof.
  simpl. destruct (node_input_gr c v); simpl; split; intros [=]; subst; done.
Qed.

Lemma answer_in_len v c n :
  answer (in_len v) c = OK (n, c) ↔ node_in_len c v = OK n.
Proof.
  simpl. destruct (node_in_len c v) as [r|e]; simpl.
  - split; by intros [= <-].
  - split; done.
Qed.

Lemma ae_init_geometry_inv w self c self' c' :
  run (autoencoder_model._init_geometry w self) c = OK (self', c') →
  c' = c ∧ ae_resolved w self c self'.
Proof.
  intros Hrun. unfold autoencoder_model._init_geometry in Hrun.
  apply run_bind_OK in Hrun as (enc & c1 & [Henc ->]%run_getattr_OK & Hrun).
  apply run_bind_OK in Hrun as (beg & c1 & [Hbeg ->]%run_getitem_OK & Hrun).
  apply run_bind_OK in Hrun as (mfcc & c1 & Hmfcc & Hrun).
  apply run_read_OK in Hmfcc as [Hmfcc%answer_parent ->]; [|done].
  apply run_bind_OK in Hrun as (eend & c1 & [Heend ->]%run_getitem_OK & Hrun).
  apply run_bind_OK in Hrun as (dec & c1 & [Hdec ->]%run_getattr_OK & Hrun).
  apply run_bind_OK in Hrun as (ups & c1 & [Hups ->]%run_getitem_OK & Hrun).
  apply run_bind_OK in Hrun as (bg & c1 & [Hbg ->]%run_getitem_OK & Hrun).
  apply run_bind_OK in Hrun as (eg & c1 & [Heg ->]%run_getitem_OK & Hrun).
  apply run_bind_OK in Hrun as (di & c1 & Hdi & Hrun).
  apply run_read_OK in Hdi as [Hdi%answer_input_range ->]; [|done].
  apply run_bind_OK in Hrun as (ei & c1 & Hei & Hrun).
  apply run_read_OK in Hei as [Hei%answer_input_range ->]; [|done].
  apply run_bind_OK in Hrun as (mchild & c1 & Hchild & Hrun).
  destruct mfcc as [mfcc|]; [|done].
  apply run_read_OK in Hchild as [Hchild%answer_child ->]; [|done].
  apply run_bind_OK in Hrun as (mi & c1 & Hmi & Hrun).
  apply run_read_OK in Hmi as [Hmi%answer_input_range ->]; [|done].
  apply run_bind_OK in Hrun as (eo & c1 & Heo & Hrun).
  apply run_read_OK in Heo as [Heo%answer_output_range ->]; [|done].
  apply run_bind_OK in Hrun as (uo & c1 & Huo & Hrun).
  apply run_read_OK in Huo as [Huo%answer_output_range ->]; [|done].
  apply run_bind_OK in Hrun as (t1 & c1 & (Ht1 & -> & ->)%run_long_pair_OK & Hrun).
  apply run_bind_OK in Hrun as (t2 & c1 & (Ht2 & -> & ->)%run_long_pair_OK & Hrun).
  apply run_bind_OK in Hrun as (t3 & c1 & (Ht3 & -> & ->)%run_long_pair_OK & Hrun).
  apply run_ret_OK in Hrun as [= -> ->]. split; [done|].
  by eapply AeResolved.
Qed.

Lemma run_lift_eq {A} (a : A) c : run (lift (OK a)) c = OK (a, c).
Proof. done. Qed.

Lemma run_ask_eq {X} (q : request X) c x c' :
  answer q c = OK (x, c') → run (ask q) c = OK (x, c').
Proof. unfold ask. simpl. by intros ->. Qed.

Lemma getattr_Some {V} name (v : V) : getattr name (Some v) = OK v.
Proof. done. Qed.

Lemma getitem_Some {V} (d : gmap string V) k v :
  d !! k = Some v → getitem d k = OK v.
Proof. unfold getitem. by intros ->. Qed.

Lemma run_bind_lift {A B} (r : result A) a (f : A → Prog B) c :
  r = OK a → run (lift r ≫= f) c = run (f a) c.
Proof. intros ->. by rewrite run_bind. Qed.

Lemma run_bind_getattr {V B} name (o : option V) v (f : V → Prog B) c :
  o = Some v → run (lift (getattr name o) ≫= f) c = run (f v) c.
Proof. intros ->. by rewrite run_bind. Qed.

Lemma run_bind_getitem {V B} (d : gmap string V) k v (f : V → Prog B) c :
  d !! k = Some v → run (lift (getitem d k) ≫= f) c = run (f v) c.
Proof. intros Hk. by rewrite (getitem_Some _ _ _ Hk), run_bind. Qed.

Lemma run_bind_ask {X B} (q : request X) x c c' (f : X → Prog B) :
  answer q c = OK (x, c') → run (ask q ≫= f) c = run (f x) c'.
Proof. intros Hq. by rewrite run_bind, (run_ask_eq _ _ _ _ Hq). Qed.

Lemma ae_init_geometry_run w self c self' :
  ae_resolved w self c self' →
  run (autoencoder_model._init_geometry w self) c = OK (self', c).
Proof.
  intros [enc dec beg mfcc eend ups bg eg mchild di ei mi eo uo
            Henc Hdec Hbeg Heend Hups Hbg Heg Hpar Hch Hdi Hei Hmi Heo Huo
            Ht1 Ht2 Ht3].
  unfold autoencoder_model._init_geometry.
  rewrite (run_bind_getattr _ _ _ _ _ Henc), (run_bind_getitem _ _ _ _ _ Hbeg).
  rewrite (run_bind_ask _ _ _ _ _ (proj2 (answer_parent _ _ _) Hpar)).
  rewrite (run_bind_getitem _ _ _ _ _ Heend), (run_bind_getattr _ _ _ _ _ Hdec).
  rewrite (run_bind_getitem _ _ _ _ _ Hups), (run_bind_getitem _ _ _ _ _ Hbg).
  rewrite (run_bind_getitem _ _ _ _ _ Heg).
  rewrite (run_bind_ask _ _ _ _ _ (proj2 (answer_input_range _ _ _ _ _) Hdi)).
  rewrite (run_bind_ask _ _ _ _ _ (proj2 (answer_input_range _ _ _ _ _) Hei)).
  rewrite (run_bind_ask _ _ _ _ _ (proj2 (answer_child _ _ _) Hch)).
  rewrite (run_bind_ask _ _ _ _ _ (proj2 (answer_input_range _ _ _ _ _) Hmi)).
  rewrite (run_bind_ask _ _ _ _ _ (proj2 (answer_output_range _ _ _ _ _) Heo)).
  rewrite (run_bind_ask _ _ _ _ _ (proj2 (answer_output_range _ _ _ _ _) Huo)).
  rewrite (run_bind_lift _ _ _ _ Ht1), (run_bind_lift _ _ _ _ Ht2).
  cbn [sub fst snd]. rewrite (run_bind_lift _ _ _ _ Ht3).
  done.
Qed.

Lemma mi_init_geometry_inv w self c self' c' :
  run (mfcc_inverter._init_geometry w self) c = OK (self', c') →
  mi_resolved w self c c' self'.
Proof.
  intros Hrun. unfold mfcc_inverter._init_geometry in Hrun.
  apply run_bind_OK in Hrun as (wn & c1 & [Hwn ->]%run_getattr_OK & Hrun).
  apply run_bind_OK in Hrun as (eg & c1 & [Heg ->]%run_getitem_OK & Hrun).
  apply run_bind_OK in Hrun as (actual & c1 & Hci%run_ask_OK & Hrun).
  simpl in Hci.
  apply run_bind_OK in Hrun as (beg & c2 & [Hbeg ->]%run_getitem_OK & Hrun).
  apply run_bind_OK in Hrun as (mfcc & c2 & Hmfcc & Hrun).
  apply run_read_OK in Hmfcc as [Hmfcc%answer_parent ->]; [|done].
  apply run_bind_OK in Hrun as (bg & c2 & [Hbg ->]%run_getitem_OK & Hrun).
  apply run_bind_OK in Hrun as (enc_in & c2 & Hin & Hrun).
  destruct mfcc as [mfcc|]; [|done]. cbn [mfcc_inverter.in_len_of] in Hin.
  apply run_read_OK in Hin as [Hin%answer_in_len ->]; [|done].
  apply run_bind_OK in Hrun as (mchild & c2 & Hch & Hrun).
  cbn [mfcc_inverter.child_of] in Hch.
  apply run_read_OK in Hch as [Hch%answer_child ->]; [|done].
  apply run_bind_OK in Hrun as (embed & c2 & Hemb & Hrun).
  destruct mchild as [ch|]; [|done]. cbn [mfcc_inverter.in_len_of] in Hemb.
  apply run_read_OK in Hemb as [Hemb%answer_in_len ->]; [|done].
  apply run_bind_OK in Hrun as (dec_in & c2 & Hdin & Hrun).
  apply run_read_OK in Hdin as [Hdin%answer_in_len ->]; [|done].
  apply run_bind_OK in Hrun as (di & c2 & Hdi & Hrun).
  apply run_read_OK in Hdi as [Hdi%answer_input_gr ->]; [|done].
  apply run_bind_OK in Hrun as (wi & c2 & Hwi & Hrun).
  cbn [mfcc_inverter.input_gr_of] in Hwi.
  apply run_read_OK in Hwi as [Hwi%answer_input_gr ->]; [|done].
  apply run_bind_OK in Hrun as (t1 & c2 & (Ht1 & -> & ->)%run_long_pair_OK & Hrun).
  apply run_bind_OK in Hrun as (t2 & c2 & (Ht2 & -> & ->)%run_long_pair_OK & Hrun).
  apply run_bind_OK in Hrun as (ul & c2 & Hul & Hrun).
  apply run_read_OK in Hul as [Hul%answer_in_len ->]; [|done].
  rewrite Hdin in Hul. injection Hul as <-.
  apply run_bind_OK in Hrun as (t3 & c2 & (Ht3 & -> & ->)%run_long_pair_OK & Hrun).
  apply run_ret_OK in Hrun as [= -> ->].
  by eapply MiResolved.
Qed.


End with_resolver.
End geometry_facts.

(** ** Claims on [_init_geometry] that hold for every resolver *)

Module geometry_claims.
Import notions prog_facts geometry_facts.

Section with_resolver.
Context `{Resolver} `{Collaborators}.

Lemma trace_bind_lift {A B} (r : result A) a (f : A → Prog B) c :
  r = OK a → trace (lift r ≫= f) c = trace (f a) c.
Proof. intros ->. by rewrite trace_bind. Qed.

Lemma trace_bind_getattr {V B} name (o : option V) v (f : V → Prog B) c :
  o = Some v → trace (lift (getattr name o) ≫= f) c = trace (f v) c.
Proof. intros ->. by rewrite trace_bind. Qed.

Lemma trace_bind_getitem {V B} (d : gmap string V) k v (f : V → Prog B) c :
  d !! k = Some v → trace (lift (getitem d k) ≫= f) c = trace (f v) c.
Proof. intros Hk. by rewrite (getitem_Some _ _ _ Hk), trace_bind. Qed.

Lemma trace_bind_ask {X B} (q : request X) x c c' (f : X → Prog B) :
  answer q c = OK (x, c') → trace (ask q ≫= f) c = Call q :: trace (f x) c'.
Proof.
  intros Hq. rewrite trace_bind, (run_ask_eq _ _ _ _ Hq).
  unfold ask. simpl. by rewrite Hq.
Qed.

Lemma ae_always_desired w self :
  Always (takes_desired w) (autoencoder_model._init_geometry w self).
Proof.
  unfold autoencoder_model._init_geometry.
  repeat first
    [ apply Always_bind; [|intros ?]
    | apply Always_lift
    | apply Always_ask_ret; by intros ? [=]
    | constructor ].
  match goal with |- Always _ (match ?m with _ => _ end) => destruct m end;
    [apply Always_ask_ret; by intros ? [=]|constructor].
Qed.

Lemma mi_always_desired w self :
  Always (takes_desired w) (mfcc_inverter._init_geometry w self).
Proof.
  unfold mfcc_inverter._init_geometry, mfcc_inverter.in_len_of,
    mfcc_inverter.child_of, mfcc_inverter.input_gr_of.
  repeat first
    [ apply Always_bind; [|intros ?]
    | apply Always_lift
    | apply Always_ask_ret; by intros ? [=]
    | constructor
    | match goal with
      | |- Always _ (match ?m with _ => _ end) => destruct m
      end ].
Qed.

Lemma ae_desired_outputs w self c self' c' :
  run (autoencoder_model._init_geometry w self) c = OK (self', c') →
  omap desired_output (trace (autoencoder_model._init_geometry w self) c)
  = [desired w; desired w; desired w].
Proof.
  intros [-> Hres]%ae_init_geometry_inv.
  destruct Hres as
    [enc dec beg mfcc eend ups bg eg mchild di ei mi eo uo
       Henc Hdec Hbeg Heend Hups Hbg Heg Hpar Hch Hdi Hei Hmi Heo Huo
       Ht1 Ht2 Ht3].
  unfold autoencoder_model._init_geometry.
  rewrite (trace_bind_getattr _ _ _ _ _ Henc), (trace_bind_getitem _ _ _ _ _ Hbeg).
  rewrite (trace_bind_ask _ _ _ _ _ (proj2 (answer_parent _ _ _) Hpar)).
  rewrite (trace_bind_getitem _ _ _ _ _ Heend), (trace_bind_getattr _ _ _ _ _ Hdec).
  rewrite (trace_bind_getitem _ _ _ _ _ Hups), (trace_bind_getitem _ _ _ _ _ Hbg).
  rewrite (trace_bind_getitem _ _ _ _ _ Heg).
  rewrite (trace_bind_ask _ _ _ _ _ (proj2 (answer_input_range _ _ _ _ _) Hdi)).
  rewrite (trace_bind_ask _ _ _ _ _ (proj2 (answer_input_range _ _ _ _ _) Hei)).
  rewrite (trace_bind_ask _ _ _ _ _ (proj2 (answer_child _ _ _) Hch)).
  rewrite (trace_bind_ask _ _ _ _ _ (proj2 (answer_input_range _ _ _ _ _) Hmi)).
  rewrite (trace_bind_ask _ _ _ _ _ (proj2 (answer_output_range _ _ _ _ _) Heo)).
  rewrite (trace_bind_ask _ _ _ _ _ (proj2 (answer_output_range _ _ _ _ _) Huo)).
  rewrite (trace_bind_lift _ _ _ _ Ht1), (trace_bind_lift _ _ _ _ Ht2).
  cbn [sub fst snd]. rewrite (trace_bind_lift _ _ _ _ Ht3).
  done.
Qed.

Lemma mi_desired_outputs w self c self' c' :
  run (mfcc_inverter._init_geometry w self) c = OK (self', c') →
  omap desired_output (trace (mfcc_inverter._init_geometry w self) c)
  = [desired w].
Proof.
  intros Hres%mi_init_geometry_inv.
  destruct Hres as
    [wn eg actual beg mfcc bg ch enc_in embed dec_in wi di
       Hwn Heg Hci Hbeg Hpar Hbg Hin Hch Hemb Hdin Hdi Hwi Ht1 Ht2 Ht3].
  unfold mfcc_inverter._init_geometry.
  rewrite (trace_bind_getattr _ _ _ _ _ Hwn), (trace_bind_getitem _ _ _ _ _ Heg).
  rewrite (trace_bind_ask (compute_inputs _ _) _ _ _ _ Hci).
  rewrite (trace_bind_getitem _ _ _ _ _ Hbeg).
  rewrite (trace_bind_ask _ _ _ _ _ (proj2 (answer_parent _ _ _) Hpar)).
  rewrite (trace_bind_getitem _ _ _ _ _ Hbg).
  cbn [mfcc_inverter.in_len_of mfcc_inverter.child_of
       mfcc_inverter.input_gr_of].
  rewrite (trace_bind_ask _ _ _ _ _ (proj2 (answer_in_len _ _ _) Hin)).
  rewrite (trace_bind_ask _ _ _ _ _ (proj2 (answer_child _ _ _) Hch)).
  cbn [mfcc_inverter.in_len_of].
  rewrite (trace_bind_ask _ _ _ _ _ (proj2 (answer_in_len _ _ _) Hemb)).
  rewrite (trace_bind_ask _ _ _ _ _ (proj2 (answer_in_len _ _ _) Hdin)).
  rewrite (trace_bind_ask _ _ _ _ _ (proj2 (answer_input_gr _ _ _) Hdi)).
  rewrite (trace_bind_ask _ _ _ _ _ (proj2 (answer_input_gr _ _ _) Hwi)).
  rewrite (trace_bind_lift _ _ _ _ Ht1).
  cbn [sub fst snd]. rewrite (trace_bind_lift _ _ _ _ Ht2).
  rewrite (trace_bind_ask _ _ _ _ _ (proj2 (answer_in_len _ _ _) Hdin)).
  rewrite (trace_bind_lift _ _ _ _ Ht3).
  done.
Qed.

(** C3.  Whatever the resolver and the model, every call of
    [_init_geometry] that hands the resolver a desired output
    ([input_range], [compute_inputs]) hands it the range built first:
    bounding extent (0, 100000), sub-range (0, batch_win_size), stride 1.
    A completed run of the autoencoder makes exactly three such calls, a
    completed run of the MFCC inverter exactly one. *)
Theorem init_geometry_desired_output (w : Z) (c : chain) :
  (∀ self,
     Forall (λ cl, ∀ gr, desired_output cl = Some gr →
                     lower_bound gr = (0, 100000) ∧ sub gr = (0, w) ∧
                     stride gr = 1)
       (trace (autoencoder_model._init_geometry w self) c)) ∧
  (∀ self self' c',
     run (autoencoder_model._init_geometry w self) c = OK (self', c') →
     omap desired_output (trace (autoencoder_model._init_geometry w self) c)
     = replicate 3 (mkGridRange (0, 100000) (0, w) 1)) ∧
  (∀ self,
     Forall (λ cl, ∀ gr, desired_output cl = Some gr →
                     lower_bound gr = (0, 100000) ∧ sub gr = (0, w) ∧
                     stride gr = 1)
       (trace (mfcc_inverter._init_geometry w self) c)) ∧
  (∀ self self' c',
     run (mfcc_inverter._init_geometry w self) c = OK (self', c') →
     omap desired_output (trace (mfcc_inverter._init_geometry w self) c)
     = [mkGridRange (0, 100000) (0, w) 1]).
Proof.
  split_and!.
  - intros self.
    eapply Forall_impl; [apply Always_trace, ae_always_desired|].
    intros cl Hcl gr Hgr. by rewrite (Hcl gr Hgr).
  - intros self self' c' Hrun. by rewrite (ae_desired_outputs _ _ _ _ _ Hrun).
  - intros self.
    eapply Forall_impl; [apply Always_trace, mi_always_desired|].
    intros cl Hcl gr Hgr. by rewrite (Hcl gr Hgr).
  - intros self self' c' Hrun. by rewrite (mi_desired_outputs _ _ _ _ _ Hrun).
Qed.



End with_resolver.
End geometry_claims.

(** ** The resolver of the examples *)

Module chain_facts.
Import notions prog_facts geometry_facts chain_model.

(** *** Walks *)





(** *** [compute_inputs] *)






End chain_facts.

(** ** Assembly and pickling *)

Module assembly_claims.
Import notions prog_facts geometry_facts.

Section with_collaborators.
Context `{Collaborators}.

Lemma raise_unbound {A} name msg :
  name ∉ autoencoder_model.module_globals →
  builtin_exception name = None →
  raise_ (A := A) autoencoder_model.module_globals name msg
  = Raise (NameError name).
Proof.
  intros Hg Hb. unfold raise_. rewrite decide_False by done. by rewrite Hb.
Qed.

Lemma InvalidArgument_unbound {A} msg :
  raise_ (A := A) autoencoder_model.module_globals "InvalidArgument" msg
  = Raise (NameError "InvalidArgument").
Proof.
  apply raise_unbound; [|done]. apply (bool_decide_unpack _). by vm_compute.
Qed.

Lemma select_unknown t enc_params bn_params bn_extra training :
  t ∉ known_types →
  autoencoder_model.select_bottleneck t enc_params bn_params bn_extra training
  = Raise (NameError "InvalidArgument").
Proof.
  intros Ht. unfold autoencoder_model.select_bottleneck.
  repeat (rewrite decide_False;
          [|intros ->; apply Ht; unfold known_types; set_solver]).
  apply InvalidArgument_unbound.
Qed.

Lemma kwargs_fresh named star :
  (∀ k v, (k, v) ∈ named → star !! k = None) →
  NoDup named.*1 →
  ∃ kw, kwargs named star = OK kw.
Proof.
  revert star. induction named as [|[k v] named IH]; intros star Hfresh Hnd.
  - by eexists.
  - simpl. rewrite (Hfresh k v) by set_solver.
    apply NoDup_cons in Hnd as [Hk Hnd]. apply IH; [|done].
    intros k' v' Hin. rewrite lookup_insert_ne.
    + apply (Hfresh k' v'). set_solver.
    + intros ->. apply Hk. apply list_elem_of_fmap. by exists (k', v').
Qed.

(** C4, as the code has it.  A bottleneck type outside the four known
    ones never yields a model, but what [_initialize] raises on reaching
    the final branch is a [NameError]: the class [InvalidArgument] it
    means to raise is bound nowhere in the module. *)
Theorem unknown_bottleneck_type_raises_NameError
    (self : autoencoder_model.AutoEncoder) (ia : autoencoder_model.InitArgs)
    (t n_quant : pyval) :
  autoencoder_model.init_args self = Some ia →
  autoencoder_model.bn_params ia !! "type" = Some t →
  t ∉ known_types →
  (∀ m, autoencoder_model._initialize self ≠ OK m) ∧
  (autoencoder_model.dec_params ia !! "n_quant" = Some n_quant →
   autoencoder_model.enc_params ia !! "n_in" = None →
   autoencoder_model.enc_params ia !! "parent_vc" = None →
   autoencoder_model._initialize self = Raise (NameError "InvalidArgument")).
Proof.
  intros Hia Ht Hunknown. unfold autoencoder_model._initialize.
  rewrite Hia. cbn [getattr mbind result_mbind result_bind].
  split.
  - intros m.
    destruct (getitem (autoencoder_model.dec_params ia) "n_quant");
      cbn [mbind result_mbind result_bind]; [|done].
    destruct (kwargs _ (autoencoder_model.enc_params ia));
      cbn [mbind result_mbind result_bind]; [|done].
    rewrite (getitem_Some _ _ _ Ht). cbn [mbind result_mbind result_bind].
    rewrite select_unknown by done. done.
  - intros Hq Hn Hp.
    rewrite (getitem_Some _ _ _ Hq). cbn [mbind result_mbind result_bind].
    destruct (kwargs_fresh
                [("n_in", autoencoder_model.n_mel_chan ia);
                 ("parent_vc", PNone)]
                (autoencoder_model.enc_params ia)) as [kw ->].
    { intros k v. rewrite !elem_of_cons, elem_of_nil.
      intros [[= -> _]|[[= -> _]|[]]]; done. }
    { apply (bool_decide_unpack _). by vm_compute. }
    cbn [mbind result_mbind result_bind].
    rewrite (getitem_Some _ _ _ Ht). cbn [mbind result_mbind result_bind].
    rewrite select_unknown by done. done.
Qed.

Lemma ae_getstate_OK self st :
  autoencoder_model.__getstate__ self = OK st →
  ∃ ia, autoencoder_model.init_args self = Some ia ∧
        st = {[ "init_args" := autoencoder_model.InitArgsDict ia ]}.
Proof.
  unfold autoencoder_model.__getstate__.
  destruct (autoencoder_model.init_args self) as [ia|]; [|done].
  intros [= <-]. eauto.
Qed.



(** Two pickled models with the same configuration are rebuilt alike,
    whatever they had learned. *)
Corollary rebuilt_from_configuration self1 self2 st1 st2 obj :
  autoencoder_model.__getstate__ self1 = OK st1 →
  autoencoder_model.__getstate__ self2 = OK st2 →
  autoencoder_model.init_args self1 = autoencoder_model.init_args self2 →
  autoencoder_model.__setstate__ st1 obj
  = autoencoder_model.__setstate__ st2 obj.
Proof.
  intros (ia1 & Hia1 & ->)%ae_getstate_OK (ia2 & Hia2 & ->)%ae_getstate_OK Heq.
  rewrite Hia1, Hia2 in Heq. by injection Heq as ->.
Qed.

End with_collaborators.
End assembly_claims.

(** ** Codebook initialisation *)

Module codebook_facts.
Import notions prog_facts geometry_facts autoencoder_model.

Section with_collaborators.
Context `{Collaborators}.

Lemma clamp_id n i : 0 ≤ i ≤ n → clamp n i = i.
Proof.
  intros Hi. unfold clamp. destruct (i <? 0) eqn:Hneg.
  - apply Z.ltb_lt in Hneg. lia.
  - lia.
Qed.

Lemma slice_prefix {A} (l : list A) c :
  0 ≤ c ≤ Z.of_nat (length l) → slice (Some 0) (Some c) l = take (Z.to_nat c) l.
Proof.
  intros Hc. unfold slice. cbn [from_option].
  rewrite !clamp_id by lia. rewrite Z.sub_0_r. done.
Qed.

Lemma assign_rows_exact err lo hi src target :
  0 ≤ lo ≤ hi → hi ≤ Z.of_nat (length target) →
  length src = Z.to_nat (hi - lo) →
  assign_rows err (Some lo) (Some hi) src target
  = OK (take (Z.to_nat lo) target ++ src ++ drop (Z.to_nat hi) target).
Proof.
  intros Hlo Hhi Hlen. unfold assign_rows. cbn [from_option].
  rewrite !clamp_id by lia.
  replace (Z.to_nat hi - Z.to_nat lo)%nat with (Z.to_nat (hi - lo)) by lia.
  rewrite decide_True by done.
  replace (Z.to_nat lo + Z.to_nat (hi - lo))%nat with (Z.to_nat hi) by lia.
  done.
Qed.

Lemma assign_rows_all err src target r :
  assign_rows err None None src target = OK r →
  r = broadcast (length target) src ∧ length r = length target.
Proof.
  unfold assign_rows, broadcast. cbn [from_option].
  rewrite Nat2Z.id, Nat.sub_0_r. change (Z.to_nat 0) with 0%nat.
  cbn [take Nat.add app]. rewrite drop_all, !app_nil_r.
  destruct (decide (length src = length target)) as [Hlen|Hlen].
  - by intros [= <-].
  - destruct src as [|x [|y src]]; try done.
    cbn [take app]. rewrite app_nil_r. intros [= <-].
    by rewrite length_replicate.
Qed.

(** *** One pass of the loop *)

Lemma sample_step_spec self n b e samples :
  0 ≤ e ≤ n → Z.of_nat (length samples) = n →
  sample_step self n b e samples =
  (rows ← batch_rows self b;
   let c := Z.min (n - e) (Z.of_nat (length rows)) in
   OK (e + c,
       take (Z.to_nat e) samples ++ take (Z.to_nat c) rows ++
       drop (Z.to_nat (e + c)) samples)).
Proof.
  intros He Hlen. unfold sample_step.
  destruct (batch_rows self b) as [rows|ex]; [|done].
  cbn [mbind result_mbind result_bind].
  set (c := Z.min (n - e) (Z.of_nat (length rows))).
  assert (0 ≤ c ≤ Z.of_nat (length rows)) as Hc by lia.
  rewrite slice_prefix by done.
  rewrite assign_rows_exact; [done|lia|lia|].
  rewrite length_take. lia.
Qed.

Lemma take_min_app {A} (rows rest : list A) (k : nat) :
  take (k `min` length rows) rows ++ take (k - k `min` length rows) rest
  = take k (rows ++ rest).
Proof.
  rewrite take_app. destruct (Nat.le_ge_cases k (length rows)) as [Hk|Hk].
  - rewrite Nat.min_l by done. rewrite Nat.sub_diag.
    replace (k - length rows)%nat with 0%nat by lia. done.
  - rewrite Nat.min_r by done.
    by rewrite (take_ge rows k), (take_ge rows (length rows)) by lia.
Qed.

(** *** The loop *)

(** What a finished loop holds: the rows kept on entry, then the first
    rows of the batches it drew. *)
Lemma sample_loop_Done fuel self n ds e samples ds' e' samples' :
  0 ≤ e ≤ n → Z.of_nat (length samples) = n →
  sample_loop fuel self n ds e samples = Done (ds', e', samples') →
  e' = n ∧ items ds' = items ds ∧ (pos ds ≤ pos ds')%nat ∧
  Z.of_nat (length samples') = n ∧
  samples' =
    take (Z.to_nat e) samples ++
    take (Z.to_nat (n - e))
      (drawn_rows self (items ds) (pos ds) (pos ds' - pos ds)).
Proof.
  revert ds e samples.
  induction fuel as [|fuel IH]; intros ds e samples He Hlen; cbn [sample_loop].
  - destruct (decide (e ≠ n)) as [Hne|Heq]; [done|].
    intros [= <- <- <-]. apply dec_stable in Heq as ->.
    rewrite Z.sub_diag, Nat.sub_diag. cbn [Z.to_nat take drawn_rows].
    rewrite app_nil_r, take_ge by lia. done.
  - destruct (decide (e ≠ n)) as [Hne|Heq].
    + unfold next. destruct (items ds (pos ds)) as [b|] eqn:Hb; [|done].
      rewrite sample_step_spec by done.
      destruct (batch_rows self b) as [rows|ex] eqn:Hrows; [|done].
      cbn [mbind result_mbind result_bind].
      set (c := Z.min (n - e) (Z.of_nat (length rows))).
      intros Hloop. apply IH in Hloop as (-> & Hitems & Hpos & Hlen' & ->).
      * cbn [items pos] in *. split_and!; [done|done|lia|done|].
        replace (pos ds' - pos ds)%nat with (S (pos ds' - S (pos ds))) by lia.
        cbn [drawn_rows]. rewrite Hb, Hrows.
        rewrite (app_assoc (take (Z.to_nat e) samples)).
        rewrite take_app_length'
          by (rewrite length_app, !length_take; lia).
        rewrite <- app_assoc. f_equal.
        rewrite <- (take_min_app rows _ (Z.to_nat (n - e))).
        f_equal; f_equal; lia.
      * lia.
      * rewrite !length_app, !length_take, length_drop. lia.
    + intros [= <- <- <-]. apply dec_stable in Heq as ->.
      rewrite Z.sub_diag, Nat.sub_diag. cbn [Z.to_nat take drawn_rows].
      rewrite app_nil_r, take_ge by lia. done.
Qed.



Lemma sample_step_Raise self n b e samples ex :
  sample_step self n b e samples = Raise ex → not_usage ex.
Proof.
  unfold sample_step, batch_rows.
  destruct (encoder self); cbn [getattr mbind result_mbind result_bind];
    [|by intros [= <-]].
  destruct (bottleneck self); cbn [getattr mbind result_mbind result_bind];
    [|by intros [= <-]].
  unfold assign_rows.
  repeat case_match; cbn [mbind result_mbind result_bind]; try done;
    by intros [= <-].
Qed.

Lemma sample_loop_Fail fuel self n ds e samples ex st :
  sample_loop fuel self n ds e samples = Fail ex st → not_usage ex.
Proof.
  revert ds e samples.
  induction fuel as [|fuel IH]; intros ds e samples; cbn [sample_loop];
    destruct (decide (e ≠ n)); try done.
  unfold next. destruct (items ds (pos ds)); [|by intros [= <- _]].
  destruct (sample_step self n v e samples) as [[e1 s1]|ex1] eqn:Hstep.
  - apply IH.
  - intros [= <- _]. by eapply sample_step_Raise.
Qed.

Lemma getattr_Raise {V} name (o : option V) ex :
  getattr name o = Raise ex → ex = AttributeError name.
Proof. destruct o; [done|]. by intros [= <-]. Qed.

Lemma assign_rows_Raise err lo hi src target ex :
  assign_rows err lo hi src target = Raise ex → ex = err.
Proof.
  unfold assign_rows. case_decide; [done|].
  destruct src as [|? [|]]; try done; by intros [= <-].
Qed.

Lemma codebook_assign_Raise samples n_codes bn ex :
  codebook_assign samples n_codes bn = Raise ex → not_usage ex.
Proof.
  unfold codebook_assign.
  destruct (kmeans samples n_codes); cbn [mbind result_mbind result_bind];
    [|by intros [= <-]].
  destruct (getattr "emb" (emb bn)) as [cb|ex1] eqn:Hcb;
    cbn [mbind result_mbind result_bind].
  - destruct (assign_rows _ None None l cb) as [cb'|ex1] eqn:Hassign;
      cbn [mbind result_mbind result_bind]; [done|].
    intros [= <-]. by apply assign_rows_Raise in Hassign as ->.
  - intros [= <-]. by apply getattr_Raise in Hcb as ->.
Qed.

Lemma ema_numer_assign_Raise bn ex :
  ema_numer_assign bn = Raise ex → not_usage ex.
Proof.
  unfold ema_numer_assign.
  destruct (getattr "emb" (emb bn)) as [cb|ex1] eqn:Hcb;
    cbn [mbind result_mbind result_bind];
    [|intros [= <-]; by apply getattr_Raise in Hcb as ->].
  destruct (getattr "ema_gamma_comp" (ema_gamma_comp bn)) as [g|ex1] eqn:Hg;
    cbn [mbind result_mbind result_bind]; [done|].
  intros [= <-]. by apply getattr_Raise in Hg as ->.
Qed.

Lemma ema_denom_assign_Raise bn ex :
  ema_denom_assign bn = Raise ex → not_usage ex.
Proof.
  unfold ema_denom_assign.
  destruct (getattr "n_sum_ones" (n_sum_ones bn)) as [cb|ex1] eqn:Hcb;
    cbn [mbind result_mbind result_bind];
    [|intros [= <-]; by apply getattr_Raise in Hcb as ->].
  destruct (getattr "ema_gamma_comp" (ema_gamma_comp bn)) as [g|ex1] eqn:Hg;
    cbn [mbind result_mbind result_bind]; [done|].
  intros [= <-]. by apply getattr_Raise in Hg as ->.
Qed.

Lemma codebook_store_Fail samples n_codes bn self self' ex :
  codebook_store samples n_codes bn self = (self', Some ex) → not_usage ex.
Proof.
  unfold codebook_store.
  destruct (codebook_assign samples n_codes bn) as [bn1|ex1] eqn:Ha.
  - case_decide; [|done].
    destruct (ema_numer_assign bn1) as [bn2|ex2] eqn:Hn.
    + destruct (ema_denom_assign bn2) as [bn3|ex3] eqn:Hd; [done|].
      intros [= _ <-]. by eapply ema_denom_assign_Raise.
    + intros [= _ <-]. by eapply ema_numer_assign_Raise.
  - intros [= _ <-]. by eapply codebook_assign_Raise.
Qed.


End with_collaborators.
End codebook_facts.

Module codebook_claims.
Import notions prog_facts geometry_facts autoencoder_model codebook_facts.

Section with_collaborators.
Context `{Collaborators}.

Lemma usage_error_raised {A} :
  raise_ (A := A) module_globals "RuntimeError" usage_error
  = Raise (RuntimeError usage_error).
Proof.
  unfold raise_. rewrite decide_False; [done|].
  apply (bool_decide_unpack _). by vm_compute.
Qed.

Lemma codebook_setup_OK junk n self bn n_codes samples :
  codebook_setup junk n self = OK (bn, n_codes, samples) →
  ∃ t cb,
    bn_type self = Some t ∧ t ∈ vq_types ∧
    bottleneck self = Some bn ∧ emb bn = Some cb ∧ n_codes = length cb ∧
    0 ≤ n ∧ samples = junk <$> seq 0 (Z.to_nat n).
Proof.
  unfold codebook_setup.
  destruct (bn_type self) as [t|]; [|done].
  cbn [getattr mbind result_mbind result_bind].
  case_decide as Ht; [by rewrite usage_error_raised|].
  destruct (bottleneck self) as [bn0|]; [|done].
  cbn [getattr mbind result_mbind result_bind].
  destruct (emb bn0) as [cb|] eqn:Hcb; [|done].
  cbn [getattr mbind result_mbind result_bind].
  unfold np_empty. destruct (n <? 0) eqn:Hn; [done|].
  cbn [mbind result_mbind result_bind]. intros [= <- <- <-].
  apply Z.ltb_ge in Hn. by exists t, cb.
Qed.

Lemma codebook_setup_Raise junk n self t ex :
  bn_type self = Some t → t ∈ vq_types →
  codebook_setup junk n self = Raise ex → not_usage ex.
Proof.
  intros Ht Hvq. unfold codebook_setup. rewrite Ht.
  cbn [getattr mbind result_mbind result_bind].
  rewrite decide_False by (by intros ?).
  destruct (bottleneck self) as [bn0|];
    cbn [getattr mbind result_mbind result_bind]; [|by intros [= <-]].
  destruct (emb bn0) as [cb|];
    cbn [getattr mbind result_mbind result_bind]; [|by intros [= <-]].
  unfold np_empty. destruct (n <? 0); [by intros [= <-]|done].
Qed.

(** C5.  [init_codebook] raises the usage error exactly when the
    bottleneck type is neither 'vqvae' nor 'vqvae-ema'; it then raises
    before anything else: the model and the data source are as they
    were, nothing drawn. *)
Theorem init_codebook_usage_error (fuel : nat) (junk : nat → Row)
    (data_source : DataSource) (n_samples : Z) (self : AutoEncoder)
    (t : pyval) :
  bn_type self = Some t →
  (t ∉ [PStr "vqvae"; PStr "vqvae-ema"] →
   init_codebook fuel junk data_source n_samples self
   = Fail (RuntimeError usage_error) (self, data_source)) ∧
  (t ∈ [PStr "vqvae"; PStr "vqvae-ema"] →
   ∀ s, init_codebook fuel junk data_source n_samples self
        ≠ Fail (RuntimeError usage_error) s).
Proof.
  intros Ht. split.
  - intros Hvq. unfold init_codebook, codebook_setup. rewrite Ht.
    cbn [getattr mbind result_mbind result_bind].
    rewrite decide_True by done. by rewrite usage_error_raised.
  - intros Hvq s. unfold init_codebook.
    destruct (codebook_setup junk n_samples self)
      as [[[bn n_codes] samples]|ex] eqn:Hsetup.
    + destruct (sample_loop fuel self n_samples data_source 0 samples)
        as [[[ds' e'] samples']|ex [[ds' e'] samples']|] eqn:Hloop; [| |done].
      * destruct (codebook_store samples' n_codes bn self)
          as [self' [ex|]] eqn:Hstore; [|done].
        intros [= -> _]. by eapply codebook_store_Fail.
      * intros [= -> _]. by eapply sample_loop_Fail.
    + intros [= -> _]. by eapply codebook_setup_Raise.
Qed.






End with_collaborators.
End codebook_claims.

(** ** The forward pass *)

Module run_claims.
Import notions prog_facts geometry_facts.


Lemma slice_from_one {A} (l : list A) : slice (Some 1) None l = drop 1 l.
Proof.
  unfold slice, clamp. cbn [from_option].
  replace (1 <? 0) with false by done.
  destruct l as [|x l]; [done|].
  rewrite Z.min_l by (cbn [length]; lia). change (Z.to_nat 1) with 1%nat.
  apply take_ge. cbn [length drop]. rewrite drop_0. lia.
Qed.

(** Inside the bounds of a vector a slice is not clipped. *)
Lemma slice_length {A} (l : list A) a b :
  0 ≤ a ≤ b → b ≤ Z.of_nat (length l) →
  Z.of_nat (length (slice (Some a) (Some b) l)) = b - a.
Proof.
  intros Ha Hb. unfold slice, clamp. cbn [from_option].
  destruct (a <? 0) eqn:Hneg; [apply Z.ltb_lt in Hneg; lia|].
  destruct (b <? 0) eqn:Hneg'; [apply Z.ltb_lt in Hneg'; lia|].
  rewrite length_take, length_drop. lia.
Qed.





Section with_collaborators.
Context `{Collaborators}.


End with_collaborators.
End run_claims.

(** ** What assembly requires of the configuration and where it sends it *)

Module assembly_props.
Import notions prog_facts geometry_facts.

Lemma kwargs_one k v star kw :
  kwargs [(k, v)] star = OK kw → star !! k = None ∧ kw = <[k := v]> star.
Proof. simpl. destruct (star !! k) eqn:E; [done|]. by intros [= <-]. Qed.

Lemma kwargs_two k1 v1 k2 v2 star kw :
  k1 ≠ k2 →
  kwargs [(k1, v1); (k2, v2)] star = OK kw →
  star !! k1 = None ∧ star !! k2 = None ∧
  kw = <[k2 := v2]> (<[k1 := v1]> star).
Proof.
  intros Hne. simpl. destruct (star !! k1) eqn:E1; [done|].
  rewrite lookup_insert_ne by done. destruct (star !! k2) eqn:E2; [done|].
  by intros [= <-].
Qed.

Lemma not_elem_of_cons3 {A} (x a b c : A) l :
  x ∉ a :: b :: c :: l → a ≠ x ∧ b ≠ x ∧ c ≠ x ∧ x ∉ l.
Proof.
  rewrite !not_elem_of_cons. intros (? & ? & ? & ?). split_and!; congruence.
Qed.

Section with_collaborators.
Context `{Collaborators}.

(** Every step of a completed [_initialize]. *)
Lemma ae_initialize_OK self m :
  autoencoder_model._initialize self = OK m →
  ∃ ia n_quant enc_kw t bn obj enc_end n_lc_in dec_kw,
    autoencoder_model.init_args self = Some ia ∧
    autoencoder_model.dec_params ia !! "n_quant" = Some n_quant ∧
    kwargs [("n_in", autoencoder_model.n_mel_chan ia); ("parent_vc", PNone)]
           (autoencoder_model.enc_params ia) = OK enc_kw ∧
    autoencoder_model.bn_params ia !! "type" = Some t ∧
    autoencoder_model.select_bottleneck t
      (autoencoder_model.enc_params ia) (autoencoder_model.bn_params ia)
      (delete "type" (autoencoder_model.bn_params ia))
      (autoencoder_model.training ia) = OK (bn, obj) ∧
    Encoder_vc enc_kw !! "end" = Some enc_end ∧
    autoencoder_model.bn_params ia !! "n_out" = Some n_lc_in ∧
    kwargs [("parent_vc", PRef enc_end); ("n_lc_in", n_lc_in)]
           (autoencoder_model.dec_params ia) = OK dec_kw ∧
    autoencoder_model.init_args m = Some ia ∧
    autoencoder_model.preprocess m = Some (mkPreProcess n_quant) ∧
    autoencoder_model.encoder m = Some (new_Encoder enc_kw) ∧
    autoencoder_model.bottleneck m = Some bn ∧
    autoencoder_model.objective m = Some obj ∧
    autoencoder_model.bn_type m = Some t ∧
    autoencoder_model.decoder m = Some (post_init (new_WaveNet dec_kw)) ∧
    autoencoder_model.vc m = Some (WaveNet_vc dec_kw) ∧
    autoencoder_model.enc_in_len m = autoencoder_model.enc_in_len self ∧
    autoencoder_model.enc_in_mel_len m
    = autoencoder_model.enc_in_mel_len self ∧
    autoencoder_model.embed_len m = autoencoder_model.embed_len self ∧
    autoencoder_model.dec_in_len m = autoencoder_model.dec_in_len self ∧
    autoencoder_model.trim_dec_in m = autoencoder_model.trim_dec_in self ∧
    autoencoder_model.trim_dec_out m = autoencoder_model.trim_dec_out self ∧
    autoencoder_model.wav_onehot_dec m
    = autoencoder_model.wav_onehot_dec self ∧
    autoencoder_model.encoding_bn m = autoencoder_model.encoding_bn self.
Proof.
  unfold autoencoder_model._initialize. intros Hinit.
  apply bind_OK in Hinit as (ia & Hia%getattr_OK & Hinit).
  apply bind_OK in Hinit as (n_quant & Hq%getitem_OK & Hinit).
  apply bind_OK in Hinit as (enc_kw & Hekw & Hinit).
  apply bind_OK in Hinit as (t & Ht%getitem_OK & Hinit).
  apply bind_OK in Hinit as ([bn obj] & Hsel & Hinit).
  apply bind_OK in Hinit as (enc_end & Hend%getitem_OK & Hinit).
  apply bind_OK in Hinit as (n_lc_in & Hn%getitem_OK & Hinit).
  apply bind_OK in Hinit as (dec_kw & Hdkw & Hinit).
  injection Hinit as <-.
  exists ia, n_quant, enc_kw, t, bn, obj, enc_end, n_lc_in, dec_kw.
  split_and!; done.
Qed.

(** What each branch of the bottleneck selection needs and builds. *)
Lemma select_bottleneck_OK t ep bp training bn obj :
  autoencoder_model.select_bottleneck t ep bp (delete "type" bp) training
  = OK (bn, obj) →
  ∃ n_in cls kw,
    t ∈ known_types ∧ ep !! "n_out" = Some n_in ∧
    bn = Bottleneck_new cls kw ∧
    kw !! "n_in" = Some n_in ∧ kw !! "type" = None ∧
    (t = PStr "vqvae" →
       bp !! "n_in" = None ∧ kw = <["n_in" := n_in]> (delete "type" bp)) ∧
    (t = PStr "vqvae-ema" →
       bp !! "n_in" = None ∧ bp !! "training" = None ∧
       kw = <["training" := training]>
              (<["n_in" := n_in]> (delete "type" bp))) ∧
    (t = PStr "vae" →
       ∃ n_out free_nats,
         bp !! "n_out" = Some n_out ∧ bp !! "free_nats" = Some free_nats ∧
         kw = <["n_out" := n_out]> {[ "n_in" := n_in ]} ∧
         obj_args obj = [free_nats]) ∧
    (t = PStr "ae" →
       ∃ n_out,
         bp !! "n_out" = Some n_out ∧
         kw = <["n_in" := n_in]> {[ "n_out" := n_out ]}).
Proof.
  unfold autoencoder_model.select_bottleneck, known_types.
  repeat case_decide; try subst t.
  - intros (n_in & Hn%getitem_OK & Hsel)%bind_OK.
    apply bind_OK in Hsel as (kw & (Hfree & ->)%kwargs_one & [= <- <-]).
    rewrite lookup_delete_ne in Hfree by done.
    exists n_in, "vq_bn.VQ", (<["n_in" := n_in]> (delete "type" bp)).
    split_and!; try done; try (by simplify_map_eq); set_solver.
  - intros (n_in & Hn%getitem_OK & Hsel)%bind_OK.
    apply bind_OK in Hsel as (kw & Hkw & [= <- <-]).
    apply kwargs_two in Hkw as (Hf1 & Hf2 & ->); [|done].
    rewrite lookup_delete_ne in Hf1, Hf2 by done.
    exists n_in, "vqema_bn.VQEMA",
      (<["training" := training]> (<["n_in" := n_in]> (delete "type" bp))).
    split_and!; try done; try (by simplify_map_eq); set_solver.
  - intros (n_in & Hn%getitem_OK & Hsel)%bind_OK.
    apply bind_OK in Hsel as (n_out & Ho%getitem_OK & Hsel).
    apply bind_OK in Hsel as (kw & Hkw & Hsel).
    apply bind_OK in Hsel as (free_nats & Hf%getitem_OK & [= <- <-]).
    apply kwargs_two in Hkw as (_ & _ & ->); [|done].
    exists n_in, "vae_bn.VAE", (<["n_out" := n_out]> {[ "n_in" := n_in ]}).
    split_and!; try done; try (by simplify_map_eq); [set_solver|].
    intros _. by exists n_out, free_nats.
  - intros (n_out & Ho%getitem_OK & Hsel)%bind_OK.
    apply bind_OK in Hsel as (n_in & Hn%getitem_OK & Hsel).
    apply bind_OK in Hsel as (kw & Hkw & [= <- <-]).
    apply kwargs_two in Hkw as (_ & _ & ->); [|done].
    rewrite lookup_delete_ne in Ho by done.
    exists n_in, "ae_bn.AE", (<["n_in" := n_in]> {[ "n_out" := n_out ]}).
    split_and!; try done; try (by simplify_map_eq); [set_solver|].
    intros _. by exists n_out.
  - unfold raise_. case_decide; [done|]. by vm_compute.
Qed.

(** X1.  [_initialize] completes only on a configuration that names a known
    bottleneck type, holds every option the constructors are given by
    name, and holds none of the keywords the method adds itself. *)
Theorem initialize_needs_configuration
    (self m : autoencoder_model.AutoEncoder) :
  autoencoder_model._initialize self = OK m →
  ∃ ia t,
    autoencoder_model.init_args self = Some ia ∧
    autoencoder_model.bn_params ia !! "type" = Some t ∧ t ∈ known_types ∧
    is_Some (autoencoder_model.dec_params ia !! "n_quant") ∧
    is_Some (autoencoder_model.enc_params ia !! "n_out") ∧
    is_Some (autoencoder_model.bn_params ia !! "n_out") ∧
    (t = PStr "vae" →
     is_Some (autoencoder_model.bn_params ia !! "free_nats")) ∧
    autoencoder_model.enc_params ia !! "n_in" = None ∧
    autoencoder_model.enc_params ia !! "parent_vc" = None ∧
    autoencoder_model.dec_params ia !! "parent_vc" = None ∧
    autoencoder_model.dec_params ia !! "n_lc_in" = None ∧
    (t ∈ vq_types → autoencoder_model.bn_params ia !! "n_in" = None) ∧
    (t = PStr "vqvae-ema" →
     autoencoder_model.bn_params ia !! "training" = None).
Proof.
  intros (ia & n_quant & enc_kw & t & bn & obj & enc_end & n_lc_in & dec_kw &
          Hia & Hq & Hekw & Ht & Hsel & Hend & Hn & Hdkw & _)%ae_initialize_OK.
  apply kwargs_two in Hekw as (He1 & He2 & _); [|done].
  apply kwargs_two in Hdkw as (Hd1 & Hd2 & _); [|done].
  apply select_bottleneck_OK
    in Hsel as (n_in & cls & kw & Hknown & Hno & _ & _ & _ &
                Hvq & Hema & Hvae & _).
  exists ia, t. split_and!; try done.
  - intros ->. destruct (Hvae eq_refl) as (? & ? & _ & -> & _). done.
  - unfold vq_types. rewrite !elem_of_cons, elem_of_nil.
    intros [->|[->|[]]]; [by apply Hvq | by apply Hema].
  - intros ->. by apply Hema.
Qed.

(** X2.  Where a completed [_initialize] sends the configuration: the
    encoder is built from the encoder options with the number of mel
    channels as its input width and no parent; the bottleneck takes the
    encoder's output width as its input width and never sees the 'type'
    entry, which only selects its class; the two VQ classes are handed
    every other bottleneck option, the other two only the two widths;
    the decoder is built from the decoder options with the encoder's
    last node as parent and the bottleneck's output width as the width
    of its local conditioning; the model's [vc] is the decoder's. *)
Theorem initialize_routes_configuration
    (self m : autoencoder_model.AutoEncoder) :
  autoencoder_model._initialize self = OK m →
  ∃ ia t enc cls bn_kw dec dec_kw enc_end n_lc_in,
    autoencoder_model.init_args self = Some ia ∧
    autoencoder_model.init_args m = Some ia ∧
    autoencoder_model.bn_params ia !! "type" = Some t ∧
    autoencoder_model.bn_type m = Some t ∧
    autoencoder_model.encoder m = Some enc ∧
    enc_kwargs enc
    = <["parent_vc" := PNone]>
        (<["n_in" := autoencoder_model.n_mel_chan ia]>
           (autoencoder_model.enc_params ia)) ∧
    autoencoder_model.bottleneck m = Some (Bottleneck_new cls bn_kw) ∧
    bn_kw !! "n_in" = autoencoder_model.enc_params ia !! "n_out" ∧
    is_Some (bn_kw !! "n_in") ∧
    bn_kw !! "type" = None ∧
    (t ∈ vq_types →
     ∀ k, k ∉ ["type"; "n_in"; "training"] →
          bn_kw !! k = autoencoder_model.bn_params ia !! k) ∧
    (t ∉ vq_types →
     dom bn_kw = {[ "n_in"; "n_out" ]} ∧
     bn_kw !! "n_out" = autoencoder_model.bn_params ia !! "n_out") ∧
    enc_vc enc !! "end" = Some enc_end ∧
    autoencoder_model.bn_params ia !! "n_out" = Some n_lc_in ∧
    autoencoder_model.decoder m = Some dec ∧
    dec = post_init (new_WaveNet dec_kw) ∧
    dec_kw
    = <["n_lc_in" := n_lc_in]>
        (<["parent_vc" := PRef enc_end]> (autoencoder_model.dec_params ia)) ∧
    trim_ups_out dec = None ∧
    autoencoder_model.vc m = Some (wn_vc dec).
Proof.
  intros (ia & n_quant & enc_kw & t & bn & obj & enc_end & n_lc_in & dec_kw &
          Hia & Hq & Hekw & Ht & Hsel & Hend & Hn & Hdkw & Hia' & _ & Henc &
          Hbn & _ & Hty & Hdec & Hvc & _)%ae_initialize_OK.
  apply kwargs_two in Hekw as (_ & _ & ->); [|done].
  apply kwargs_two in Hdkw as (_ & _ & ->); [|done].
  apply select_bottleneck_OK
    in Hsel as (n_in & cls & kw & Hknown & Hno & -> & Hkin & Hkty &
                Hvq & Hema & Hvae & Hae).
  eexists ia, t, _, cls, kw, _, _, enc_end, n_lc_in.
  split_and!; try done.
  - by rewrite Hkin, Hno.
  - unfold vq_types. rewrite !elem_of_cons, elem_of_nil.
    intros [->|[->|[]]] k (Hk1 & Hk2 & Hk3 & _)%not_elem_of_cons3.
    + destruct (Hvq eq_refl) as [_ ->].
      rewrite lookup_insert_ne by done. by apply lookup_delete_ne.
    + destruct (Hema eq_refl) as (_ & _ & ->).
      rewrite !lookup_insert_ne by done. by apply lookup_delete_ne.
  - intros Hnvq. unfold known_types, vq_types in *.
    rewrite !elem_of_cons, elem_of_nil in Hknown.
    destruct Hknown as [->|[->|[->|[->|[]]]]].
    + exfalso. apply Hnvq. rewrite !elem_of_cons. auto.
    + exfalso. apply Hnvq. rewrite !elem_of_cons. auto.
    + destruct (Hvae eq_refl) as (n_out & fn & Hout & _ & -> & _).
      split; [set_solver|]. by simplify_map_eq.
    + destruct (Hae eq_refl) as (n_out & Hout & ->).
      split; [set_solver|]. by simplify_map_eq.
Qed.

(** Whether [_initialize] completes, and what it assembles, depends on
    the object only through its [init_args]. *)
Lemma ae_initialize_again self self' m :
  autoencoder_model._initialize self = OK m →
  autoencoder_model.init_args self' = autoencoder_model.init_args self →
  ∃ m',
    autoencoder_model._initialize self' = OK m' ∧
    autoencoder_model.init_args m' = autoencoder_model.init_args m ∧
    autoencoder_model.preprocess m' = autoencoder_model.preprocess m ∧
    autoencoder_model.objective m' = autoencoder_model.objective m ∧
    autoencoder_model.bn_type m' = autoencoder_model.bn_type m.
Proof.
  unfold autoencoder_model._initialize. intros Hinit Hia. rewrite Hia.
  revert Hinit.
  destruct (getattr "init_args" _) as [ia|];
    cbn [mbind result_mbind result_bind]; [|done].
  destruct (getitem _ "n_quant"); cbn [mbind result_mbind result_bind]; [|done].
  destruct (kwargs _ (autoencoder_model.enc_params ia));
    cbn [mbind result_mbind result_bind]; [|done].
  destruct (getitem _ "type"); cbn [mbind result_mbind result_bind]; [|done].
  destruct (autoencoder_model.select_bottleneck _ _ _ _ _) as [[bn obj]|];
    cbn [mbind result_mbind result_bind]; [|done].
  destruct (getitem _ "end"); cbn [mbind result_mbind result_bind]; [|done].
  destruct (getitem _ "n_out"); cbn [mbind result_mbind result_bind]; [|done].
  destruct (kwargs _ (autoencoder_model.dec_params ia));
    cbn [mbind result_mbind result_bind]; [|done].
  intros [= <-]. eexists. split; [done|]. split_and!; done.
Qed.

Lemma mi_initialize_OK self m :
  mfcc_inverter._initialize self = OK m →
  ∃ ia n_quant n_lc_in kw,
    mfcc_inverter.init_args self = Some ia ∧
    mfcc_inverter.dec_params ia !! "n_quant" = Some n_quant ∧
    mfcc_inverter.mi_params ia !! "n_lc_in" = Some n_lc_in ∧
    kwargs [("parent_vc", PNone); ("n_lc_in", n_lc_in)]
           (mfcc_inverter.dec_params ia) = OK kw ∧
    mfcc_inverter.init_args m = Some ia ∧
    mfcc_inverter.bn_type m = Some (PStr "none") ∧
    mfcc_inverter.preprocess m = Some (mkPreProcess n_quant) ∧
    mfcc_inverter.wavenet m = Some (new_WaveNet kw) ∧
    mfcc_inverter.objective m = Some (new_Objective "wn.RecLoss" []) ∧
    mfcc_inverter.enc_in_len m = mfcc_inverter.enc_in_len self ∧
    mfcc_inverter.enc_in_mel_len m = mfcc_inverter.enc_in_mel_len self ∧
    mfcc_inverter.embed_len m = mfcc_inverter.embed_len self ∧
    mfcc_inverter.dec_in_len m = mfcc_inverter.dec_in_len self ∧
    mfcc_inverter.trim_dec_in m = mfcc_inverter.trim_dec_in self ∧
    mfcc_inverter.trim_dec_out m = mfcc_inverter.trim_dec_out self ∧
    mfcc_inverter.wav_onehot_dec m = mfcc_inverter.wav_onehot_dec self.
Proof.
  unfold mfcc_inverter._initialize. intros Hinit.
  apply bind_OK in Hinit as (ia & Hia%getattr_OK & Hinit).
  apply bind_OK in Hinit as (n_quant & Hq%getitem_OK & Hinit).
  apply bind_OK in Hinit as (n_lc_in & Hn%getitem_OK & Hinit).
  apply bind_OK in Hinit as (kw & Hkw & Hinit).
  injection Hinit as <-. exists ia, n_quant, n_lc_in, kw. split_and!; done.
Qed.

Lemma mi_initialize_again self self' m :
  mfcc_inverter._initialize self = OK m →
  mfcc_inverter.init_args self' = mfcc_inverter.init_args self →
  ∃ m',
    mfcc_inverter._initialize self' = OK m' ∧
    mfcc_inverter.init_args m' = mfcc_inverter.init_args m ∧
    mfcc_inverter.preprocess m' = mfcc_inverter.preprocess m ∧
    mfcc_inverter.wavenet m' = mfcc_inverter.wavenet m ∧
    mfcc_inverter.objective m' = mfcc_inverter.objective m ∧
    mfcc_inverter.bn_type m' = mfcc_inverter.bn_type m.
Proof.
  unfold mfcc_inverter._initialize. intros Hinit Hia. rewrite Hia.
  revert Hinit.
  destruct (getattr "init_args" _) as [ia|];
    cbn [mbind result_mbind result_bind]; [|done].
  destruct (getitem _ "n_quant"); cbn [mbind result_mbind result_bind]; [|done].
  destruct (getitem _ "n_lc_in"); cbn [mbind result_mbind result_bind]; [|done].
  destruct (kwargs _ _); cbn [mbind result_mbind result_bind]; [|done].
  intros [= <-]. eexists. split; [done|]. split_and!; done.
Qed.

(** X3.  The inverter's [_initialize] completes only on a configuration
    that holds the number of quantisation levels and the width of the
    local conditioning, and whose decoder options hold neither of the
    two keywords the method adds.  It then marks the model as having no
    bottleneck, builds the WaveNet from the decoder options with no
    parent and that width, without a trim for the upsampled
    conditioning, and starts the objective with no metrics. *)
Theorem inverter_initialize_configuration
    (self m : mfcc_inverter.MfccInverter) :
  mfcc_inverter._initialize self = OK m →
  ∃ ia n_lc_in wn obj,
    mfcc_inverter.init_args self = Some ia ∧
    mfcc_inverter.init_args m = Some ia ∧
    is_Some (mfcc_inverter.dec_params ia !! "n_quant") ∧
    mfcc_inverter.mi_params ia !! "n_lc_in" = Some n_lc_in ∧
    mfcc_inverter.dec_params ia !! "parent_vc" = None ∧
    mfcc_inverter.dec_params ia !! "n_lc_in" = None ∧
    mfcc_inverter.bn_type m = Some (PStr "none") ∧
    mfcc_inverter.wavenet m = Some wn ∧
    wn_kwargs wn
    = <["n_lc_in" := n_lc_in]>
        (<["parent_vc" := PNone]> (mfcc_inverter.dec_params ia)) ∧
    trim_ups_out wn = None ∧
    mfcc_inverter.objective m = Some obj ∧ metrics obj = ∅.
Proof.
  intros (ia & n_quant & n_lc_in & kw & Hia & Hq & Hn & Hkw & Hia' & Hty &
          _ & Hwn & Hobj & _)%mi_initialize_OK.
  apply kwargs_two in Hkw as (Hp & Hl & ->); [|done].
  eexists ia, n_lc_in, _, _. split_and!; done.
Qed.

(** X4.  A model whose configuration assembles survives pickling as that
    configuration only.  Its state can be taken and set on a fresh
    object; the rebuilt model pickles to the same state again, but
    carries no geometry, whatever the original had: every length and
    trim is unset, and [run] raises [AttributeError] on the first trim
    it reads, until [_init_geometry] is run again. *)
Theorem unpickled_model_has_no_geometry :
  (∀ self m0 vbatch,
     autoencoder_model._initialize self = OK m0 →
     ∃ st m,
       autoencoder_model.__getstate__ self = OK st ∧
       autoencoder_model.__setstate__ st autoencoder_model.blank = OK m ∧
       autoencoder_model.__getstate__ m = OK st ∧
       autoencoder_model.bn_type m = autoencoder_model.bn_type m0 ∧
       autoencoder_model.geometry m
       = (None, None, None, None, None, None, None) ∧
       autoencoder_model.run vbatch m
       = Raise (AttributeError "trim_dec_out")) ∧
  (∀ self m0 vbatch,
     mfcc_inverter._initialize self = OK m0 →
     ∃ st m,
       mfcc_inverter.__getstate__ self = OK st ∧
       mfcc_inverter.__setstate__ st mfcc_inverter.blank = OK m ∧
       mfcc_inverter.__getstate__ m = OK st ∧
       mfcc_inverter.bn_type m = mfcc_inverter.bn_type m0 ∧
       mfcc_inverter.geometry m
       = (None, None, None, None, None, None, None) ∧
       mfcc_inverter.run vbatch m = Raise (AttributeError "trim_dec_out")).
Proof.
  split.
  - intros self m0 vbatch Hinit.
    destruct (ae_initialize_OK _ _ Hinit) as (ia & ? & ? & ? & ? & ? & ? & ? &
      ? & Hia & _ & _ & _ & _ & _ & _ & _ & Hia0 & _).
    destruct (ae_initialize_again self
                (autoencoder_model.set_init_args ia autoencoder_model.blank)
                m0 Hinit) as (m & Hm & Hia' & _ & _ & Hty); [by rewrite Hia|].
    exists {[ "init_args" := autoencoder_model.InitArgsDict ia ]}, m.
    destruct (ae_initialize_OK _ _ Hm) as (ia' & n_quant & ? & ? & ? & ? & ? &
      ? & dec_kw & _ & _ & _ & _ & _ & _ & _ & _ & Hiam & Hpre & _ & _ & _ &
      _ & Hdec & _ & Heil & Heiml & Hel & Hdil & Htdi & Htdo & _).
    split_and!.
    + unfold autoencoder_model.__getstate__. by rewrite Hia.
    + unfold autoencoder_model.__setstate__, getitem.
      by rewrite lookup_singleton_eq.
    + unfold autoencoder_model.__getstate__. by rewrite Hia', Hia0.
    + done.
    + unfold autoencoder_model.geometry.
      by rewrite Heil, Heiml, Hel, Hdil, Htdi, Htdo, Hdec.
    + unfold autoencoder_model.run. by rewrite Hpre, Htdo.
  - intros self m0 vbatch Hinit.
    destruct (mi_initialize_OK _ _ Hinit) as (ia & ? & ? & ? & Hia & _ & _ &
      _ & Hia0 & _).
    destruct (mi_initialize_again self
                (mfcc_inverter.set_init_args ia mfcc_inverter.blank)
                m0 Hinit) as (m & Hm & Hia' & _ & _ & _ & Hty);
      [by rewrite Hia|].
    exists {[ "init_args" := mfcc_inverter.InitArgsDict ia ]}, m.
    destruct (mi_initialize_OK _ _ Hm) as (ia' & n_quant & n_lc_in & kw & _ &
      _ & _ & _ & Hiam & _ & Hpre & Hwn & _ & Heil & Heiml & Hel & Hdil &
      Htdi & Htdo & _).
    split_and!.
    + unfold mfcc_inverter.__getstate__. by rewrite Hia.
    + unfold mfcc_inverter.__setstate__, getitem.
      by rewrite lookup_singleton_eq.
    + unfold mfcc_inverter.__getstate__. by rewrite Hia', Hia0.
    + done.
    + unfold mfcc_inverter.geometry.
      by rewrite Heil, Heiml, Hel, Hdil, Htdi, Htdo, Hwn.
    + unfold mfcc_inverter.run. by rewrite Hpre, Htdo.
Qed.

(** X5.  The constructor hands the dataset's number of speakers to the
    decoder whatever the options say, since it overwrites that entry of
    the decoder options; it needs the option 'training'; and setting
    the pickled state of the model it builds on an object does what
    the constructor does on it. *)
Theorem constructor_takes_speakers_from_dataset
    (get_prefixed_items : params → string → params) (opts_dict : params)
    (dataset : Dataset) :
  (∀ self m,
     autoencoder_model.__init__ get_prefixed_items opts_dict dataset self
     = OK m →
     ∃ ia training enc dec st,
       opts_dict !! "training" = Some training ∧
       ia = autoencoder_model.mkInitArgs
              (get_prefixed_items opts_dict "enc_")
              (get_prefixed_items opts_dict "bn_")
              (<["n_speakers" := num_speakers dataset]>
                 (get_prefixed_items opts_dict "dec_"))
              (num_mel_chan dataset) training ∧
       autoencoder_model.init_args m = Some ia ∧
       autoencoder_model.encoder m = Some enc ∧
       enc_kwargs enc !! "n_in" = Some (num_mel_chan dataset) ∧
       autoencoder_model.decoder m = Some dec ∧
       wn_kwargs dec !! "n_speakers" = Some (num_speakers dataset) ∧
       autoencoder_model.__getstate__ m = OK st ∧
       ∀ obj,
         autoencoder_model.__setstate__ st obj
         = autoencoder_model.__init__ get_prefixed_items opts_dict dataset
             obj) ∧
  (∀ self,
     opts_dict !! "training" = None →
     autoencoder_model.__init__ get_prefixed_items opts_dict dataset self
     = Raise (AttributeError "training")) ∧
  (∀ self m,
     mfcc_inverter.__init__ get_prefixed_items opts_dict dataset self
     = OK m →
     ∃ ia wn st,
       ia = mfcc_inverter.mkInitArgs
              (<["n_speakers" := num_speakers dataset]>
                 (get_prefixed_items opts_dict "dec_"))
              (get_prefixed_items opts_dict "mi_") ∧
       mfcc_inverter.init_args m = Some ia ∧
       mfcc_inverter.wavenet m = Some wn ∧
       wn_kwargs wn !! "n_speakers" = Some (num_speakers dataset) ∧
       mfcc_inverter.__getstate__ m = OK st ∧
       ∀ obj,
         mfcc_inverter.__setstate__ st obj
         = mfcc_inverter.__init__ get_prefixed_items opts_dict dataset obj).
Proof.
  split_and!.
  - intros self m. unfold autoencoder_model.__init__.
    destruct (opts_dict !! "training") as [training|] eqn:Htr;
      cbn [getattr mbind result_mbind result_bind]; [|done].
    intros (ia & ? & enc_kw & ? & ? & ? & enc_end & n_lc_in & dec_kw &
            [= <-] & _ & Hekw & _ & _ & _ & _ & Hdkw & Hia & _ & Henc & _ &
            _ & _ & Hdec & _)%ae_initialize_OK.
    cbn in Hekw, Hdkw.
    apply kwargs_two in Hekw as (_ & _ & ->); [|done].
    apply kwargs_two in Hdkw as (_ & _ & ->); [|done].
    eexists _, training, _, _, _. split_and!; try done.
    + cbn. by simplify_map_eq.
    + cbn. by simplify_map_eq.
    + unfold autoencoder_model.__getstate__. by rewrite Hia.
    + intros obj. unfold autoencoder_model.__setstate__, getitem.
      by rewrite lookup_singleton_eq.
  - intros self Htr. unfold autoencoder_model.__init__. by rewrite Htr.
  - intros self m. unfold mfcc_inverter.__init__.
    intros (ia & ? & n_lc_in & kw & [= <-] & _ & _ & Hkw & Hia & _ & _ &
            Hwn & _)%mi_initialize_OK.
    cbn in Hkw. apply kwargs_two in Hkw as (_ & _ & ->); [|done].
    eexists _, _, _. split_and!; try done.
    + cbn. by simplify_map_eq.
    + unfold mfcc_inverter.__getstate__. by rewrite Hia.
    + intros obj. unfold mfcc_inverter.__setstate__, getitem.
      by rewrite lookup_singleton_eq.
Qed.

End with_collaborators.
End assembly_props.

(** ** Codebook initialisation: edges, failures and what is read *)

Module codebook_props.
Import notions prog_facts geometry_facts autoencoder_model codebook_facts
  codebook_claims.

Section with_collaborators.
Context `{Collaborators}.

(** The three stages of a call that returns, and of one that raises. *)
Lemma init_codebook_Done_inv fuel junk ds n self self' ds' :
  init_codebook fuel junk ds n self = Done (self', ds') →
  ∃ bn n_codes samples0 e samples',
    codebook_setup junk n self = OK (bn, n_codes, samples0) ∧
    sample_loop fuel self n ds 0 samples0 = Done (ds', e, samples') ∧
    codebook_store samples' n_codes bn self = (self', None).
Proof.
  unfold init_codebook.
  destruct (codebook_setup junk n self) as [[[bn n_codes] samples0]|]
    eqn:Hsetup; [|done].
  destruct (sample_loop _ _ _ _ _ _) as [[[ds1 e] s1]|ex [[ds1 e] s1]|]
    eqn:Hloop; [|done..].
  destruct (codebook_store _ _ _ _) as [self1 [ex|]] eqn:Hst; [done|].
  intros [= <- <-]. by exists bn, n_codes, samples0, e, s1.
Qed.

Lemma init_codebook_Fail_inv fuel junk ds n self ex self' ds' :
  init_codebook fuel junk ds n self = Fail ex (self', ds') →
  (codebook_setup junk n self = Raise ex ∧ self' = self ∧ ds' = ds) ∨
  (∃ bn n_codes samples0 e s,
     codebook_setup junk n self = OK (bn, n_codes, samples0) ∧
     sample_loop fuel self n ds 0 samples0 = Fail ex (ds', e, s) ∧
     self' = self) ∨
  (∃ bn n_codes samples0 e s,
     codebook_setup junk n self = OK (bn, n_codes, samples0) ∧
     sample_loop fuel self n ds 0 samples0 = Done (ds', e, s) ∧
     codebook_store s n_codes bn self = (self', Some ex)).
Proof.
  unfold init_codebook.
  destruct (codebook_setup junk n self) as [[[bn n_codes] samples0]|ex0]
    eqn:Hsetup; [|intros [= <- <- <-]; by left].
  destruct (sample_loop _ _ _ _ _ _) as [[[ds1 e] s1]|ex1 [[ds1 e] s1]|]
    eqn:Hloop; [| |done].
  - destruct (codebook_store _ _ _ _) as [self1 [ex1|]] eqn:Hst; [|done].
    intros [= <- <- <-]. right. right. by exists bn, n_codes, samples0, e, s1.
  - intros [= <- <- <-]. right. left. by exists bn, n_codes, samples0, e, s1.
Qed.

(** What the body of the loop can raise. *)
Lemma sample_step_Raise_kind self n b e samples ex :
  sample_step self n b e samples = Raise ex →
  (∃ attr, ex = AttributeError attr) ∨
  ex = ValueError "could not broadcast input array".
Proof.
  unfold sample_step, batch_rows.
  destruct (encoder self); cbn [getattr mbind result_mbind result_bind];
    [|intros [= <-]; left; by eexists].
  destruct (bottleneck self); cbn [getattr mbind result_mbind result_bind];
    [|intros [= <-]; left; by eexists].
  destruct (assign_rows _ _ _ _ _) as [s'|ex1] eqn:Hassign;
    cbn [mbind result_mbind result_bind]; [done|].
  intros [= <-]. right. by apply assign_rows_Raise in Hassign.
Qed.

(** A loop that raises has only advanced the data source; it raises
    [StopIteration] only at a position where the source has nothing. *)
Lemma sample_loop_Fail_inv fuel self n ds e samples ex ds' e' s' :
  sample_loop fuel self n ds e samples = Fail ex (ds', e', s') →
  items ds' = items ds ∧ (pos ds ≤ pos ds')%nat ∧
  (ex = StopIteration → items ds (pos ds') = None) ∧
  (ex = StopIteration ∨ (∃ attr, ex = AttributeError attr) ∨
   ex = ValueError "could not broadcast input array").
Proof.
  revert ds e samples.
  induction fuel as [|fuel IH]; intros ds e samples; cbn [sample_loop];
    destruct (decide (e ≠ n)); try done.
  unfold next. destruct (items ds (pos ds)) as [b|] eqn:Hitem.
  - destruct (sample_step self n b e samples) as [[e1 s1]|ex1] eqn:Hstep.
    + intros (Hitems & Hpos & Hstop & Hkind)%IH. cbn in Hitems, Hpos.
      split_and!; [done|lia|done|done].
    + intros [= <- <- <- <-]. cbn.
      apply sample_step_Raise_kind in Hstep.
      split_and!; [done|lia| |by right].
      intros ->. by destruct Hstep as [[? [=]]|[=]].
  - intros [= <- <- <- <-]. split_and!; [done|lia|done|by left].
Qed.

(** Assigning a whole tensor fails only on a source that has neither
    as many rows as the target nor exactly one. *)
Lemma assign_rows_all_Raise err src target ex :
  assign_rows err None None src target = Raise ex →
  ex = err ∧ length src ≠ length target ∧ length src ≠ 1%nat.
Proof.
  unfold assign_rows. cbn [from_option].
  rewrite Nat2Z.id, Nat.sub_0_r.
  destruct (decide (length src = length target)) as [Hlen|Hlen]; [done|].
  destruct src as [|x [|y src]]; try done; by intros [= <-].
Qed.

Lemma assign_rows_all_OK err src target r :
  assign_rows err None None src target = OK r →
  length src = length target ∨ length src = 1%nat.
Proof.
  unfold assign_rows. cbn [from_option].
  rewrite Nat2Z.id, Nat.sub_0_r.
  destruct (decide (length src = length target)) as [Hlen|Hlen]; [by left|].
  destruct src as [|x [|y src]]; try done. by right.
Qed.

Lemma codebook_assign_OK samples n_codes bn bn1 :
  codebook_assign samples n_codes bn = OK bn1 →
  ∃ km cb,
    kmeans samples n_codes = Some km ∧ emb bn = Some cb ∧
    (length km = length cb ∨ length km = 1%nat) ∧
    bn1 = set_emb (broadcast (length cb) km) bn.
Proof.
  unfold codebook_assign.
  destruct (kmeans samples n_codes) as [km|];
    cbn [mbind result_mbind result_bind]; [|done].
  intros (cb & Hcb%getattr_OK & Hassign)%bind_OK.
  apply bind_OK in Hassign as (cb' & Hassign & [= <-]).
  pose proof (assign_rows_all_OK _ _ _ _ Hassign) as Hlen.
  apply assign_rows_all in Hassign as [-> _]. by exists km, cb.
Qed.

Lemma codebook_assign_Raise_inv samples n_codes bn ex :
  codebook_assign samples n_codes bn = Raise ex →
  (ex = ValueError "kmeans" ∧ kmeans samples n_codes = None) ∨
  ex = AttributeError "emb" ∨
  (ex = RuntimeError "shape mismatch" ∧
   ∃ km cb,
     kmeans samples n_codes = Some km ∧ emb bn = Some cb ∧
     length km ≠ length cb ∧ length km ≠ 1%nat).
Proof.
  unfold codebook_assign.
  destruct (kmeans samples n_codes) as [km|];
    cbn [mbind result_mbind result_bind]; [|intros [= <-]; by left].
  destruct (emb bn) as [cb|]; cbn [getattr mbind result_mbind result_bind];
    [|intros [= <-]; right; by left].
  destruct (assign_rows _ None None km cb) as [cb'|ex1] eqn:Hassign;
    cbn [mbind result_mbind result_bind]; [done|].
  intros [= <-]. apply assign_rows_all_Raise in Hassign as (-> & Hn & H1).
  right. right. split; [done|]. by exists km, cb.
Qed.

Lemma ema_numer_assign_inv bn bn2 :
  ema_numer_assign bn = OK bn2 →
  ∃ cb g,
    emb bn = Some cb ∧ ema_gamma_comp bn = Some g ∧
    bn2 = set_ema_numer (scale_rows cb g) bn.
Proof.
  unfold ema_numer_assign. intros (cb & Hcb%getattr_OK & Hg)%bind_OK.
  apply bind_OK in Hg as (g & Hg%getattr_OK & [= <-]). by exists cb, g.
Qed.

Lemma ema_denom_assign_inv bn bn3 :
  ema_denom_assign bn = OK bn3 →
  ∃ ones g,
    n_sum_ones bn = Some ones ∧ ema_gamma_comp bn = Some g ∧
    bn3 = set_ema_denom (scale_counts ones g) bn.
Proof.
  unfold ema_denom_assign. intros (ones & Ho%getattr_OK & Hg)%bind_OK.
  apply bind_OK in Hg as (g & Hg%getattr_OK & [= <-]). by exists ones, g.
Qed.

Lemma ema_assign_Raise_kind bn ex :
  ema_numer_assign bn = Raise ex ∨ ema_denom_assign bn = Raise ex →
  ∃ attr, ex = AttributeError attr.
Proof.
  unfold ema_numer_assign, ema_denom_assign.
  destruct (emb bn), (n_sum_ones bn), (ema_gamma_comp bn);
    cbn [getattr mbind result_mbind result_bind];
    intros [[= <-]|[= <-]]; by eexists.
Qed.

(** A store that raises either raised in the codebook assignment,
    before the model was touched, or in the two statements of the EMA
    variant, on a missing attribute. *)
Lemma codebook_store_Fail_inv samples n_codes bn self self' ex :
  codebook_store samples n_codes bn self = (self', Some ex) →
  (codebook_assign samples n_codes bn = Raise ex ∧ self' = self) ∨
  (bn_type self = Some (PStr "vqvae-ema") ∧ ∃ attr, ex = AttributeError attr).
Proof.
  unfold codebook_store.
  destruct (codebook_assign samples n_codes bn) as [bn1|ex1] eqn:Ha;
    [|intros [= <- <-]; by left].
  change (bn_type (set_bottleneck bn1 self)) with (bn_type self).
  case_decide as Hema; [|done].
  destruct (ema_numer_assign bn1) as [bn2|ex2] eqn:Hn.
  - destruct (ema_denom_assign bn2) as [bn3|ex3] eqn:Hd; [done|].
    intros [= _ <-]. right. split; [done|].
    apply (ema_assign_Raise_kind bn2). by right.
  - intros [= _ <-]. right. split; [done|].
    apply (ema_assign_Raise_kind bn1). by left.
Qed.

(** A store that returns has replaced the bottleneck by one that
    differs in its codebook and, for the EMA variant, in its two
    running statistics. *)
Lemma codebook_store_Done_inv samples n_codes bn self self' :
  codebook_store samples n_codes bn self = (self', None) →
  ∃ km cb bn',
    kmeans samples n_codes = Some km ∧ emb bn = Some cb ∧
    (length km = length cb ∨ length km = 1%nat) ∧
    self' = set_bottleneck bn' self ∧
    emb bn' = Some (broadcast (length cb) km) ∧
    bn_class bn' = bn_class bn ∧ bn_kwargs bn' = bn_kwargs bn ∧
    ema_gamma_comp bn' = ema_gamma_comp bn ∧
    n_sum_ones bn' = n_sum_ones bn ∧
    (bn_type self = Some (PStr "vqvae-ema") →
     ∃ g ones,
       ema_gamma_comp bn = Some g ∧ n_sum_ones bn = Some ones ∧
       ema_numer bn' = Some (scale_rows (broadcast (length cb) km) g) ∧
       ema_denom bn' = Some (scale_counts ones g)) ∧
    (bn_type self ≠ Some (PStr "vqvae-ema") →
     ema_numer bn' = ema_numer bn ∧ ema_denom bn' = ema_denom bn).
Proof.
  unfold codebook_store.
  destruct (codebook_assign samples n_codes bn) as [bn1|ex1] eqn:Ha; [|done].
  apply codebook_assign_OK in Ha as (km & cb & Hkm & Hcb & Hlen & ->).
  change (bn_type (set_bottleneck ?b self)) with (bn_type self).
  case_decide as Hema.
  - destruct (ema_numer_assign _) as [bn2|ex2] eqn:Hn; [|done].
    apply ema_numer_assign_inv in Hn as (cb1 & g & [= <-] & Hg & ->).
    destruct (ema_denom_assign _) as [bn3|ex3] eqn:Hd; [|done].
    apply ema_denom_assign_inv in Hd as (ones & g' & Ho & Hg' & ->).
    cbn in Hg, Hg', Ho. rewrite Hg in Hg'. injection Hg' as <-.
    intros [= <-]. eexists km, cb, _. split_and!; try done.
    intros _. by exists g, ones.
  - intros [= <-]. eexists km, cb, _. split_and!; done.
Qed.

Lemma sample_loop_full fuel self n ds samples :
  sample_loop fuel self n ds n samples = Done (ds, n, samples).
Proof.
  destruct fuel; cbn [sample_loop]; by rewrite decide_False by (by intros ?).
Qed.

(** A loop that returns stopped at the first batch with which the rows
    drawn reach [n]. *)
Lemma sample_loop_minimal fuel self n ds e samples ds' e' samples' :
  0 ≤ e < n → Z.of_nat (length samples) = n →
  sample_loop fuel self n ds e samples = Done (ds', e', samples') →
  (pos ds < pos ds')%nat ∧
  e + Z.of_nat (length (drawn_rows self (items ds) (pos ds)
                          (pos ds' - pos ds - 1))) < n ∧
  n ≤ e + Z.of_nat (length (drawn_rows self (items ds) (pos ds)
                              (pos ds' - pos ds))).
Proof.
  revert ds e samples.
  induction fuel as [|fuel IH]; intros ds e samples He Hlen; cbn [sample_loop];
    (destruct (decide (e ≠ n)) as [Hne|Heq]; [|lia]); [done|].
  unfold next. destruct (items ds (pos ds)) as [b|] eqn:Hb; [|done].
  rewrite sample_step_spec by (done || lia).
  destruct (batch_rows self b) as [rows|ex] eqn:Hrows; [|done].
  cbn [mbind result_mbind result_bind].
  set (c := Z.min (n - e) (Z.of_nat (length rows))).
  destruct (decide (e + c = n)) as [Hfull|Hmore].
  - rewrite Hfull, sample_loop_full. intros [= <- _ _]. cbn [pos items].
    replace (S (pos ds) - pos ds - 1)%nat with 0%nat by lia.
    replace (S (pos ds) - pos ds)%nat with 1%nat by lia.
    cbn [drawn_rows]. rewrite Hb, Hrows, app_nil_r. cbn [length].
    split_and!; lia.
  - intros Hloop. apply IH in Hloop as (Hpos & Hless & Hreach).
    + cbn [items pos] in *. split; [lia|].
      replace (pos ds' - pos ds - 1)%nat with (S (pos ds' - S (pos ds) - 1))
        by lia.
      replace (pos ds' - pos ds)%nat with (S (pos ds' - S (pos ds))) by lia.
      cbn [drawn_rows]. rewrite Hb, Hrows, !length_app. lia.
    + lia.
    + rewrite !length_app, !length_take, length_drop. lia.
Qed.

(** X6.  A call with a non-positive number of samples never draws a
    batch and needs no step of the loop: with zero samples it goes
    straight to k-means on an empty array; with a negative number it
    raises instead of looping, and on a model that has a codebook what
    it raises is numpy's [ValueError], with the model as it was. *)
Theorem init_codebook_nonpositive_draws_nothing (fuel : nat)
    (junk : nat → Row) (data_source : DataSource) (n_samples : Z)
    (self : AutoEncoder) :
  n_samples ≤ 0 →
  (∃ self',
     (n_samples = 0 ∧
      init_codebook fuel junk data_source n_samples self
      = Done (self', data_source)) ∨
     ∃ ex, init_codebook fuel junk data_source n_samples self
           = Fail ex (self', data_source)) ∧
  (n_samples < 0 →
   ∀ t bn cb,
     bn_type self = Some t → t ∈ vq_types →
     bottleneck self = Some bn → emb bn = Some cb →
     init_codebook fuel junk data_source n_samples self
     = Fail (ValueError "negative dimensions are not allowed")
         (self, data_source)).
Proof.
  intros Hn. split.
  - unfold init_codebook.
    destruct (codebook_setup junk n_samples self)
      as [[[bn n_codes] samples]|ex] eqn:Hsetup; [|by eexists; right; eexists].
    apply codebook_setup_OK in Hsetup as (_ & _ & _ & _ & _ & _ & _ & Hpos & _).
    assert (n_samples = 0) as -> by lia.
    rewrite sample_loop_full.
    destruct (codebook_store samples n_codes bn self) as [self' [ex|]];
      exists self'; [right; by eexists|by left].
  - intros Hneg t bn cb Ht Hvq Hbn Hcb.
    unfold init_codebook, codebook_setup. rewrite Ht.
    cbn [getattr mbind result_mbind result_bind].
    rewrite decide_False by (by intros ?). rewrite Hbn.
    cbn [getattr mbind result_mbind result_bind]. rewrite Hcb.
    cbn [getattr mbind result_mbind result_bind].
    unfold np_empty. destruct (n_samples <? 0) eqn:Hlt; [done|].
    apply Z.ltb_ge in Hlt. lia.
Qed.

(** X7.  A call that raises has at most advanced the data source.  The
    model is as it was unless the exception is an [AttributeError], and
    always when the model is not of the EMA variant: the codebook is
    assigned in one statement, after everything that can fail for the
    plain VQ model.  [StopIteration] comes out only at a position where
    the source has nothing left. *)
Theorem init_codebook_failure_leaves_model (fuel : nat) (junk : nat → Row)
    (data_source data_source' : DataSource) (n_samples : Z)
    (self self' : AutoEncoder) (ex : exn) :
  init_codebook fuel junk data_source n_samples self
  = Fail ex (self', data_source') →
  items data_source' = items data_source ∧
  (pos data_source ≤ pos data_source')%nat ∧
  ((∀ attr, ex ≠ AttributeError attr) → self' = self) ∧
  (bn_type self ≠ Some (PStr "vqvae-ema") → self' = self) ∧
  (ex = StopIteration → items data_source (pos data_source') = None).
Proof.
  intros [(Hsetup & -> & ->)|[(bn & nc & s0 & e & s & Hsetup & Hloop & ->)|
          (bn & nc & s0 & e & s & Hsetup & Hloop & Hstore)]]%init_codebook_Fail_inv.
  - split_and!; try done. intros ->. revert Hsetup. unfold codebook_setup.
    destruct (bn_type self) as [t|];
      cbn [getattr mbind result_mbind result_bind]; [|done].
    case_decide; [by vm_compute|].
    destruct (bottleneck self) as [bn|];
      cbn [getattr mbind result_mbind result_bind]; [|done].
    destruct (emb bn); cbn [getattr mbind result_mbind result_bind]; [|done].
    unfold np_empty. by destruct (n_samples <? 0).
  - apply sample_loop_Fail_inv in Hloop as (Hitems & Hpos & Hstop & _).
    split_and!; done.
  - apply codebook_setup_OK in Hsetup as (_ & _ & _ & _ & _ & _ & _ & Hn & ->).
    apply sample_loop_Done in Hloop as (_ & Hitems & Hpos & _);
      [|lia|rewrite length_fmap, length_seq; lia].
    apply codebook_store_Fail_inv in Hstore
      as [[Hassign ->]|[Hema [attr ->]]].
    + split_and!; try done. intros ->.
      by apply codebook_assign_Raise_inv in Hassign
        as [[[=] _]|[[=]|[[=] _]]].
    + split_and!; try done.
      intros Hattr. by destruct (Hattr attr).
Qed.

(** X8.  A call that returns for a positive number of samples has
    drawn at least one batch and no batch it did not need: the rows of
    the batches before the last one drawn are fewer than [n_samples],
    and with the last one they are enough. *)
Theorem init_codebook_stops_at_enough_rows (fuel : nat) (junk : nat → Row)
    (data_source data_source' : DataSource) (n_samples : Z)
    (self self' : AutoEncoder) :
  0 < n_samples →
  init_codebook fuel junk data_source n_samples self
  = Done (self', data_source') →
  (pos data_source < pos data_source')%nat ∧
  Z.of_nat (length (drawn_rows self (items data_source) (pos data_source)
                      (pos data_source' - pos data_source - 1)))
  < n_samples ∧
  n_samples
  ≤ Z.of_nat (length (drawn_rows self (items data_source) (pos data_source)
                        (pos data_source' - pos data_source))).
Proof.
  intros Hn (bn & nc & s0 & e & s & Hsetup & Hloop & _)%init_codebook_Done_inv.
  apply codebook_setup_OK in Hsetup as (_ & _ & _ & _ & _ & _ & _ & _ & ->).
  apply sample_loop_minimal in Hloop;
    [|lia|rewrite length_fmap, length_seq; lia].
  by rewrite !Z.add_0_l in Hloop.
Qed.

(** X9.  A call that returns has changed the bottleneck and nothing
    else of the model, and of the bottleneck only the codebook and, for
    the EMA variant, the two running statistics: the numerator becomes
    the new codebook scaled by [ema_gamma_comp] and the denominator
    [n_sum_ones] scaled by it.  For the plain VQ model the statistics
    are as they were. *)
Theorem init_codebook_ema_statistics (fuel : nat) (junk : nat → Row)
    (data_source data_source' : DataSource) (n_samples : Z)
    (self self' : AutoEncoder) :
  init_codebook fuel junk data_source n_samples self
  = Done (self', data_source') →
  ∃ bn bn' cb',
    bottleneck self = Some bn ∧
    self' = set_bottleneck bn' self ∧
    emb bn' = Some cb' ∧
    bn_class bn' = bn_class bn ∧ bn_kwargs bn' = bn_kwargs bn ∧
    ema_gamma_comp bn' = ema_gamma_comp bn ∧
    n_sum_ones bn' = n_sum_ones bn ∧
    (bn_type self = Some (PStr "vqvae-ema") →
     ∃ g ones,
       ema_gamma_comp bn = Some g ∧ n_sum_ones bn = Some ones ∧
       ema_numer bn' = Some (scale_rows cb' g) ∧
       ema_denom bn' = Some (scale_counts ones g)) ∧
    (bn_type self = Some (PStr "vqvae") →
     ema_numer bn' = ema_numer bn ∧ ema_denom bn' = ema_denom bn).
Proof.
  intros (bn & nc & s0 & e & s & Hsetup & _ & Hstore)%init_codebook_Done_inv.
  apply codebook_setup_OK in Hsetup as (_ & _ & _ & _ & Hbn & _).
  apply codebook_store_Done_inv in Hstore
    as (km & cb & bn' & _ & _ & _ & -> & Hemb & ? & ? & ? & ? & Hema & Hvq).
  exists bn, bn', (broadcast (length cb) km). split_and!; try done.
  intros Ht. apply Hvq. by rewrite Ht.
Qed.

End with_collaborators.
End codebook_props.

(** ** Geometry: what it needs, what it touches, and printing the chain *)

Module geometry_props.
Import notions prog_facts geometry_facts.

Section with_resolver.
Context `{Resolver} `{Collaborators}.

(** X11.  [_init_geometry] never completes on a model whose first
    stage has no parent, which is how [_initialize] builds it: the
    autoencoder reads [.child] of the missing parent, after its first
    two range queries, and the inverter calls [.in_len()] on it, after
    [compute_inputs] has already run. *)
Theorem init_geometry_needs_parent (w : Z) (c : chain) :
  (∀ self enc beg,
     autoencoder_model.encoder self = Some enc →
     enc_vc enc !! "beg" = Some beg →
     node_parent c beg = OK None →
     (∀ r, run (autoencoder_model._init_geometry w self) c ≠ OK r) ∧
     ∀ end_enc dec end_ups beg_grcc end_grcc di ei,
       enc_vc enc !! "end" = Some end_enc →
       autoencoder_model.decoder self = Some dec →
       wn_vc dec !! "last_upsample" = Some end_ups →
       wn_vc dec !! "beg_grcc" = Some beg_grcc →
       wn_vc dec !! "end_grcc" = Some end_grcc →
       resolve_input_range c (Some beg_grcc) end_grcc (desired w) = OK di →
       resolve_input_range c None end_grcc (desired w) = OK ei →
       run (autoencoder_model._init_geometry w self) c
       = Raise (AttributeError "child")) ∧
  (∀ self wn end_grcc actual c1 beg,
     mfcc_inverter.wavenet self = Some wn →
     wn_vc wn !! "end_grcc" = Some end_grcc →
     resolve_compute_inputs c end_grcc (desired w) = OK (actual, c1) →
     wn_vc wn !! "beg" = Some beg →
     node_parent c1 beg = OK None →
     (∀ r, run (mfcc_inverter._init_geometry w self) c ≠ OK r) ∧
     (is_Some (wn_vc wn !! "beg_grcc") →
      run (mfcc_inverter._init_geometry w self) c
      = Raise (AttributeError "in_len"))).
Proof.
  split.
  - intros self enc beg Henc Hbeg Hparent. split.
    + intros [self' c'] [_ Hres]%ae_init_geometry_inv.
      destruct Hres as [enc' ? beg' mfcc ? ? ? ? ? ? ? ? ? ? Henc' _ Hbeg' _ _
                          _ _ Hparent' _].
      rewrite Henc in Henc'. injection Henc' as <-.
      rewrite Hbeg in Hbeg'. injection Hbeg' as <-.
      by rewrite Hparent in Hparent'.
    + intros end_enc dec end_ups beg_grcc end_grcc di ei
        Hend Hdec Hups Hbg Heg Hdi Hei.
      unfold autoencoder_model._init_geometry.
      rewrite (run_bind_getattr _ _ _ _ _ Henc).
      rewrite (run_bind_getitem _ _ _ _ _ Hbeg).
      rewrite (run_bind_ask (parent beg) None c c)
        by by apply answer_parent.
      rewrite (run_bind_getitem _ _ _ _ _ Hend).
      rewrite (run_bind_getattr _ _ _ _ _ Hdec).
      rewrite (run_bind_getitem _ _ _ _ _ Hups).
      rewrite (run_bind_getitem _ _ _ _ _ Hbg).
      rewrite (run_bind_getitem _ _ _ _ _ Heg).
      rewrite (run_bind_ask (input_range (Some beg_grcc) end_grcc _) di c c)
        by by apply answer_input_range.
      rewrite (run_bind_ask (input_range None end_grcc _) ei c c)
        by by apply answer_input_range.
      done.
  - intros self wn end_grcc actual c1 beg Hwn Heg Hci Hbeg Hparent. split.
    + intros [self' c'] Hres%mi_init_geometry_inv.
      destruct Hres as [wn' eg' actual' beg' mfcc ? ? ? ? ? ? ? Hwn' Heg' Hci'
                          Hbeg' Hparent' _].
      rewrite Hwn in Hwn'. injection Hwn' as <-.
      rewrite Heg in Heg'. injection Heg' as <-.
      rewrite Hbeg in Hbeg'. injection Hbeg' as <-.
      rewrite Hci in Hci'. injection Hci' as <- <-.
      by rewrite Hparent in Hparent'.
    + intros [beg_grcc Hbg].
      unfold mfcc_inverter._init_geometry.
      rewrite (run_bind_getattr _ _ _ _ _ Hwn).
      rewrite (run_bind_getitem _ _ _ _ _ Heg).
      rewrite (run_bind_ask (compute_inputs end_grcc _) actual c c1) by done.
      rewrite (run_bind_getitem _ _ _ _ _ Hbeg).
      rewrite (run_bind_ask (parent beg) None c1 c1)
        by by apply answer_parent.
      rewrite (run_bind_getitem _ _ _ _ _ Hbg).
      done.
Qed.

(** X12.  A completed [_init_geometry] touches only the geometry.  The
    autoencoder's leaves the chain as it was and, of the model, changes
    the lengths, the trims and the decoder's [trim_ups_out]; the
    decoder keeps its nodes, arguments and layers.  The inverter's
    changes the same attributes and runs the WaveNet's [post_init] on
    the WaveNet that already carries the new [trim_ups_out]. *)
Theorem init_geometry_touches_only_geometry (w : Z) (c : chain) :
  (∀ self self' c',
     run (autoencoder_model._init_geometry w self) c = OK (self', c') →
     c' = c ∧
     autoencoder_model.init_args self' = autoencoder_model.init_args self ∧
     autoencoder_model.preprocess self' = autoencoder_model.preprocess self ∧
     autoencoder_model.encoder self' = autoencoder_model.encoder self ∧
     autoencoder_model.bottleneck self' = autoencoder_model.bottleneck self ∧
     autoencoder_model.objective self' = autoencoder_model.objective self ∧
     autoencoder_model.bn_type self' = autoencoder_model.bn_type self ∧
     autoencoder_model.vc self' = autoencoder_model.vc self ∧
     autoencoder_model.wav_onehot_dec self'
     = autoencoder_model.wav_onehot_dec self ∧
     autoencoder_model.encoding_bn self'
     = autoencoder_model.encoding_bn self ∧
     ∃ dec dec',
       autoencoder_model.decoder self = Some dec ∧
       autoencoder_model.decoder self' = Some dec' ∧
       wn_kwargs dec' = wn_kwargs dec ∧ wn_vc dec' = wn_vc dec ∧
       wn_layers dec' = wn_layers dec) ∧
  (∀ self self' c',
     run (mfcc_inverter._init_geometry w self) c = OK (self', c') →
     mfcc_inverter.init_args self' = mfcc_inverter.init_args self ∧
     mfcc_inverter.bn_type self' = mfcc_inverter.bn_type self ∧
     mfcc_inverter.preprocess self' = mfcc_inverter.preprocess self ∧
     mfcc_inverter.objective self' = mfcc_inverter.objective self ∧
     mfcc_inverter.wav_onehot_dec self' = mfcc_inverter.wav_onehot_dec self ∧
     ∃ wn wn' t,
       mfcc_inverter.wavenet self = Some wn ∧
       mfcc_inverter.wavenet self' = Some wn' ∧
       wn_kwargs wn' = wn_kwargs wn ∧ wn_vc wn' = wn_vc wn ∧
       trim_ups_out wn' = Some t ∧
       wn_layers wn' = WaveNet_post_init (set_trim_ups_out t wn)).
Proof.
  split.
  - intros self self' c' [-> Hres]%ae_init_geometry_inv.
    destruct Hres as [enc dec ? ? ? ? ? ? ? ? ? ? ? ? _ Hdec _].
    split_and!; try done. by eexists dec, _.
  - intros self self' c' Hres%mi_init_geometry_inv.
    destruct Hres as [wn ? ? ? ? ? ? ? ? ? ? ? Hwn _].
    split_and!; try done. by eexists wn, _, _.
Qed.

(** X13.  After [_init_geometry] the trim of the upsampled
    conditioning spans the stored decoder input length: in the
    autoencoder it is the decoder input range taken relative to the
    start of the upsampling output, in the inverter it starts at zero.
    The inverter stores one length as both [enc_in_mel_len] and
    [embed_len]. *)
Theorem trim_ups_out_spans_decoder_input (w : Z) (c : chain) :
  (∀ self self' c',
     run (autoencoder_model._init_geometry w self) c = OK (self', c') →
     ∃ dec t d,
       autoencoder_model.decoder self' = Some dec ∧
       trim_ups_out dec = Some t ∧
       autoencoder_model.dec_in_len self' = Some d ∧
       t.2 - t.1 = d) ∧
  (∀ self self' c',
     run (mfcc_inverter._init_geometry w self) c = OK (self', c') →
     ∃ wn d m,
       mfcc_inverter.wavenet self' = Some wn ∧
       trim_ups_out wn = Some (0, d) ∧
       mfcc_inverter.dec_in_len self' = Some d ∧
       mfcc_inverter.enc_in_mel_len self' = Some m ∧
       mfcc_inverter.embed_len self' = Some m).
Proof.
  split.
  - intros self self' c' [-> Hres]%ae_init_geometry_inv.
    destruct Hres as [enc dec ? ? ? ? ? ? ? di ei mi eo uo].
    eexists _, _, _. split_and!; try done. unfold sub_length. cbn. lia.
  - intros self self' c' Hres%mi_init_geometry_inv.
    destruct Hres as [wn ? ? ? ? ? ? ? ? ? ? ?].
    by eexists _, _, _.
Qed.

(** X17.  The autoencoder's geometry carries no history: running
    [_init_geometry] for a window on a model that already has the
    geometry of another window gives exactly the model that a first
    run for that window gives. *)
Theorem init_geometry_overwrites (w w' : Z) (c : chain)
    (self s1 s2 : autoencoder_model.AutoEncoder) (c1 c2 : chain) :
  run (autoencoder_model._init_geometry w' self) c = OK (s1, c1) →
  run (autoencoder_model._init_geometry w self) c = OK (s2, c2) →
  run (autoencoder_model._init_geometry w s1) c1 = OK (s2, c2).
Proof.
  intros [-> Hfirst]%ae_init_geometry_inv [-> Hsecond]%ae_init_geometry_inv.
  apply ae_init_geometry_run.
  destruct Hfirst as [enc dec beg mfcc end_enc end_ups beg_grcc end_grcc
                        mfcc_child di' ei' mi' eo' uo' Henc Hdec Hbeg Hend
                        Hups Hbg Heg Hpar Hchild _ _ _ _ _ _ _ _].
  destruct Hsecond as [enc2 dec2 beg2 mfcc2 end_enc2 end_ups2 beg_grcc2
                         end_grcc2 mfcc_child2 di ei mi eo uo Henc2 Hdec2
                         Hbeg2 Hend2 Hups2 Hbg2 Heg2 Hpar2 Hchild2
                         Hdi Hei Hmi Heo Huo Ht1 Ht2 Ht3].
  rewrite Henc in Henc2. injection Henc2 as <-.
  rewrite Hdec in Hdec2. injection Hdec2 as <-.
  rewrite Hbeg in Hbeg2. injection Hbeg2 as <-.
  rewrite Hend in Hend2. injection Hend2 as <-.
  rewrite Hups in Hups2. injection Hups2 as <-.
  rewrite Hbg in Hbg2. injection Hbg2 as <-.
  rewrite Heg in Heg2. injection Heg2 as <-.
  rewrite Hpar in Hpar2. injection Hpar2 as <-.
  rewrite Hchild in Hchild2. injection Hchild2 as <-.
  match goal with
  | |- ae_resolved _ ?first _ _ =>
      exact (AeResolved w first c enc
               (set_trim_ups_out
                  ((sub di').1 - (sub uo').1, (sub di').2 - (sub uo').1) dec)
               beg mfcc end_enc end_ups beg_grcc end_grcc mfcc_child
               di ei mi eo uo Henc eq_refl Hbeg Hend Hups Hbg Heg Hpar Hchild
               Hdi Hei Hmi Heo Huo Ht1 Ht2 Ht3)
  end.
Qed.

(** *** Printing the chain *)

Lemma print_loop_lineage fuel c vc l printed :
  lineage c vc l → (length l ≤ fuel)%nat →
  run (autoencoder_model.print_loop fuel vc printed) c
  = OK (Some (printed ++ l), c).
Proof.
  intros Hl. revert fuel printed.
  induction Hl as [|v next_vc l Hchild _ IH]; intros fuel printed Hfuel.
  - destruct fuel; cbn; by rewrite app_nil_r.
  - destruct fuel as [|fuel]; [cbn in Hfuel; lia|].
    cbn [autoencoder_model.print_loop].
    rewrite (run_bind_ask (child v) next_vc c c) by by apply answer_child.
    rewrite IH by (cbn in Hfuel; lia). by rewrite <- app_assoc.
Qed.

Lemma print_loop_inv fuel c vc printed out c' :
  run (autoencoder_model.print_loop fuel vc printed) c = OK (Some out, c') →
  c' = c ∧ ∃ l, lineage c vc l ∧ out = printed ++ l ∧ (length l ≤ fuel)%nat.
Proof.
  revert vc printed.
  induction fuel as [|fuel IH]; intros [v|] printed;
    cbn [autoencoder_model.print_loop].
  - done.
  - intros [= <- <-]. split; [done|]. exists []. rewrite app_nil_r.
    split_and!; [constructor|done|done].
  - intros (next_vc & c1 & Hask & Hrest)%run_bind_OK.
    apply run_read_OK in Hask as [Hchild%answer_child ->]; [|done].
    apply IH in Hrest as (-> & l & Hl & -> & Hlen).
    split; [done|]. exists (v :: l). rewrite <- app_assoc.
    split_and!; [by econstructor|done|cbn; lia].
  - intros [= <- <-]. split; [done|]. exists []. rewrite app_nil_r.
    split_and!; [constructor|done|cbn; lia].
Qed.

(** X14.  [print_geometry] prints the nodes from the parent of the
    encoder's first node to the end of the chain, each once and in
    chain order, and only reads the chain; on a model whose first node
    has no parent it prints nothing.  It returns as soon as the step
    budget covers the chain. *)
Theorem print_geometry_prints_lineage (c : chain)
    (self : autoencoder_model.AutoEncoder) (enc : Encoder) (beg : node)
    (p : option node) :
  autoencoder_model.encoder self = Some enc →
  enc_vc enc !! "beg" = Some beg →
  node_parent c beg = OK p →
  (∀ l fuel,
     lineage c p l → (length l ≤ fuel)%nat →
     run (autoencoder_model.print_geometry fuel self) c = OK (Some l, c)) ∧
  (∀ fuel out c',
     run (autoencoder_model.print_geometry fuel self) c = OK (Some out, c') →
     c' = c ∧ lineage c p out ∧ (length out ≤ fuel)%nat) ∧
  (p = None →
   ∀ fuel, run (autoencoder_model.print_geometry fuel self) c
           = OK (Some [], c)).
Proof.
  intros Henc Hbeg Hparent.
  assert (∀ fuel,
            run (autoencoder_model.print_geometry fuel self) c
            = run (autoencoder_model.print_loop fuel p []) c) as Hrun.
  { intros fuel. unfold autoencoder_model.print_geometry.
    rewrite (run_bind_getattr _ _ _ _ _ Henc).
    rewrite (run_bind_getitem _ _ _ _ _ Hbeg).
    by rewrite (run_bind_ask (parent beg) p c c) by by apply answer_parent. }
  split_and!.
  - intros l fuel Hl Hfuel. rewrite Hrun.
    by rewrite (print_loop_lineage _ _ _ _ _ Hl Hfuel).
  - intros fuel out c'. rewrite Hrun.
    intros (-> & l & Hl & -> & Hlen)%print_loop_inv. done.
  - intros -> fuel. rewrite Hrun. by destruct fuel.
Qed.

End with_resolver.
End geometry_props.

(** ** The forward pass: what it needs, what it leaves, and the window *)

Module run_props.
Import notions prog_facts geometry_facts run_claims.

(** A slice taken at non-negative bounds inside the vector, and what is
    left of it after its first element. *)
Lemma slice_inside {A} (l : list A) a b :
  0 ≤ a ≤ b → b ≤ Z.of_nat (length l) →
  slice (Some a) (Some b) l = take (Z.to_nat (b - a)) (drop (Z.to_nat a) l).
Proof.
  intros Ha Hb. unfold slice, clamp. cbn [from_option].
  destruct (a <? 0) eqn:Hneg; [apply Z.ltb_lt in Hneg; lia|].
  destruct (b <? 0) eqn:Hneg'; [apply Z.ltb_lt in Hneg'; lia|].
  by rewrite !Z.min_l by lia.
Qed.

Lemma slice_tail {A} (l : list A) a w :
  0 ≤ a → 0 ≤ w → a + w ≤ Z.of_nat (length l) →
  slice (Some 1) None (slice (Some a) (Some (a + w)) l)
  = take (Z.to_nat (w - 1)) (drop (Z.to_nat (a + 1)) l) ∧
  length (take (Z.to_nat (w - 1)) (drop (Z.to_nat (a + 1)) l))
  = Z.to_nat (w - 1).
Proof.
  intros Ha Hw Hlen. rewrite slice_from_one, slice_inside by lia.
  replace (a + w - a) with w by lia. split.
  - destruct (decide (w = 0)) as [->|Hpos].
    + change (Z.to_nat 0) with 0%nat. change (Z.to_nat (0 - 1)) with 0%nat.
      by rewrite !take_0.
    + replace (Z.to_nat (a + 1)) with (Z.to_nat a + 1)%nat by lia.
      rewrite <- drop_drop.
      rewrite (take_drop_commute _ (Z.to_nat (w - 1)) 1).
      do 2 f_equal. lia.
  - rewrite length_take, length_drop. lia.
Qed.

Section with_collaborators.
Context `{Collaborators}.

(** Every step of a [run] that returns: the bottleneck is called on the
    encoding and the objective on what that call left. *)
Lemma ae_run_OK vbatch self pred target loss self' :
  autoencoder_model.run vbatch self = OK (pred, target, loss, self') →
  ∃ pre trim enc bn dec obj,
    autoencoder_model.preprocess self = Some pre ∧
    autoencoder_model.trim_dec_out self = Some trim ∧
    autoencoder_model.encoder self = Some enc ∧
    autoencoder_model.bottleneck self = Some bn ∧
    autoencoder_model.decoder self = Some dec ∧
    autoencoder_model.objective self = Some obj ∧
    let onehot := PreProcess_call pre (wav_dec_input vbatch) in
    let called := Bottleneck_call bn (Encoder_call enc (mel_enc_input vbatch)) in
    let judged := Objective_call obj (Some called.2) pred target in
    pred = slice3 None (Some (-1))
             (WaveNet_call dec onehot called.1 (voice_index vbatch)
                (jitter_index vbatch)) ∧
    target = slice2 (Some 1) None
               (slice2 (Some trim.1) (Some trim.2) (wav_dec_input vbatch)) ∧
    loss = judged.1.1 ∧
    self' = autoencoder_model.set_objective
              (metrics_update
                 "mel_grad_sd" (grad_std loss (mel_enc_input vbatch))
                 "bn_grad_sd" (grad_std loss called.1) judged.1.2)
              (autoencoder_model.set_bottleneck (default called.2 judged.2)
                 (autoencoder_model.set_encoding_bn called.1
                    (autoencoder_model.set_wav_onehot_dec onehot self))).
Proof.
  unfold autoencoder_model.run, autoencoder_model.forward.
  destruct (autoencoder_model.preprocess self) as [pre|] eqn:Hpre;
    cbn [getattr mbind result_mbind result_bind]; [|done].
  destruct (autoencoder_model.trim_dec_out self) as [trim|] eqn:Htrim;
    cbn [getattr mbind result_mbind result_bind]; [|done].
  cbn. destruct (autoencoder_model.encoder self) as [enc|] eqn:Henc;
    cbn; [|done].
  destruct (autoencoder_model.bottleneck self) as [bn|] eqn:Hbn;
    cbn; [|done].
  destruct (autoencoder_model.decoder self) as [dec|] eqn:Hdec;
    cbn; [|done].
  destruct (autoencoder_model.objective self) as [obj|] eqn:Hobj;
    cbn; [|done].
  destruct (Objective_call _ _ _ _).2 as [bn'|] eqn:Hleft; cbn;
    rewrite ?Hobj; cbn; intros [= <- <- <- <-];
    exists pre, trim, enc, bn, dec, obj; cbv zeta; rewrite Hleft;
    by split_and!.
Qed.

Lemma mi_run_OK vbatch self pred target loss self' :
  mfcc_inverter.run vbatch self = OK (pred, target, loss, self') →
  ∃ pre trim wn obj,
    mfcc_inverter.preprocess self = Some pre ∧
    mfcc_inverter.trim_dec_out self = Some trim ∧
    mfcc_inverter.wavenet self = Some wn ∧
    mfcc_inverter.objective self = Some obj ∧
    let onehot := PreProcess_call pre (wav_dec_input vbatch) in
    let judged := Objective_call obj None pred target in
    pred = slice3 None (Some (-1))
             (WaveNet_call wn onehot (mel_enc_input vbatch)
                (voice_index vbatch) (jitter_index vbatch)) ∧
    target = slice2 (Some 1) None
               (slice2 (Some trim.1) (Some trim.2) (wav_dec_input vbatch)) ∧
    loss = judged.1.1 ∧
    self' = mfcc_inverter.set_objective
              (metrics_update
                 "mel_grad_sd" (grad_std loss (mel_enc_input vbatch))
                 "mel_grad_mean" (grad_mean loss (mel_enc_input vbatch))
                 judged.1.2)
              (mfcc_inverter.set_wav_onehot_dec onehot self).
Proof.
  unfold mfcc_inverter.run, mfcc_inverter.forward.
  destruct (mfcc_inverter.preprocess self) as [pre|] eqn:Hpre;
    cbn [getattr mbind result_mbind result_bind]; [|done].
  destruct (mfcc_inverter.trim_dec_out self) as [trim|] eqn:Htrim;
    cbn [getattr mbind result_mbind result_bind]; [|done].
  cbn. destruct (mfcc_inverter.wavenet self) as [wn|] eqn:Hwn; cbn; [|done].
  destruct (mfcc_inverter.objective self) as [obj|] eqn:Hobj; cbn; [|done].
  intros [= <- <- <- <-]. by exists pre, trim, wn, obj.
Qed.

(** X15.  A [run] that returns needed the preprocessing, the trim, the
    modules and the objective to be set.  It assigns nothing to the
    configuration, to the preprocessing, the encoder and the decoder,
    or to the geometry.  It leaves [wav_onehot_dec] holding the
    preprocessed decoder input and, in the autoencoder, [encoding_bn]
    holding what the bottleneck returned for the batch; the bottleneck
    is as its own call and then the call of the objective left it; the
    loss is what the objective returned on the bottleneck so left; and
    the objective is as its call left it, but that its metrics hold
    the two gradient statistics of this batch under their two keys,
    every other metric being as the call left it. *)
Theorem run_leaves_model_configuration (vbatch : VirtualBatch) :
  (∀ self pred target loss self',
     autoencoder_model.run vbatch self = OK (pred, target, loss, self') →
     autoencoder_model.init_args self' = autoencoder_model.init_args self ∧
     autoencoder_model.preprocess self' = autoencoder_model.preprocess self ∧
     autoencoder_model.encoder self' = autoencoder_model.encoder self ∧
     autoencoder_model.bn_type self' = autoencoder_model.bn_type self ∧
     autoencoder_model.decoder self' = autoencoder_model.decoder self ∧
     autoencoder_model.vc self' = autoencoder_model.vc self ∧
     autoencoder_model.geometry self' = autoencoder_model.geometry self ∧
     ∃ pre enc bn obj obj',
       autoencoder_model.preprocess self = Some pre ∧
       autoencoder_model.encoder self = Some enc ∧
       autoencoder_model.bottleneck self = Some bn ∧
       autoencoder_model.objective self = Some obj ∧
       is_Some (autoencoder_model.trim_dec_out self) ∧
       is_Some (autoencoder_model.decoder self) ∧
       let called :=
         Bottleneck_call bn (Encoder_call enc (mel_enc_input vbatch)) in
       let judged := Objective_call obj (Some called.2) pred target in
       autoencoder_model.wav_onehot_dec self'
       = Some (PreProcess_call pre (wav_dec_input vbatch)) ∧
       autoencoder_model.encoding_bn self' = Some called.1 ∧
       autoencoder_model.bottleneck self'
       = Some (default called.2 judged.2) ∧
       loss = judged.1.1 ∧
       autoencoder_model.objective self' = Some obj' ∧
       obj_class obj' = obj_class judged.1.2 ∧
       obj_args obj' = obj_args judged.1.2 ∧
       metrics obj' !! "mel_grad_sd"
       = Some (grad_std loss (mel_enc_input vbatch)) ∧
       metrics obj' !! "bn_grad_sd" = Some (grad_std loss called.1) ∧
       ∀ k, k ≠ "mel_grad_sd" → k ≠ "bn_grad_sd" →
            metrics obj' !! k = metrics judged.1.2 !! k) ∧
  (∀ self pred target loss self',
     mfcc_inverter.run vbatch self = OK (pred, target, loss, self') →
     mfcc_inverter.init_args self' = mfcc_inverter.init_args self ∧
     mfcc_inverter.bn_type self' = mfcc_inverter.bn_type self ∧
     mfcc_inverter.preprocess self' = mfcc_inverter.preprocess self ∧
     mfcc_inverter.wavenet self' = mfcc_inverter.wavenet self ∧
     mfcc_inverter.geometry self' = mfcc_inverter.geometry self ∧
     ∃ pre obj obj',
       mfcc_inverter.preprocess self = Some pre ∧
       mfcc_inverter.objective self = Some obj ∧
       is_Some (mfcc_inverter.trim_dec_out self) ∧
       is_Some (mfcc_inverter.wavenet self) ∧
       let judged := Objective_call obj None pred target in
       mfcc_inverter.wav_onehot_dec self'
       = Some (PreProcess_call pre (wav_dec_input vbatch)) ∧
       loss = judged.1.1 ∧
       mfcc_inverter.objective self' = Some obj' ∧
       obj_class obj' = obj_class judged.1.2 ∧
       obj_args obj' = obj_args judged.1.2 ∧
       metrics obj' !! "mel_grad_sd"
       = Some (grad_std loss (mel_enc_input vbatch)) ∧
       metrics obj' !! "mel_grad_mean"
       = Some (grad_mean loss (mel_enc_input vbatch)) ∧
       ∀ k, k ≠ "mel_grad_sd" → k ≠ "mel_grad_mean" →
            metrics obj' !! k = metrics judged.1.2 !! k).
Proof.
  split.
  - intros self pred target loss self'
      (pre & trim & enc & bn & dec & obj & Hpre & Htrim & Henc & Hbn & Hdec &
       Hobj & _ & _ & Hloss & ->)%ae_run_OK.
    split_and!; try done.
    exists pre, enc, bn, obj. eexists. cbv zeta. split_and!; try done.
    + cbn. rewrite lookup_insert_ne by done. by rewrite lookup_insert_eq.
    + cbn. by rewrite lookup_insert_eq.
    + intros k Hk1 Hk2. cbn. by rewrite !lookup_insert_ne.
  - intros self pred target loss self'
      (pre & trim & wn & obj & Hpre & Htrim & Hwn & Hobj & _ & _ & Hloss &
       ->)%mi_run_OK.
    split_and!; try done.
    exists pre, obj. eexists. cbv zeta. split_and!; try done.
    + cbn. rewrite lookup_insert_ne by done. by rewrite lookup_insert_eq.
    + cbn. by rewrite lookup_insert_eq.
    + intros k Hk1 Hk2. cbn. by rewrite !lookup_insert_ne.
Qed.

End with_collaborators.

Section with_resolver.
Context `{Resolver} `{Collaborators}.

(** X16.  [_init_geometry] and [run] fit together: on a model whose
    geometry was initialised for a window of [w] timesteps, the target
    [run] returns holds, for every row of [wav_dec_input], the [w - 1]
    samples that follow position [trim_dec_out[0]], provided that trim
    does not start before the row and the row is long enough for it. *)
Theorem run_target_is_the_window (w : Z) (c : chain)
    (vbatch : VirtualBatch) :
  0 ≤ w →
  (∀ self self1 c' trim pred target loss self2,
     run (autoencoder_model._init_geometry w self) c = OK (self1, c') →
     autoencoder_model.trim_dec_out self1 = Some trim →
     0 ≤ trim.1 →
     Forall (λ row, trim.2 ≤ Z.of_nat (length row)) (wav_dec_input vbatch) →
     autoencoder_model.run vbatch self1 = OK (pred, target, loss, self2) →
     trim.2 = trim.1 + w ∧
     target
     = (λ row, take (Z.to_nat (w - 1)) (drop (Z.to_nat (trim.1 + 1)) row))
         <$> wav_dec_input vbatch ∧
     last_dim2 (Z.to_nat (w - 1)) target) ∧
  (∀ self self1 c' trim pred target loss self2,
     run (mfcc_inverter._init_geometry w self) c = OK (self1, c') →
     mfcc_inverter.trim_dec_out self1 = Some trim →
     0 ≤ trim.1 →
     Forall (λ row, trim.2 ≤ Z.of_nat (length row)) (wav_dec_input vbatch) →
     mfcc_inverter.run vbatch self1 = OK (pred, target, loss, self2) →
     trim.2 = trim.1 + w ∧
     target
     = (λ row, take (Z.to_nat (w - 1)) (drop (Z.to_nat (trim.1 + 1)) row))
         <$> wav_dec_input vbatch ∧
     last_dim2 (Z.to_nat (w - 1)) target).
Proof.
  intros Hw.
  assert (∀ (trim : Z * Z) target,
            trim.2 = trim.1 + w → 0 ≤ trim.1 →
            Forall (λ row, trim.2 ≤ Z.of_nat (length row))
                   (wav_dec_input vbatch) →
            target = slice2 (Some 1) None
                       (slice2 (Some trim.1) (Some trim.2)
                          (wav_dec_input vbatch)) →
            target
            = (λ row, take (Z.to_nat (w - 1))
                        (drop (Z.to_nat (trim.1 + 1)) row))
                <$> wav_dec_input vbatch ∧
            last_dim2 (Z.to_nat (w - 1)) target) as Hwindow.
  { intros [a b] target. cbn [fst snd]. intros -> Ha Hrows ->.
    unfold slice2, last_dim2. rewrite <- list_fmap_compose.
    split.
    - apply Forall_fmap_ext_1. eapply Forall_impl; [exact Hrows|].
      intros row Hrow. cbn. by apply slice_tail.
    - apply Forall_fmap. eapply Forall_impl; [exact Hrows|].
      intros row Hrow. cbn.
      destruct (slice_tail row a w) as [-> Hlen]; done. }
  split.
  - intros self self1 c' trim pred target loss self2
      [_ Hres]%ae_init_geometry_inv Htrim Ha Hrows
      (pre & trim' & _ & _ & _ & _ & _ & Htrim' & _ & _ & _ & _ & _ &
       Htarget & _)%ae_run_OK.
    rewrite Htrim in Htrim'. injection Htrim' as <-.
    assert (trim.2 = trim.1 + w) as Hspan.
    { destruct Hres. cbn in Htrim. injection Htrim as <-. cbn. lia. }
    split; [done|]. by apply Hwindow.
  - intros self self1 c' trim pred target loss self2
      Hres%mi_init_geometry_inv Htrim Ha Hrows
      (pre & trim' & _ & _ & _ & Htrim' & _ & _ & _ & Htarget & _)%mi_run_OK.
    rewrite Htrim in Htrim'. injection Htrim' as <-.
    assert (trim.2 = trim.1 + w) as Hspan.
    { destruct Hres. cbn in Htrim. injection Htrim as <-. cbn. lia. }
    split; [done|]. by apply Hwindow.
Qed.

End with_resolver.
End run_props.

(** ** The claims on the concrete model *)

Module geometry_examples.
Import notions prog_facts geometry_facts geometry_claims chain_model chain_facts
  example.

#[local] Existing Instance chain_model.resolver.
#[local] Existing Instance example.tensors.
#[local] Existing Instance example.collaborators.

Lemma vq_geometry_run :
  run (autoencoder_model._init_geometry 10 vq_model) stages
  = OK (vq_geometry, stages).
Proof. vm_compute. reflexivity. Qed.

Lemma mi_geometry_run :
  run (mfcc_inverter._init_geometry 10 mi_model) stages = OK mi_geometry.
Proof. vm_compute. reflexivity. Qed.



Lemma init_geometry_desired_output_witness :
  omap desired_output
    (trace (autoencoder_model._init_geometry 10 vq_model) stages)
  = replicate 3 (mkGridRange (0, 100000) (0, 10) 1) ∧
  omap desired_output
    (trace (mfcc_inverter._init_geometry 10 mi_model) stages)
  = [mkGridRange (0, 100000) (0, 10) 1].
Proof.
  destruct (@init_geometry_desired_output chain_model.resolver _ _ 10 stages)
    as (_ & Hae & _ & Hmi).
  split.
  - exact (Hae vq_model vq_geometry stages vq_geometry_run).
  - exact (Hmi mi_model mi_geometry.1 mi_geometry.2 mi_geometry_run).
Defined.

End geometry_examples.

Module model_examples.
Import notions prog_facts geometry_facts autoencoder_model codebook_facts
  codebook_claims assembly_claims run_claims example geometry_examples.

#[local] Existing Instance example.tensors.
#[local] Existing Instance example.collaborators.

Lemma unknown_bottleneck_type_witness :
  (∀ m, _initialize (with_args gan_args) ≠ OK m) ∧
  _initialize (with_args gan_args) = Raise (NameError "InvalidArgument").
Proof.
  destruct (@unknown_bottleneck_type_raises_NameError tensors collaborators
              (with_args gan_args) gan_args (PStr "gan") (PInt 256)
              eq_refl eq_refl) as [Hnone Hraise].
  { apply (bool_decide_unpack _). by vm_compute. }
  split; [exact Hnone|]. by apply Hraise.
Defined.

Lemma init_codebook_usage_error_witness :
  init_codebook 5 junk source 3 ae_model
  = Fail (RuntimeError usage_error) (ae_model, source).
Proof.
  apply (@init_codebook_usage_error tensors collaborators
           5 junk source 3 ae_model (PStr "ae")).
  - reflexivity.
  - apply (bool_decide_unpack _). by vm_compute.
Defined.

Lemma vq_initialised_run :
  init_codebook 5 junk source 3 vq_model
  = Done (vq_initialised.1, vq_initialised.2).
Proof. vm_compute. reflexivity. Qed.







End model_examples.

(** ** The further properties on the concrete model *)

Module property_examples.
Import notions prog_facts geometry_facts autoencoder_model codebook_facts
  assembly_props codebook_props geometry_props run_props example
  geometry_examples model_examples.

#[local] Existing Instance chain_model.resolver.
#[local] Existing Instance example.tensors.
#[local] Existing Instance example.collaborators.

Lemma vq_model_run : _initialize (with_args vq_args) = OK vq_model.
Proof. vm_compute. reflexivity. Qed.

Lemma ae_model_run : _initialize (with_args ae_args) = OK ae_model.
Proof. vm_compute. reflexivity. Qed.

Lemma mi_model_run :
  mfcc_inverter._initialize
    (mfcc_inverter.set_init_args mi_args mfcc_inverter.blank)
  = OK mi_model.
Proof. vm_compute. reflexivity. Qed.

Lemma initialize_needs_configuration_witness :
  ∃ ia t,
    init_args (with_args vq_args) = Some ia ∧
    bn_params ia !! "type" = Some t ∧ t ∈ known_types ∧
    is_Some (dec_params ia !! "n_quant") ∧
    is_Some (enc_params ia !! "n_out") ∧
    is_Some (bn_params ia !! "n_out") ∧
    (t = PStr "vae" → is_Some (bn_params ia !! "free_nats")) ∧
    enc_params ia !! "n_in" = None ∧
    enc_params ia !! "parent_vc" = None ∧
    dec_params ia !! "parent_vc" = None ∧
    dec_params ia !! "n_lc_in" = None ∧
    (t ∈ vq_types → bn_params ia !! "n_in" = None) ∧
    (t = PStr "vqvae-ema" → bn_params ia !! "training" = None).
Proof.
  exact (@initialize_needs_configuration tensors collaborators
           (with_args vq_args) vq_model vq_model_run).
Defined.

Lemma initialize_routes_configuration_witness :
  ∃ ia t enc cls bn_kw dec dec_kw enc_end n_lc_in,
    init_args (with_args ae_args) = Some ia ∧
    init_args ae_model = Some ia ∧
    bn_params ia !! "type" = Some t ∧
    bn_type ae_model = Some t ∧
    encoder ae_model = Some enc ∧
    enc_kwargs enc
    = <["parent_vc" := PNone]> (<["n_in" := n_mel_chan ia]> (enc_params ia)) ∧
    bottleneck ae_model = Some (Bottleneck_new cls bn_kw) ∧
    bn_kw !! "n_in" = enc_params ia !! "n_out" ∧
    is_Some (bn_kw !! "n_in") ∧
    bn_kw !! "type" = None ∧
    (t ∈ vq_types →
     ∀ k, k ∉ ["type"; "n_in"; "training"] →
          bn_kw !! k = bn_params ia !! k) ∧
    (t ∉ vq_types →
     dom bn_kw = {[ "n_in"; "n_out" ]} ∧
     bn_kw !! "n_out" = bn_params ia !! "n_out") ∧
    enc_vc enc !! "end" = Some enc_end ∧
    bn_params ia !! "n_out" = Some n_lc_in ∧
    decoder ae_model = Some dec ∧
    dec = post_init (new_WaveNet dec_kw) ∧
    dec_kw
    = <["n_lc_in" := n_lc_in]>
        (<["parent_vc" := PRef enc_end]> (dec_params ia)) ∧
    trim_ups_out dec = None ∧
    vc ae_model = Some (wn_vc dec).
Proof.
  exact (@initialize_routes_configuration tensors collaborators
           (with_args ae_args) ae_model ae_model_run).
Defined.

Lemma inverter_initialize_configuration_witness :
  ∃ ia n_lc_in wn obj,
    mfcc_inverter.init_args
      (mfcc_inverter.set_init_args mi_args mfcc_inverter.blank) = Some ia ∧
    mfcc_inverter.init_args mi_model = Some ia ∧
    is_Some (mfcc_inverter.dec_params ia !! "n_quant") ∧
    mfcc_inverter.mi_params ia !! "n_lc_in" = Some n_lc_in ∧
    mfcc_inverter.dec_params ia !! "parent_vc" = None ∧
    mfcc_inverter.dec_params ia !! "n_lc_in" = None ∧
    mfcc_inverter.bn_type mi_model = Some (PStr "none") ∧
    mfcc_inverter.wavenet mi_model = Some wn ∧
    wn_kwargs wn
    = <["n_lc_in" := n_lc_in]>
        (<["parent_vc" := PNone]> (mfcc_inverter.dec_params ia)) ∧
    trim_ups_out wn = None ∧
    mfcc_inverter.objective mi_model = Some obj ∧ metrics obj = ∅.
Proof.
  exact (@inverter_initialize_configuration tensors collaborators
           _ mi_model mi_model_run).
Defined.

(** The example autoencoder with its geometry can be assembled again
    from its configuration. *)
Lemma vq_geometry_assembles : ∃ m0, _initialize vq_geometry = OK m0.
Proof. eexists. vm_compute. reflexivity. Qed.

Lemma unpickled_model_has_no_geometry_witness :
  trim_dec_out vq_geometry = Some (3, 13) ∧
  ∃ st m,
    __getstate__ vq_geometry = OK st ∧
    __setstate__ st blank = OK m ∧
    __getstate__ m = OK st ∧
    geometry m = (None, None, None, None, None, None, None) ∧
    run (batch [] [[0; 1; 2]]) m = Raise (AttributeError "trim_dec_out").
Proof.
  split; [by vm_compute|].
  destruct vq_geometry_assembles as [m0 Hm0].
  destruct (proj1 (@unpickled_model_has_no_geometry tensors collaborators)
              vq_geometry m0 (batch [] [[0; 1; 2]]) Hm0)
    as (st & m & Hget & Hset & Hget' & _ & Hgeo & Hrun).
  by exists st, m.
Defined.

Lemma constructor_takes_speakers_from_dataset_witness :
  prefixed_items opts_dict "dec_" !! "n_speakers" = Some (PInt 7) ∧
  ∃ m dec,
    __init__ prefixed_items opts_dict dataset blank = OK m ∧
    decoder m = Some dec ∧
    wn_kwargs dec !! "n_speakers" = Some (PInt 3).
Proof.
  split; [by vm_compute|].
  assert (∃ m, __init__ prefixed_items opts_dict dataset blank = OK m)
    as [m Hm] by (eexists; vm_compute; reflexivity).
  destruct (proj1 (@constructor_takes_speakers_from_dataset
                     tensors collaborators prefixed_items opts_dict dataset)
              blank m Hm)
    as (ia & training & enc & dec & st & _ & _ & _ & _ & _ & Hdec & Hsp & _).
  by exists m, dec.
Defined.

Lemma init_codebook_nonpositive_draws_nothing_witness :
  init_codebook 0 junk source (-1) vq_model
  = Fail (ValueError "negative dimensions are not allowed")
      (vq_model, source).
Proof.
  destruct (@init_codebook_nonpositive_draws_nothing tensors collaborators
              0%nat junk source (-1) vq_model ltac:(lia)) as [_ Hneg].
  eapply (Hneg ltac:(lia)); [by vm_compute| |by vm_compute|by vm_compute].
  apply (bool_decide_unpack _). by vm_compute.
Defined.

Lemma short_source_run :
  init_codebook 5 junk short_source 5 vq_model
  = Fail StopIteration
      (vq_model, {| items := items short_source; pos := 1 |}).
Proof. vm_compute. reflexivity. Qed.

Lemma init_codebook_failure_leaves_model_witness :
  items {| items := items short_source; pos := 1 |} = items short_source ∧
  (pos short_source ≤ 1)%nat ∧
  ((∀ attr, StopIteration ≠ AttributeError attr) → vq_model = vq_model) ∧
  (bn_type vq_model ≠ Some (PStr "vqvae-ema") → vq_model = vq_model) ∧
  (StopIteration = StopIteration → items short_source 1%nat = None).
Proof.
  exact (@init_codebook_failure_leaves_model tensors collaborators
           5%nat junk short_source _ 5 vq_model vq_model StopIteration
           short_source_run).
Defined.

Lemma init_codebook_stops_at_enough_rows_witness :
  (pos source < pos vq_initialised.2)%nat ∧
  Z.of_nat (length (drawn_rows vq_model (items source) (pos source)
                      (pos vq_initialised.2 - pos source - 1))) < 3 ∧
  3 ≤ Z.of_nat (length (drawn_rows vq_model (items source) (pos source)
                          (pos vq_initialised.2 - pos source))).
Proof.
  exact (@init_codebook_stops_at_enough_rows tensors collaborators
           5%nat junk source vq_initialised.2 3 vq_model vq_initialised.1
           ltac:(lia) vq_initialised_run).
Defined.

Lemma init_codebook_ema_statistics_witness :
  ∃ bn bn' cb',
    bottleneck vq_model = Some bn ∧
    vq_initialised.1 = set_bottleneck bn' vq_model ∧
    emb bn' = Some cb' ∧
    bn_class bn' = bn_class bn ∧ bn_kwargs bn' = bn_kwargs bn ∧
    ema_gamma_comp bn' = ema_gamma_comp bn ∧
    n_sum_ones bn' = n_sum_ones bn ∧
    (bn_type vq_model = Some (PStr "vqvae-ema") →
     ∃ g ones,
       ema_gamma_comp bn = Some g ∧ n_sum_ones bn = Some ones ∧
       ema_numer bn' = Some (scale_rows cb' g) ∧
       ema_denom bn' = Some (scale_counts ones g)) ∧
    (bn_type vq_model = Some (PStr "vqvae") →
     ema_numer bn' = ema_numer bn ∧ ema_denom bn' = ema_denom bn).
Proof.
  exact (@init_codebook_ema_statistics tensors collaborators
           5%nat junk source vq_initialised.2 3 vq_model vq_initialised.1
           vq_initialised_run).
Defined.

Lemma init_geometry_needs_parent_witness :
  vconv.run (mfcc_inverter._init_geometry 10 orphan_mi_model) stages
  = Raise (AttributeError "in_len") ∧
  ∀ r, vconv.run (autoencoder_model._init_geometry 10 orphan_vq_model) stages
       ≠ OK r.
Proof.
  destruct (@init_geometry_needs_parent chain_model.resolver
              tensors collaborators 10 stages) as [Hae Hmi].
  split.
  - eapply (Hmi orphan_mi_model _ 4%nat _ _ 0%nat);
      [reflexivity|by vm_compute|vm_compute; reflexivity|by vm_compute|
       by vm_compute|by eexists].
  - eapply (Hae orphan_vq_model _ 0%nat);
      [reflexivity|by vm_compute|by vm_compute].
Defined.

Lemma init_geometry_touches_only_geometry_witness :
  stages = stages ∧
  init_args vq_geometry = init_args vq_model ∧
  preprocess vq_geometry = preprocess vq_model ∧
  encoder vq_geometry = encoder vq_model ∧
  bottleneck vq_geometry = bottleneck vq_model ∧
  objective vq_geometry = objective vq_model ∧
  bn_type vq_geometry = bn_type vq_model ∧
  vc vq_geometry = vc vq_model ∧
  wav_onehot_dec vq_geometry = wav_onehot_dec vq_model ∧
  encoding_bn vq_geometry = encoding_bn vq_model ∧
  ∃ dec dec',
    decoder vq_model = Some dec ∧ decoder vq_geometry = Some dec' ∧
    wn_kwargs dec' = wn_kwargs dec ∧ wn_vc dec' = wn_vc dec ∧
    wn_layers dec' = wn_layers dec.
Proof.
  exact (proj1 (@init_geometry_touches_only_geometry chain_model.resolver
                  tensors collaborators 10 stages)
           vq_model vq_geometry stages vq_geometry_run).
Defined.

Lemma trim_ups_out_spans_decoder_input_witness :
  (∃ dec t d,
     decoder vq_geometry = Some dec ∧ trim_ups_out dec = Some t ∧
     dec_in_len vq_geometry = Some d ∧ t.2 - t.1 = d) ∧
  (∃ wn d m,
     mfcc_inverter.wavenet mi_geometry.1 = Some wn ∧
     trim_ups_out wn = Some (0, d) ∧
     mfcc_inverter.dec_in_len mi_geometry.1 = Some d ∧
     mfcc_inverter.enc_in_mel_len mi_geometry.1 = Some m ∧
     mfcc_inverter.embed_len mi_geometry.1 = Some m).
Proof.
  destruct (@trim_ups_out_spans_decoder_input chain_model.resolver
              tensors collaborators 10 stages) as [Hae Hmi].
  split.
  - exact (Hae vq_model vq_geometry stages vq_geometry_run).
  - exact (Hmi mi_model mi_geometry.1 mi_geometry.2 mi_geometry_run).
Defined.

Lemma stages_lineage : lineage stages (Some 0%nat) [0; 1; 2; 3; 4]%nat.
Proof. repeat (econstructor; [by vm_compute|]). constructor. Qed.

Lemma print_geometry_prints_lineage_witness :
  vconv.run (print_geometry 5 vq_model) stages
  = OK (Some [0; 1; 2; 3; 4]%nat, stages).
Proof.
  destruct (@print_geometry_prints_lineage chain_model.resolver
              tensors stages vq_model
              (new_Encoder
                 (<["parent_vc" := PNone]>
                    (<["n_in" := PInt 80]> {[ "n_out" := PInt 64 ]})))
              1%nat (Some 0%nat)) as [Hprint _];
    [by vm_compute|by vm_compute|by vm_compute|].
  apply Hprint; [exact stages_lineage|cbn; lia].
Defined.

(** One batch through the example autoencoder. *)
Lemma vq_geometry_runs :
  ∃ pred target loss self',
    run (batch [] [[0; 1; 2; 3; 4; 5; 6; 7; 8; 9; 10; 11; 12]]) vq_geometry
    = OK (pred, target, loss, self').
Proof. eexists _, _, _, _. vm_compute. reflexivity. Qed.

Lemma run_leaves_model_configuration_witness :
  ∃ pred target loss self',
    run (batch [] [[0; 1; 2; 3; 4; 5; 6; 7; 8; 9; 10; 11; 12]]) vq_geometry
    = OK (pred, target, loss, self') ∧
    init_args self' = init_args vq_geometry ∧
    encoder self' = encoder vq_geometry ∧
    decoder self' = decoder vq_geometry ∧
    geometry self' = geometry vq_geometry ∧
    ∃ obj',
      objective self' = Some obj' ∧
      is_Some (metrics obj' !! "mel_grad_sd") ∧
      is_Some (metrics obj' !! "bn_grad_sd").
Proof.
  destruct vq_geometry_runs as (pred & target & loss & self' & Hrun).
  exists pred, target, loss, self'. split; [done|].
  destruct (proj1 (@run_leaves_model_configuration tensors collaborators
                     (batch [] [[0; 1; 2; 3; 4; 5; 6; 7; 8; 9; 10; 11; 12]]))
              vq_geometry pred target loss self' Hrun)
    as (Hia & _ & Henc & _ & Hdec & _ & Hgeo & pre & enc & bn & obj &
        obj' & _ & _ & _ & _ & _ & _ & _ & _ & _ & _ & Hobj' &
        _ & _ & Hsd & Hbsd & _).
  split_and!; try done. exists obj'. by rewrite Hsd, Hbsd.
Defined.

Lemma run_target_is_the_window_witness :
  ∃ pred target loss self',
    run (batch [] [[0; 1; 2; 3; 4; 5; 6; 7; 8; 9; 10; 11; 12]]) vq_geometry
    = OK (pred, target, loss, self') ∧
    target = [[4; 5; 6; 7; 8; 9; 10; 11; 12]] ∧
    last_dim2 9 target.
Proof.
  destruct vq_geometry_runs as (pred & target & loss & self' & Hrun).
  exists pred, target, loss, self'. split; [done|].
  destruct (proj1 (@run_target_is_the_window chain_model.resolver
                     tensors collaborators 10 stages
                     (batch [] [[0; 1; 2; 3; 4; 5; 6; 7; 8; 9; 10; 11; 12]])
                     ltac:(lia))
              vq_model vq_geometry stages (3, 13) pred target loss self'
              vq_geometry_run)
    as (_ & Htarget & Hlast); [by vm_compute|cbn; lia| |exact Hrun|].
  - repeat constructor. cbn. lia.
  - split; [exact Htarget|exact Hlast].
Defined.

(** The example autoencoder takes the geometry of a window of seven
    samples as well. *)
Lemma vq_geometry_seven :
  ∃ s1, vconv.run (_init_geometry 7 vq_model) stages = OK (s1, stages).
Proof. eexists. vm_compute. reflexivity. Qed.

Lemma init_geometry_overwrites_witness :
  ∃ s1,
    vconv.run (_init_geometry 7 vq_model) stages = OK (s1, stages) ∧
    vconv.run (_init_geometry 10 s1) stages = OK (vq_geometry, stages).
Proof.
  destruct vq_geometry_seven as [s1 Hseven]. exists s1. split; [done|].
  exact (@init_geometry_overwrites chain_model.resolver tensors
           10 7 stages vq_model s1 vq_geometry stages stages
           Hseven vq_geometry_run).
Defined.

End property_examples.
